(** * reV: chunked dataset summaries, node dispatch and config preflight

    A shallow embedding of the partition / dispatch / merge code of reV:

    - [reV/utilities/qa_qc.py]: [Summarize._compute_sites_summary],
      [Summarize._compute_ds_summary] and [Summarize.summarize_dset];
    - [reV/generation/cli_gen.py]: the [peregrine] command;
    - [reV/config/supply_curve_configs.py]: [AggregationConfig._preflight];

    and of the code around it:

    - [reV/utilities/qa_qc.py]: [Summarize.summarize_means],
      [Summarize.run] and the class [SummaryPlots];
    - [reV/generation/cli_gen.py]: [main], [direct], [local] and
      [from_config];
    - [reV/config/rep_profiles_config.py]: [RepProfilesConfig].

    Python values are modelled by inductive types, exceptions by the
    [Raise] outcome of [result], dictionaries by [gmap], the process pool by
    an explicit pool state driven by a completion schedule. *)

From Stdlib Require Import ZArith Lia Ascii.
From stdpp Require Import base list gmap strings pretty sorting.

Local Open Scope Z_scope.

(** ** Outcomes of a call *)

(** The exceptions the embedded code can raise.  [InvalidPartitionError] and
    [MergeIntegrityError] are the names the specification uses; no function of
    the sources raises them. *)
Inductive PyError :=
| TypeError (msg : string)
| ZeroDivisionError (msg : string)
| ValueError (msg : string)
| KeyError (key : string)
| UnboundLocalError (msg : string)
| ConfigError (msg : string)
| InvalidPartitionError (msg : string)
| MergeIntegrityError (msg : string).

(** A call returns a value, raises, or never returns ([Blocks]: the caller
    waits on a future that no worker ever completes). *)
Inductive result (A : Type) :=
| Ok (a : A)
| Raise (e : PyError)
| Blocks.
Arguments Ok {A} a.
Arguments Raise {A} e.
Arguments Blocks {A}.

(** Sequencing: an exception (or a blocked call) ends the computation. *)
Global Instance result_bind : MBind result := λ A B k r,
  match r with
  | Ok a => k a
  | Raise e => Raise e
  | Blocks => Blocks
  end.

Global Instance result_ret : MRet result := λ A a, Ok a.

Definition is_Ok {A} (r : result A) : bool :=
  match r with Ok _ => true | _ => false end.

(** ** Python and numpy primitives used by the sources *)

(** [max_workers > 1] and the like: ordering an [int] against [None] is a
    [TypeError] in Python 3 (the sources are Python 3: [super().__init__]). *)
Definition py_gt (x : option Z) (y : Z) : result bool :=
  match x with
  | Some v => Ok (y <? v)
  | None =>
      Raise (TypeError
               "'>' not supported between instances of 'NoneType' and 'int'")
  end.

(** [ceil(a / b)] on integers: true division raises on a zero divisor, the
    ceiling of the quotient is [- floor (- a / b)] ([Z.div] is floor division).
    Floating-point rounding of the quotient is not modelled. *)
Definition ceil_div (a b : Z) : result Z :=
  if b =? 0 then Raise (ZeroDivisionError "division by zero")
  else Ok (- ((- a) / b)).

(** [np.arange(n)] *)
Definition arange (n : nat) : list nat := seq 0 n.

(** [ary[st:end]] for [0 <= st], [0 <= end] *)
Definition py_slice {A} (ary : list A) (st en : nat) : list A :=
  take (en - st) (drop st ary).

Fixpoint cumsum_from (acc : nat) (l : list nat) : list nat :=
  match l with
  | [] => []
  | x :: l' => (acc + x)%nat :: cumsum_from (acc + x)%nat l'
  end.

(** [np.array(l).cumsum()] *)
Definition cumsum (l : list nat) : list nat := cumsum_from 0%nat l.

(** [section_sizes] of [np.array_split]:
    [[0] + extras * [Neach_section + 1] + (Nsections - extras) * [Neach_section]] *)
Definition section_sizes (Ntotal Nsections : nat) : list nat :=
  let Neach_section := (Ntotal / Nsections)%nat in
  let extras := (Ntotal mod Nsections)%nat in
  [0%nat] ++ replicate extras (Neach_section + 1)%nat
          ++ replicate (Nsections - extras)%nat Neach_section.

(** [np.array_split(ary, indices_or_sections)] along axis 0, for an integer
    number of sections. *)
Definition array_split {A} (ary : list A) (indices_or_sections : Z)
  : result (list (list A)) :=
  let Ntotal := length ary in
  if indices_or_sections <=? 0
  then Raise (ValueError "number sections must be larger than 0.")
  else
    let Nsections := Z.to_nat indices_or_sections in
    let div_points := cumsum (section_sizes Ntotal Nsections) in
    Ok (map (λ i, py_slice ary (nth i div_points 0%nat)
                               (nth (i + 1) div_points 0%nat))
            (seq 0 Nsections)).

(** [pd.concat(objs)] on tables given as lists of rows. *)
Definition pd_concat {A} (objs : list (list A)) : result (list A) :=
  match objs with
  | [] => Raise (ValueError "No objects to concatenate")
  | _ => Ok (concat objs)
  end.

(** ** The process pool

    [SpawnProcessPool] is a [concurrent.futures] executor.  [submit] hands a
    task to the pool and returns a future; workers finish tasks in an order the
    caller does not control, given here by a completion schedule (the list of
    task numbers in the order in which they finish); [future.result()] waits
    until that very task has finished and returns its outcome, re-raising the
    exception of a task that raised.  Workers are pure, so a task is recorded
    by the outcome it will produce. *)

Section Pool.
Context {Res : Type}.

Record Pool := {
  submitted : list (result Res);
  finished : gmap nat (result Res)
}.

Definition new_pool : Pool := {| submitted := []; finished := ∅ |}.

(** [ex.submit(fn, *args)]: the future is the task's number. *)
Definition submit (ex : Pool) (task : result Res) : Pool * nat :=
  ({| submitted := submitted ex ++ [task]; finished := finished ex |},
   length (submitted ex)).

(** A worker finishes task [k]. *)
Definition complete (ex : Pool) (k : nat) : Pool :=
  match submitted ex !! k with
  | Some r =>
      {| submitted := submitted ex; finished := <[k := r]> (finished ex) |}
  | None => ex
  end.

(** [future.result()]: let workers finish tasks until task [fut] is among the
    finished ones. *)
Fixpoint future_result (fut : nat) (ex : Pool) (sched : list nat)
  : result (Res * Pool * list nat) :=
  match finished ex !! fut with
  | Some (Ok r) => Ok (r, ex, sched)
  | Some (Raise e) => Raise e
  | Some Blocks => Blocks
  | None =>
      match sched with
      | [] => Blocks
      | k :: sched' => future_result fut (complete ex k) sched'
      end
  end.

(** [[future.result() for future in futures]] *)
Fixpoint collect_results (futures : list nat) (ex : Pool) (sched : list nat)
  : result (list Res) :=
  match futures with
  | [] => Ok []
  | fut :: futures' =>
      '(r, ex', sched') ← future_result fut ex sched;
      rs ← collect_results futures' ex' sched';
      Ok (r :: rs)
  end.

(** The submission loop: [futures.append(ex.submit(fn, ..., arg))] for each
    argument, in order. *)
Definition submit_all {Arg} (fn : Arg → result Res) (args : list Arg)
  : Pool * list nat :=
  foldl (λ '(ex, futures) arg,
           let '(ex', fut) := submit ex (fn arg) in (ex', futures ++ [fut]))
        (new_pool, []) args.

End Pool.
Arguments Pool : clear implicits.

(** ** The summary tables of [Summarize] *)

Section Summarize.
Context {V Stats : Type}.
(** [describe()] of one column, without its [count] entry: mean, std, min,
    quartiles and max, computed by pandas. *)
Variable describe : list V → Stats.
(** The sum of a column accumulates with [add] from [zero]; nothing is
    assumed of them, so they may round as floating-point addition does. *)
Variable zero : V.
Variable add : V → V → V.

(** A dataset of the .h5 file: its shape, its cells, addressed by their
    indices, and its storage chunk size [ds_chunks], which [summarize_dset]
    divides the number of sites by and which is therefore a number here. *)
Record Dataset := {
  shape : list nat;
  chunks : Z;
  cell : list nat → V
}.

(** The open [Resource] handler: the index of the [meta] table (one [gid] per
    site) and the datasets by name. *)
Record Resource := {
  meta_index : list Z;
  dsets : gmap string Dataset
}.

(** One row of a table of site statistics. *)
Record Row := {
  gid : Z;
  stats : Stats;
  sum : V
}.

(** The two kinds of table [summarize_dset] returns: the statistics of the
    sites of a 2-D dataset, one row per site under a named index, and the
    statistics of a 1-D dataset, one column named after it. *)
Inductive DataFrame :=
| SitesSummary (index_name : string) (rows : list Row)
| DsSummary (column : string) (ds_stats : Stats) (ds_sum : V).

(** What a call does besides returning: [logger.warning(msg)], [warn(msg)]
    and [summary.to_csv(out_path)]. *)
Inductive Effect :=
| LoggerWarning (msg : string)
| Warn (msg : string)
| ToCsv (path : string) (df : DataFrame).

(** [f.get_dset_properties(ds_name)], without the dtype. *)
Definition get_dset_properties (f : Resource) (ds_name : string)
  : result (list nat * Z) :=
  match dsets f !! ds_name with
  | Some d => Ok (shape d, chunks d)
  | None => Raise (KeyError ds_name)
  end.

(** [h5_fhandle[ds_name, :, sites]]: one row per time step, one column per
    requested site. *)
Definition getitem_sites (f : Resource) (ds_name : string) (sites : list nat)
  : result (list (list V)) :=
  match dsets f !! ds_name with
  | Some d =>
      Ok (map (λ t, map (λ s, cell d [t; s]) sites)
              (seq 0 (nth 0 (shape d) 0%nat)))
  | None => Raise (KeyError ds_name)
  end.

(** [h5_fhandle[ds_name, :]] *)
Definition getitem_all (f : Resource) (ds_name : string) : result (list V) :=
  match dsets f !! ds_name with
  | Some d => Ok (map (λ t, cell d [t]) (seq 0 (nth 0 (shape d) 0%nat)))
  | None => Raise (KeyError ds_name)
  end.

(** [h5_fhandle['meta', sites].index] *)
Definition meta_sites_index (f : Resource) (sites : list nat) : list Z :=
  map (λ s, nth s (meta_index f) 0) sites.

(** Column [j] of a 2-D array. *)
Definition column (data : list (list V)) (j : nat) : list V :=
  map (λ row, nth j row zero) data.

(** [data.sum()] of a 1-D array. *)
Definition np_sum (data : list V) : V := foldl add zero data.

(** [data.sum(axis=0)] of a 2-D array with [ncols] columns. *)
Definition sum_axis0 (data : list (list V)) (ncols : nat) : list V :=
  map (λ j, np_sum (column data j)) (seq 0 ncols).

(** [Summarize._compute_sites_summary]: the rows of the returned table, one
    per requested site, labelled by the site's [gid].  [sites = None] stands
    for all the sites, one per row of [meta].  ([summarize_dset] overwrites
    the name of the index, which is therefore not kept here.) *)
Definition _compute_sites_summary (f : Resource) (ds_name : string)
    (sites : option (list nat)) : result (list Row) :=
  let sites :=
    match sites with
    | Some sites => sites
    | None => seq 0 (length (meta_index f))
    end in
  let sites_meta_index := meta_sites_index f sites in
  sites_data ← getitem_sites f ds_name sites;
  let sites_summary :=
    imap (λ j g, (g, describe (column sites_data j))) sites_meta_index in
  let sums := sum_axis0 sites_data (length sites) in
  Ok (zip_with (λ '(g, st) sm, {| gid := g; stats := st; sum := sm |})
               sites_summary sums).

(** [Summarize._compute_ds_summary] *)
Definition _compute_ds_summary (f : Resource) (ds_name : string)
  : result DataFrame :=
  ds_data ← getitem_all f ds_name;
  Ok (DsSummary ds_name (describe ds_data) (np_sum ds_data)).

Definition serial_msg : string :=
  "Computing summary statistics for 1D datasets will proceed in serial".

(** [Summarize.summarize_dset].  [sched] is the order in which the pool's
    workers finish; the serial paths do not look at it. *)
Definition summarize_dset (f : Resource) (ds_name : string)
    (process_size max_workers : option Z) (out_path : option string)
    (sched : list nat) : result (DataFrame * list Effect) :=
  '(ds_shape, ds_chunks) ← get_dset_properties f ds_name;
  '(summary, log) ←
    (if decide (1 < length ds_shape)%nat then
       let sites := arange (nth 1 ds_shape 0%nat) in
       parallel ← py_gt max_workers 1;
       summary ←
         (if parallel : bool then
            let process_size := default ds_chunks process_size in
            n ← ceil_div (Z.of_nat (length sites)) process_size;
            sites ← array_split sites n;
            let '(ex, futures) :=
              submit_all (λ site_slice,
                            _compute_sites_summary f ds_name (Some site_slice))
                         sites in
            summary ← collect_results futures ex sched;
            pd_concat summary
          else
            match process_size with
            | None => _compute_sites_summary f ds_name (Some sites)
            | Some process_size =>
                n ← ceil_div (Z.of_nat (length sites)) process_size;
                sites ← array_split sites n;
                summary ←
                  mapM (λ site_slice,
                          _compute_sites_summary f ds_name (Some site_slice))
                       sites;
                pd_concat summary
            end);
       Ok (SitesSummary "gid" summary, [])
     else
       requested ←
         (match process_size with
          | Some _ => Ok true
          | None => py_gt max_workers 1
          end);
       let log :=
         if requested : bool
         then [LoggerWarning serial_msg; Warn serial_msg] else [] in
       summary ← _compute_ds_summary f ds_name;
       Ok (summary, log));
  match out_path with
  | Some path => Ok (summary, log ++ [ToCsv path summary])
  | None => Ok (summary, log)
  end.

(** *** Notions used to state the properties of [summarize_dset] *)

(** A completion schedule in which each of the [n] submitted tasks finishes
    at some point. *)
Definition completes_all (sched : list nat) (n : nat) : Prop :=
  ∀ k, (k < n)%nat → k ∈ sched.

(** The number of sections [summarize_dset] asks [array_split] for. *)
Definition n_sections (n_sites : nat) (process_size : Z) : nat :=
  Z.to_nat (- (- Z.of_nat n_sites / process_size)).

(** The time series of site [s] in a 2-D dataset. *)
Definition site_series (d : Dataset) (s : nat) : list V :=
  map (λ t, cell d [t; s]) (seq 0 (nth 0 (shape d) 0%nat)).

(** The row of site [s]: its [gid] and the statistics and the sum of its own
    time series. *)
Definition site_row (f : Resource) (d : Dataset) (s : nat) : Row :=
  {| gid := nth s (meta_index f) 0;
     stats := describe (site_series d s);
     sum := np_sum (site_series d s) |}.

(** What is written to [out_path]. *)
Definition csv_log (out_path : option string) (summary : DataFrame)
  : list Effect :=
  match out_path with
  | Some path => [ToCsv path summary]
  | None => []
  end.

(** The table with one row per site of the dataset, in site order. *)
Definition sites_table (f : Resource) (d : Dataset) : DataFrame :=
  SitesSummary "gid" (map (site_row f d) (arange (nth 1 (shape d) 0%nat))).

(** The process size [summarize_dset] plans the chunks of a 2-D dataset
    with, when it plans any: the given one, or the storage chunk size on the
    parallel path; [None] on the single pass. *)
Definition planning_size (d : Dataset) (process_size : option Z) (w : Z)
  : option Z :=
  if 1 <? w then Some (default (chunks d) process_size) else process_size.

(** A request for chunking or for parallel workers, as [summarize_dset]
    tests it on a 1-D dataset:
    [process_size is not None or max_workers > 1]. *)
Definition requested (process_size max_workers : option Z) : bool :=
  match process_size, max_workers with
  | Some _, _ => true
  | None, Some w => 1 <? w
  | None, None => false
  end.

End Summarize.

(** ** Python strings *)

(** The one-character string made of a double quote. *)
Definition dquote : string := String (ascii_of_nat 34) EmptyString.

(** [s.endswith(suffix)] *)
Definition endswith (s suffix : string) : bool :=
  String.prefix (String.rev suffix) (String.rev s).

(** Dropping the leading characters that occur in [chars]. *)
Fixpoint lstrip_chars (chars : list ascii) (l : list ascii) : list ascii :=
  match l with
  | [] => []
  | c :: l' => if bool_decide (c ∈ chars) then lstrip_chars chars l' else l
  end.

(** [s.strip(chars)]: [chars] is a set of characters, and every leading and
    trailing character of [s] that belongs to it is removed. *)
Definition py_strip (s chars : string) : string :=
  let cs := String.list_ascii_of_string chars in
  String.string_of_list_ascii
    (rev (lstrip_chars cs
            (rev (lstrip_chars cs (String.list_ascii_of_string s))))).

(** ['{}'.format(i)] for a non-negative [int] *)
Definition format_int (i : nat) : string := pretty i.

(** [repr] of a list of plain strings *)
Fixpoint join (sep : string) (l : list string) : string :=
  match l with
  | [] => ""
  | [s] => s
  | s :: l' => s +:+ sep +:+ join sep l'
  end.

Definition repr_str_list (l : list string) : string :=
  "[" +:+ join ", " (map (λ s, "'" +:+ s +:+ "'") l) +:+ "]".

(** Truth value of an optional string: [None] and [''] are false. *)
Definition truthy (x : option string) : bool :=
  match x with
  | Some (String _ _) => true
  | _ => false
  end.

(** ** The generation CLI: [peregrine] *)

(** The values held by the click context and passed to [PBS.s]. *)
Inductive pyval :=
| PyNone
| PyInt (z : Z)
| PyStr (s : string)
| PySlice (start stop step : option Z)
| PyList (l : list Z)
| PyTuple (l : list Z)
| PyDict.

(** [isinstance(points, (str, slice, list, tuple))] *)
Definition is_points_type (points : pyval) : bool :=
  match points with
  | PyStr _ | PySlice _ _ _ | PyList _ | PyTuple _ => true
  | _ => false
  end.

(** [type(points)] as [format] prints it *)
Definition type_repr (v : pyval) : string :=
  match v with
  | PyNone => "<class 'NoneType'>"
  | PyInt _ => "<class 'int'>"
  | PyStr _ => "<class 'str'>"
  | PySlice _ _ _ => "<class 'slice'>"
  | PyList _ => "<class 'list'>"
  | PyTuple _ => "<class 'tuple'>"
  | PyDict => "<class 'dict'>"
  end.

(** [ctx.obj] *)
Record GenContext := {
  ctx_name : string;
  ctx_tech : pyval;
  ctx_points : pyval;
  ctx_sam_files : pyval;
  ctx_res_file : pyval;
  ctx_sites_per_core : pyval;
  ctx_fout : string;
  ctx_dirout : pyval;
  ctx_logdir : pyval;
  ctx_cf_profiles : bool;
  ctx_verbose : bool
}.

(** One split yielded by iterating a [PointsControl]: [split_range] is the
    pair [[i0, i1]] of its first site position and the position after its
    last. *)
Record Split := { split_range : nat * nat }.

(** The [PBS] job object: what it was created with and the job id the
    submission returned, [None] when the submission failed. *)
Record PBS := {
  pbs_cmd : string;
  pbs_alloc : string;
  pbs_queue : string;
  pbs_name : string;
  pbs_stdout_path : string;
  pbs_id : option string
}.

(** The file name of node [i]'s output: the running value of [fout] after the
    extension was removed, and [fout_node]. *)
Definition node_fout (fout : string) (i : nat) : string * string :=
  let fout := if endswith fout ".h5" then py_strip fout ".h5" else fout in
  (fout, fout +:+ "_node_" +:+ format_int i +:+ ".h5").

Section Peregrine.
(** Code of reV that [peregrine] calls and that is not among the sources:
    [PBS.s] (the string form of a value for the command line), the submission
    done by [PBS(...)] (the job id, or [None]), the sites of
    [ProjectPoints(points, sam_files, tech, res_file=res_file)] and the splits
    that iterating [PointsControl(pp, sites_per_split)] yields. *)
Variable PBS_s : pyval → string.
Variable qsub : string → string → string → string → string → option string.
Variable project_points_sites : pyval → pyval → pyval → pyval → list Z.
Variable points_control : list Z → Z → list Split.

(** [PBS(cmd, alloc=alloc, queue=queue, name=name, stdout_path=stdout_path)] *)
Definition PBS_new (cmd alloc queue name stdout_path : string) : PBS :=
  {| pbs_cmd := cmd; pbs_alloc := alloc; pbs_queue := queue;
     pbs_name := name; pbs_stdout_path := stdout_path;
     pbs_id := qsub cmd alloc queue name stdout_path |}.

(** The command executed on node [i]. *)
Definition node_cmd (ctx : GenContext) (verbose : bool) (node_name : string)
    (fout_node : string) (split : Split) : string :=
  let arg_main := "-n=" +:+ PBS_s (PyStr node_name) +:+ " " in
  let arg_direct :=
    "-t=" +:+ PBS_s (ctx_tech ctx) +:+ " "
    +:+ "-p=" +:+ PBS_s (ctx_points ctx) +:+ " "
    +:+ "-sf=" +:+ PBS_s (ctx_sam_files ctx) +:+ " "
    +:+ "-rf=" +:+ PBS_s (ctx_res_file ctx) +:+ " "
    +:+ "-spc=" +:+ PBS_s (ctx_sites_per_core ctx) +:+ " "
    +:+ "-fo=" +:+ PBS_s (PyStr fout_node) +:+ " "
    +:+ "-do=" +:+ PBS_s (ctx_dirout ctx) +:+ " "
    +:+ "-lo=" +:+ PBS_s (ctx_logdir ctx) +:+ " "
    +:+ (if ctx_cf_profiles ctx then "-cfp" else "") +:+ " " in
  let arg_loc :=
    "-nw=" +:+ PBS_s PyNone +:+ " "
    +:+ "-pr="
    +:+ PBS_s (PyList [Z.of_nat (fst (split_range split));
                       Z.of_nat (snd (split_range split))]) +:+ " "
    +:+ (if verbose then "-v" else "") in
  "python -m reV.generation.cli_gen " +:+ arg_main +:+ " direct "
  +:+ arg_direct +:+ " local " +:+ arg_loc.

(** The state of the dispatch loop: the running [fout], the [jobs]
    dictionary and what [click.echo] printed. *)
Record DispatchState := {
  st_fout : string;
  jobs : gmap nat PBS;
  echoed : list string
}.

(** One iteration of [for i, split in enumerate(pc)]. *)
Definition dispatch_node (ctx : GenContext) (alloc queue stdout_path : string)
    (verbose : bool) (st : DispatchState) (i : nat) (split : Split)
  : DispatchState :=
  let node_name := ctx_name ctx +:+ "_" +:+ format_int i in
  let '(fout, fout_node) := node_fout (st_fout st) i in
  let cmd := node_cmd ctx verbose node_name fout_node split in
  let pbs := PBS_new cmd alloc queue node_name stdout_path in
  let msg :=
    if truthy (pbs_id pbs)
    then "Kicked off reV generation job " +:+ dquote +:+ node_name +:+ dquote
         +:+ " (" +:+ default "None" (pbs_id pbs) +:+ ") on Peregrine."
    else "Was unable to kick of reV generation job " +:+ dquote +:+ node_name
         +:+ dquote +:+ ". Please see the stdout error messages" in
  {| st_fout := fout; jobs := <[i := pbs]> (jobs st);
     echoed := echoed st ++ [msg] |}.

(** The dispatch loop over the splits [pc], [i] counting from [i0]. *)
Fixpoint dispatch_from (ctx : GenContext) (alloc queue stdout_path : string)
    (verbose : bool) (i0 : nat) (pc : list Split) (st : DispatchState)
  : DispatchState :=
  match pc with
  | [] => st
  | split :: pc' =>
      dispatch_from ctx alloc queue stdout_path verbose (S i0) pc'
        (dispatch_node ctx alloc queue stdout_path verbose st i0 split)
  end.

Definition dispatch_loop (ctx : GenContext) (alloc queue stdout_path : string)
    (verbose : bool) (pc : list Split) : DispatchState :=
  dispatch_from ctx alloc queue stdout_path verbose 0 pc
    {| st_fout := ctx_fout ctx; jobs := ∅; echoed := [] |}.

(** [sites_per_node = ceil(len(pp.sites) / nodes)] *)
Definition sites_per_node (n_sites : nat) (nodes : Z) : result Z :=
  ceil_div (Z.of_nat n_sites) nodes.

(** [peregrine]: the returned [jobs] and the echoed lines. *)
Definition peregrine (ctx : GenContext) (nodes : Z)
    (alloc queue stdout_path : string) (verbose : bool)
  : result (gmap nat PBS * list string) :=
  let verbose := verbose || ctx_verbose ctx in
  if is_points_type (ctx_points ctx) then
    let pp_sites :=
      project_points_sites (ctx_points ctx) (ctx_sam_files ctx) (ctx_tech ctx)
                           (ctx_res_file ctx) in
    sites_per_node ← sites_per_node (length pp_sites) nodes;
    let pc := points_control pp_sites sites_per_node in
    let st := dispatch_loop ctx alloc queue stdout_path verbose pc in
    Ok (jobs st, echoed st)
  else
    Raise (TypeError ("Generation Points input type is unrecognized: "
                      +:+ dquote +:+ type_repr (ctx_points ctx) +:+ dquote)).

End Peregrine.

(** ** The chunk planner of the specification *)

(** A chunk of the unit space: the half-open range [[start, stop)]. *)
Record Chunk := {
  chunk_index : nat;
  chunk_start : nat;
  chunk_stop : nat
}.

(** The units of a chunk, in order. *)
Definition chunk_units (c : Chunk) : list nat :=
  seq (chunk_start c) (chunk_stop c - chunk_start c).

(** Modelled from the spec: the splits of [PointsControl(pp, sites_per_split)]
    (reV/config/project_points.py is not among the sources), as the
    specification's ChunkPlanner plans them for a chunk size given directly:
    [ceil(total_units / chunk_size)] contiguous chunks in order, each of
    [chunk_size] units except possibly the last, and [InvalidPartitionError]
    when the total or the chunk size is not positive. *)
Definition plan (total_units chunk_size : Z) : result (list Chunk) :=
  if (total_units <=? 0) || (chunk_size <=? 0)
  then Raise (InvalidPartitionError
                "total_units and chunk_size must be positive")
  else
    n ← ceil_div total_units chunk_size;
    let size := Z.to_nat chunk_size in
    let total := Z.to_nat total_units in
    Ok (map (λ i, {| chunk_index := i;
                     chunk_start := i * size;
                     chunk_stop := Nat.min ((i + 1) * size) total |})
            (seq 0 (Z.to_nat n))).

(** ** [AggregationConfig] *)

Definition REQUIREMENTS : list string :=
  ["fpath_excl"; "fpath_gen"; "fpath_techmap"; "dset_tm"].

(** [self.get(key, default)] on the config dictionary *)
Definition config_get (config : gmap string pyval) (key : string)
    (dflt : pyval) : pyval :=
  default dflt (config !! key).

(** [self[key]] *)
Definition config_getitem (config : gmap string pyval) (key : string)
  : result pyval :=
  match config !! key with
  | Some v => Ok v
  | None => Raise (KeyError key)
  end.

Definition is_None (v : pyval) : bool :=
  match v with PyNone => true | _ => false end.

(** [any(s)] for a [str] [s]: the iteration yields the characters of [s] as
    one-character strings, each of them true. *)
Definition any_str (s : string) : bool :=
  existsb (λ c, truthy (Some (String c EmptyString)))
          (String.list_ascii_of_string s).

(** [os.path.exists(path)], given the paths that exist. *)
Definition os_path_exists (path_exists : string → bool) (path : pyval)
  : result bool :=
  match path with
  | PyStr s => Ok (path_exists s)
  | _ =>
      Raise (TypeError
               "stat: path should be string, bytes, os.PathLike or integer")
  end.

(** The loop [for req in self.REQUIREMENTS] of [_preflight]: the list
    [missing] and the value the loop variable [req] is left with. *)
Definition missing_loop (config : gmap string pyval) (reqs : list string)
  : list string * option string :=
  foldl (λ '(missing, _) req,
           (if is_None (config_get config req PyNone)
            then missing ++ [req] else missing,
            Some req))
        ([], None) reqs.

(** [AggregationConfig._preflight] *)
Definition _preflight (path_exists : string → bool)
    (config : gmap string pyval) : result unit :=
  let '(missing, req) := missing_loop config REQUIREMENTS in
  match req with
  | None =>
      Raise (UnboundLocalError
               "local variable 'req' referenced before assignment")
  | Some req =>
      if any_str req then
        Raise (ConfigError ("SC Aggregation config missing the following keys: "
                            +:+ repr_str_list missing))
      else
        fpath_techmap ← config_getitem config "fpath_techmap";
        techmap_exists ← os_path_exists path_exists fpath_techmap;
        if negb techmap_exists && is_None (config_get config "fpath_res" PyNone)
        then
          Raise (ConfigError ("Techmap file not found, resource file input"
                              +:+ dquote +:+ "fpath_res" +:+ dquote
                              +:+ " is required to create the techmap file."))
        else Ok ()
  end.

(** [AggregationConfig.__init__], on the dictionary the base class has
    loaded: the defaults are set and the pre-flight checks run. *)
Definition AggregationConfig_init (path_exists : string → bool)
    (config : gmap string pyval) : result (gmap string pyval) :=
  _ ← _preflight path_exists config;
  Ok config.

(** The required keys that are absent from the config, or [None] in it. *)
Definition missing_keys (config : gmap string pyval) : list string :=
  filter (λ req, is_None (config_get config req PyNone) = true) REQUIREMENTS.

(** ** A small resource to run the code on *)

(** A file with a 2-D dataset ["cf_profile"] of 3 time steps by 5 sites,
    stored in chunks of 2 sites, and a 1-D dataset ["cf_mean"].  Cell [(t, s)]
    holds [10 * t + s]; [describe] is stood for by the minimum and the
    maximum of the column. *)
Definition ex_describe (col : list Z) : Z * Z :=
  (foldr Z.min 1000 col, foldr Z.max (-1000) col).

Definition ex_profile : Dataset :=
  {| shape := [3%nat; 5%nat];
     chunks := 2;
     cell := λ ix, match ix with
                   | [t; s] => 10 * Z.of_nat t + Z.of_nat s
                   | _ => 0
                   end |}.

Definition ex_mean : Dataset :=
  {| shape := [5%nat];
     chunks := 5;
     cell := λ ix, match ix with
                   | [s] => 7 * Z.of_nat s
                   | _ => 0
                   end |}.

Definition ex_resource : Resource :=
  {| meta_index := [100; 101; 102; 103; 104];
     dsets := <["cf_profile" := ex_profile]> (<["cf_mean" := ex_mean]> ∅) |}.

Definition ex_summarize_dset :=
  summarize_dset ex_describe 0 Z.add ex_resource.

Definition ex_PBS_s (v : pyval) : string :=
  match v with
  | PyNone => "None"
  | PyInt z => pretty z
  | PyStr s => s
  | PySlice _ _ _ => "slice"
  | PyList l => "[" +:+ join "," (map pretty l) +:+ "]"
  | PyTuple l => "(" +:+ join "," (map pretty l) +:+ ")"
  | PyDict => "{}"
  end.

(** A queue that refuses the job of node 2. *)
Definition ex_qsub (cmd alloc queue name stdout_path : string)
  : option string :=
  if bool_decide (name = "reV_gen_2") then None else Some ("job." +:+ name).

Definition ex_project_points_sites (points sam_files tech res_file : pyval)
  : list Z :=
  match points with
  | PyList l | PyTuple l => l
  | _ => []
  end.

Definition ex_points_control (sites : list Z) (sites_per_split : Z)
  : list Split :=
  match plan (Z.of_nat (length sites)) sites_per_split with
  | Ok chunks =>
      map (λ c, {| split_range := (chunk_start c, chunk_stop c) |}) chunks
  | _ => []
  end.

Definition ex_ctx : GenContext :=
  {| ctx_name := "reV_gen";
     ctx_tech := PyStr "pv";
     ctx_points := PyList [0; 1; 2; 3; 4; 5; 6; 7; 8; 9];
     ctx_sam_files := PyStr "sam.json";
     ctx_res_file := PyStr "nsrdb_2015.h5";
     ctx_sites_per_core := PyInt 100;
     ctx_fout := "gen_2015.h5";
     ctx_dirout := PyStr "./out";
     ctx_logdir := PyStr "./out/log";
     ctx_cf_profiles := false;
     ctx_verbose := false |}.

(** Ten sites, two per node: five splits, and the state the dispatch loop
    ends in. *)
Definition ex_pc : list Split :=
  ex_points_control [0; 1; 2; 3; 4; 5; 6; 7; 8; 9] 2.

Definition ex_dispatch : DispatchState :=
  dispatch_loop ex_PBS_s ex_qsub ex_ctx "rev" "short" "./out/stdout" false
                ex_pc.

Definition ex_peregrine (nodes : Z) :=
  peregrine ex_PBS_s ex_qsub ex_project_points_sites ex_points_control
            ex_ctx nodes "rev" "short" "./out/stdout" false.

(** ** Exceptions and outcomes of the rest of the code *)

(** The exceptions of the code below: the ones above and three more. *)
Inductive Exn :=
| Builtin (e : PyError)
| IndexError (msg : string)
| PipelineError (msg : string)
| Exception (msg : string).

Inductive outcome (A : Type) :=
| Returns (a : A)
| Raises (e : Exn)
| Hangs.
Arguments Returns {A} a.
Arguments Raises {A} e.
Arguments Hangs {A}.

Global Instance outcome_bind : MBind outcome := λ A B k r,
  match r with
  | Returns a => k a
  | Raises e => Raises e
  | Hangs => Hangs
  end.

Global Instance outcome_ret : MRet outcome := λ A a, Returns a.

Definition of_result {A} (r : result A) : outcome A :=
  match r with
  | Ok a => Returns a
  | Raise e => Raises (Builtin e)
  | Blocks => Hangs
  end.

(** ** [RepProfilesConfig] *)

Module RepProfilesConfig.

Definition REQUIREMENTS : list string := ["fpath_gen"; "rev_summary"; "reg_cols"].

(** [any(l)] for a list of [str]: some string of the list is not empty. *)
Definition any_strs (l : list string) : bool :=
  existsb (λ s, truthy (Some s)) l.

(** [RepProfilesConfig._preflight] *)
Definition _preflight (config : gmap string pyval) : result unit :=
  let '(missing, _) := missing_loop config REQUIREMENTS in
  if any_strs missing then
    Raise (ConfigError ("Rep profiles config missing the following keys: "
                        +:+ repr_str_list missing))
  else Ok ().

(** [RepProfilesConfig.__init__], on the dictionary the base class has
    loaded. *)
Definition init (config : gmap string pyval) : result (gmap string pyval) :=
  _ ← _preflight config;
  Ok config.

Definition TARGET_MODULES : list string :=
  ["multi-year"; "collect"; "generation"].

(** [fpath == 'PIPELINE'] *)
Definition is_PIPELINE (fpath : pyval) : bool :=
  match fpath with
  | PyStr s => bool_decide (s = "PIPELINE")
  | _ => false
  end.

(** The loop over the target modules of [fpath_gen].  [parse target_module]
    is the outcome of
    [Pipeline.parse_previous(self.dirout, 'rep_profiles', target='fpath',
    target_module=target_module)[0]]: a [KeyError] is passed over, a value
    ends the loop, any other exception leaves the method. *)
Fixpoint parse_targets (parse : string → outcome pyval) (fpath : pyval)
    (target_modules : list string) : outcome pyval :=
  match target_modules with
  | [] => Returns fpath
  | target_module :: target_modules' =>
      match parse target_module with
      | Returns v => Returns v
      | Raises (Builtin (KeyError _)) =>
          parse_targets parse fpath target_modules'
      | Raises e => Raises e
      | Hangs => Hangs
      end
  end.

(** The [fpath_gen] property: the file path and the values [logger.info]
    reports as pipeline input. *)
Definition fpath_gen (parse : string → outcome pyval)
    (config : gmap string pyval) : outcome (pyval * list pyval) :=
  fpath ← of_result (config_getitem config "fpath_gen");
  if is_PIPELINE fpath then
    fpath ← parse_targets parse fpath TARGET_MODULES;
    if is_PIPELINE fpath then
      Raises (PipelineError
                "Could not parse fpath_gen from previous pipeline jobs.")
    else Returns (fpath, [fpath])
  else Returns (fpath, []).

(** The [rev_summary] and [reg_cols] properties. *)
Definition rev_summary (config : gmap string pyval) : result pyval :=
  config_getitem config "rev_summary".

Definition reg_cols (config : gmap string pyval) : result pyval :=
  config_getitem config "reg_cols".

(** The [rep_method] and [err_method] properties. *)
Definition rep_method (config : gmap string pyval) : pyval :=
  config_get config "rep_method" (PyStr "meanoid").

Definition err_method (config : gmap string pyval) : pyval :=
  config_get config "err_method" (PyStr "rmse").

(** The required keys that are absent from the config, or [None] in it. *)
Definition missing_keys (config : gmap string pyval) : list string :=
  filter (λ req, is_None (config_get config req PyNone) = true) REQUIREMENTS.

End RepProfilesConfig.


(** A rep-profiles config that takes its generation file from the pipeline,
    and a pipeline in which only the [collect] module has written one. *)
Definition ex_rep_config : gmap string pyval :=
  <["fpath_gen" := PyStr "PIPELINE"]>
    (<["rev_summary" := PyStr "agg_summary.csv"]>
       (<["reg_cols" := PyStr "state"]> ∅)).

Definition ex_parse_previous (target_module : string) : outcome pyval :=
  if bool_decide (target_module = "collect")
  then Returns (PyStr "out/collect_2015.h5")
  else Raises (Builtin (KeyError target_module)).

(** A pipeline without any output. *)
Definition ex_parse_nothing (target_module : string) : outcome pyval :=
  Raises (Builtin (KeyError target_module)).

(** ** More of Python's strings and paths *)

Definition newline : string := String (ascii_of_nat 10) EmptyString.

(** [sub in s] for two strings *)
Fixpoint py_in (sub s : string) : bool :=
  String.prefix sub s
  || match s with
     | EmptyString => false
     | String _ s' => py_in sub s'
     end.

(** [s.replace(old, new)] for a non-empty [old]: the occurrences of [old]
    are replaced from left to right, without overlap.  [skip] counts the
    characters of a replaced occurrence that are still to be passed over. *)
Fixpoint replace_from (old new : string) (skip : nat) (s : string) : string :=
  match s with
  | EmptyString => EmptyString
  | String c s' =>
      match skip with
      | S skip' => replace_from old new skip' s'
      | O =>
          if String.prefix old s
          then new +:+ replace_from old new (String.length old - 1) s'
          else String c (replace_from old new 0 s')
      end
  end.

Definition py_replace (s old new : string) : string :=
  replace_from old new 0 s.

(** The characters after the last ['/'], [acc] being the ones read since the
    last one seen. *)
Fixpoint basename_from (acc : string) (p : string) : string :=
  match p with
  | EmptyString => acc
  | String c p' =>
      if bool_decide (c = ascii_of_nat 47)
      then basename_from EmptyString p'
      else basename_from (acc +:+ String c EmptyString) p'
  end.

(** [os.path.basename(p)] *)
Definition basename (p : string) : string := basename_from EmptyString p.

(** [os.path.join(a, b)] *)
Definition path_join (a b : string) : string :=
  if String.prefix "/" b then b
  else if bool_decide (a = EmptyString) || endswith a "/" then a +:+ b
  else a +:+ "/" +:+ b.

(** ** Calls with effects *)

(** A call that does something besides returning: the effects it had, in
    order, and how it ended.  What was done before an exception stays done. *)
Record eff (E A : Type) := Eff {
  effects : list E;
  returned : result A
}.
Arguments Eff {E A} effects returned.
Arguments effects {E A} e.
Arguments returned {E A} e.

Global Instance eff_bind {E} : MBind (eff E) := λ A B k m,
  match returned m with
  | Ok a => Eff (effects m ++ effects (k a)) (returned (k a))
  | Raise e => Eff (effects m) (Raise e)
  | Blocks => Eff (effects m) Blocks
  end.

Global Instance eff_ret {E} : MRet (eff E) := λ A a, Eff [] (Ok a).

Definition emit {E} (e : E) : eff E unit := Eff [e] (Ok ()).

Definition pure_call {E A} (r : result A) : eff E A := Eff [] r.

(** ** [SummaryPlots] *)

(** The summary table of [SummaryPlots]: its columns, in order, with their
    values, numbers that are integers here.  Column names are unique, as in a
    table that [read_csv] loads. *)
Definition Table : Type := list (string * list Z).

Definition columns (summary : Table) : list string := map fst summary.

(** [summary[value]] *)
Fixpoint get_column {A} (summary : list (string * A)) (value : string)
  : option A :=
  match summary with
  | [] => None
  | (name, vals) :: summary' =>
      if bool_decide (name = value) then Some vals
      else get_column summary' value
  end.

(** [df[name] = vals]: an existing column is replaced where it stands, a
    new one is added after the last. *)
Fixpoint set_column {A} (df : list (string * A)) (name : string) (vals : A)
  : list (string * A) :=
  match df with
  | [] => [(name, vals)]
  | (n, v) :: df' =>
      if bool_decide (n = name) then (n, vals) :: df'
      else (n, v) :: set_column df' name vals
  end.

(** What [SummaryPlots] is created from. *)
Inductive SummaryArg :=
| SummaryPath (path : string)
| SummaryFrame (df : Table)
| SummaryOther.

(** A [str] or a list of column names. *)
Inductive ValuesArg :=
| OneValue (value : string)
| ManyValues (values : list string).

(** What the plotting code does: [logger.error], and the calls into the
    plotting libraries, [mplt.df_scatter], [px.scatter], [px.histogram],
    [fig.update_layout], [fig.write_html], [fig.write_image] and
    [fig.show]. *)
Inductive PlotCall :=
| LoggerError (msg : string)
| DfScatter (df : Table) (x y : string) (c colormap : option string)
            (filename : option string)
| PxScatter (df : Table) (x y : string)
            (color color_continuous_scale : option string)
| PxHistogram (df : Table) (x : string)
| UpdateLayout
| WriteHtml (path : string)
| WriteImage (path : string)
| FigShow.

(** [logger.error(msg); raise ValueError(msg)] *)
Definition log_and_raise {A} (msg : string) : eff PlotCall A :=
  Eff [LoggerError msg] (Raise (ValueError msg)).

(** [np.array(l).cumsum()] on integers *)
Fixpoint cumsum_Z_from (acc : Z) (l : list Z) : list Z :=
  match l with
  | [] => []
  | x :: l' => (acc + x) :: cumsum_Z_from (acc + x) l'
  end.

Definition cumsum_Z (l : list Z) : list Z := cumsum_Z_from 0 l.

(** The order [sort_values] puts the rows (capacity, lcoe) in: by [lcoe].
    Which of two rows with the same value comes first is not fixed by
    pandas' default sort; the sort used here keeps them in their order. *)
Definition by_lcoe (r1 r2 : Z * Z) : Prop := r1.2 ≤ r2.2.

Global Instance by_lcoe_dec : RelDecision by_lcoe.
Proof. intros r1 r2. unfold by_lcoe. apply _. Defined.

(** The plotting methods are modelled for calls without additional keyword
    arguments, [dist_plotly] apart: what [**kwargs] may hold for the others
    is for the signatures of the plotting libraries to say. *)
Module SummaryPlots.

Section Readers.
(** [pd.read_csv] and [pd.read_json] *)
Variable read_csv : string → result Table.
Variable read_json : string → result Table.

(** [SummaryPlots._parse_summary] *)
Definition _parse_summary (summary : SummaryArg) : result Table :=
  match summary with
  | SummaryPath path =>
      if endswith path ".csv" then read_csv path
      else if endswith path ".json" then read_json path
      else Raise (ValueError ("Cannot parse " +:+ path))
  | SummaryFrame df => Ok df
  | SummaryOther =>
      Raise (ValueError
               "summary must be a .csv, .json, or a pandas DataFrame")
  end.

End Readers.

(** [SummaryPlots._save_plotly] *)
Definition _save_plotly (out_path : string) : eff PlotCall unit :=
  if endswith out_path ".html" then emit (WriteHtml out_path)
  else emit (WriteImage out_path).

(** The message of [_check_value] for a missing column. *)
Definition invalid_column_msg (summary : Table) (value : string) : string :=
  value +:+ " is not a valid column in summary table:" +:+ newline
  +:+ repr_str_list (columns summary).

(** The loop [for value in values] of [_check_value]. *)
Fixpoint check_values (summary : Table) (values : list string)
  : eff PlotCall unit :=
  match values with
  | [] => mret ()
  | value :: values' =>
      if bool_decide (value ∈ columns summary)
      then check_values summary values'
      else log_and_raise (invalid_column_msg summary value)
  end.

(** [SummaryPlots._check_value] *)
Definition _check_value (summary : Table) (values : ValuesArg)
    (scatter : bool) : eff PlotCall unit :=
  let values :=
    match values with
    | OneValue value => [value]
    | ManyValues values => values
    end in
  let values :=
    if scatter then values ++ ["latitude"; "longitude"] else values in
  check_values summary values.

(** [if out_path is not None: self._save_plotly(fig, out_path)] *)
Definition save_if_given (out_path : option string) : eff PlotCall unit :=
  match out_path with
  | Some out_path => _save_plotly out_path
  | None => mret ()
  end.

(** [SummaryPlots.scatter_plot] *)
Definition scatter_plot (summary : Table) (value : string) (cmap : string)
    (out_path : option string) : eff PlotCall unit :=
  _ ← _check_value summary (OneValue value) true;
  emit (DfScatter summary "longitude" "latitude" (Some value) (Some cmap)
                  out_path).

(** [SummaryPlots.scatter_plotly] *)
Definition scatter_plotly (summary : Table) (value : string) (cmap : string)
    (out_path : option string) : eff PlotCall unit :=
  _ ← _check_value summary (OneValue value) true;
  _ ← emit (PxScatter summary "longitude" "latitude" (Some value) (Some cmap));
  _ ← emit UpdateLayout;
  _ ← save_if_given out_path;
  emit FigShow.

(** [SummaryPlots._extract_sc_data]: the columns [capacity], [lcoe] and
    [cumulative_capacity] of the rows sorted by [lcoe].  With
    [lcoe = 'capacity'] the selection has the column ['capacity'] twice, and
    [sort_values] refuses a label that is not unique. *)
Definition _extract_sc_data (summary : Table) (lcoe : string)
  : eff PlotCall Table :=
  _ ← _check_value summary (ManyValues ["capacity"; lcoe]) false;
  if bool_decide (lcoe = "capacity") then
    pure_call (Raise (ValueError "The column label 'capacity' is not unique."))
  else
    let capacity := default [] (get_column summary "capacity") in
    let cost := default [] (get_column summary lcoe) in
    let sc_df := merge_sort by_lcoe (zip capacity cost) in
    let sc_df : Table := [("capacity", sc_df.*1); (lcoe, sc_df.*2)] in
    mret (set_column sc_df "cumulative_capacity"
            (cumsum_Z (default [] (get_column sc_df "capacity")))).

(** [SummaryPlots.supply_curve_plot] *)
Definition supply_curve_plot (summary : Table) (lcoe : string)
    (out_path : option string) : eff PlotCall unit :=
  sc_df ← _extract_sc_data summary lcoe;
  emit (DfScatter sc_df "cumulative_capacity" lcoe None None out_path).

(** [SummaryPlots.supply_curve_plotly] *)
Definition supply_curve_plotly (summary : Table) (lcoe : string)
    (out_path : option string) : eff PlotCall unit :=
  sc_df ← _extract_sc_data summary lcoe;
  _ ← emit (PxScatter sc_df "cumulative_capacity" lcoe None None);
  _ ← emit UpdateLayout;
  _ ← save_if_given out_path;
  emit FigShow.

(** [SummaryPlots.dist_plot]: [self.summary(value)] calls the table, which
    is not callable, so [mplt.dist_plot] is never reached. *)
Definition dist_plot (summary : Table) (value : string)
    (out_path : option string) : eff PlotCall unit :=
  _ ← _check_value summary (OneValue value) false;
  pure_call (Raise (TypeError "'DataFrame' object is not callable")).

(** [self._save_plotly(fig, out_path, **kwargs)]: [_save_plotly] has the
    parameters [fig] and [out_path] and no others. *)
Definition save_plotly_kwargs (out_path : string) (kwargs : list string)
  : eff PlotCall unit :=
  match kwargs with
  | [] => _save_plotly out_path
  | key :: _ =>
      if bool_decide (key ∈ ["fig"; "out_path"]) then
        pure_call (Raise (TypeError
                            ("_save_plotly() got multiple values for argument '"
                             +:+ key +:+ "'")))
      else
        pure_call (Raise (TypeError
                            ("_save_plotly() got an unexpected keyword argument '"
                             +:+ key +:+ "'")))
  end.

(** [SummaryPlots.dist_plotly]; [kwargs] are the names of the additional
    keyword arguments. *)
Definition dist_plotly (summary : Table) (value : string)
    (out_path : option string) (kwargs : list string) : eff PlotCall unit :=
  _ ← _check_value summary (OneValue value) false;
  _ ← emit (PxHistogram summary value);
  _ ← match out_path with
      | Some out_path => save_plotly_kwargs out_path kwargs
      | None => mret ()
      end;
  emit FigShow.

(** The message of the class methods for an unknown [type]. *)
Definition type_msg (type : string) : string :=
  "type must be 'plot' or 'plotly' but " +:+ type +:+ " was given".

Section ClassMethods.
Variable read_csv : string → result Table.
Variable read_json : string → result Table.

(** [cls(summary_csv)] *)
Definition init (summary : SummaryArg) : eff PlotCall Table :=
  pure_call (_parse_summary read_csv read_json summary).

(** [os.path.join(out_dir,
                  os.path.basename(summary_csv).replace('.csv', ext))] *)
Definition plot_path (summary_csv out_dir ext : string) : string :=
  let out_path := py_replace (basename summary_csv) ".csv" ext in
  path_join out_dir out_path.

(** [SummaryPlots.scatter] *)
Definition scatter (summary_csv out_dir value type cmap : string)
  : eff PlotCall unit :=
  splt ← init (SummaryPath summary_csv);
  if bool_decide (type = "plot") then
    let out_path := plot_path summary_csv out_dir ".png" in
    scatter_plot splt value cmap (Some out_path)
  else if bool_decide (type = "plotly") then
    let out_path := plot_path summary_csv out_dir ".html" in
    scatter_plotly splt value cmap (Some out_path)
  else log_and_raise (type_msg type).

(** The columns [scatter_all] plots. *)
Definition cols : list string :=
  ["mean"; "std"; "min"; "25%"; "50%"; "75%"; "max"; "sum"].

(** [c.endswith('_mean') or c in cols] *)
Definition is_stat_column (c : string) : bool :=
  endswith c "_mean" || bool_decide (c ∈ cols).

(** One iteration of the loop [for value in datasets] of [scatter_all]. *)
Definition scatter_value (splt : Table) (summary_csv out_dir type cmap : string)
    (value : string) : eff PlotCall unit :=
  if bool_decide (type = "plot") then
    let out_path := "_" +:+ value +:+ ".png" in
    let out_path := plot_path summary_csv out_dir out_path in
    scatter_plot splt value cmap (Some out_path)
  else if bool_decide (type = "plotly") then
    let out_path := "_" +:+ value +:+ ".html" in
    let out_path := plot_path summary_csv out_dir out_path in
    scatter_plotly splt value cmap (Some out_path)
  else log_and_raise (type_msg type).

Fixpoint scatter_each (splt : Table) (summary_csv out_dir type cmap : string)
    (datasets : list string) : eff PlotCall unit :=
  match datasets with
  | [] => mret ()
  | value :: datasets' =>
      _ ← scatter_value splt summary_csv out_dir type cmap value;
      scatter_each splt summary_csv out_dir type cmap datasets'
  end.

(** [SummaryPlots.scatter_all] *)
Definition scatter_all (summary_csv out_dir type cmap : string)
  : eff PlotCall unit :=
  splt ← init (SummaryPath summary_csv);
  let datasets := filter (λ c, is_stat_column c = true) (columns splt) in
  scatter_each splt summary_csv out_dir type cmap datasets.

(** [SummaryPlots.supply_curve] *)
Definition supply_curve (summary_csv out_dir type lcoe : string)
  : eff PlotCall unit :=
  splt ← init (SummaryPath summary_csv);
  if bool_decide (type = "plot") then
    let out_path := plot_path summary_csv out_dir ".png" in
    supply_curve_plot splt lcoe (Some out_path)
  else if bool_decide (type = "plotly") then
    let out_path := plot_path summary_csv out_dir ".html" in
    supply_curve_plotly splt lcoe (Some out_path)
  else log_and_raise (type_msg type).

End ClassMethods.

End SummaryPlots.

(** A supply-curve summary to run the plots on. *)
Definition ex_sc_summary : Table :=
  [("capacity", [10; 40; 20; 30]);
   ("total_lcoe", [55; 20; 70; 30]);
   ("latitude", [41; 42; 43; 44]);
   ("longitude", [-71; -72; -73; -74]);
   ("cf_mean", [3; 4; 5; 6]);
   ("mean", [1; 2; 3; 4])].

(** Readers for a directory in which every summary file holds this table. *)
Definition ex_read_csv (path : string) : result Table := Ok ex_sc_summary.

Definition ex_read_json (path : string) : result Table := Ok ex_sc_summary.

(** ** [Summarize.summarize_means] and [Summarize.run] *)

Section SummarizeRun.
Context {V Stats M : Type}.
Variable describe : list V → Stats.
Variable zero : V.
Variable add : V → V → V.

(** A cell of the table [summarize_means] returns: a value of [meta], a
    label of its index, or a value of a dataset. *)
Inductive MeansCell :=
| MetaCell (m : M)
| IndexCell (g : Z)
| DataCell (v : V).

Definition MeansTable : Type := list (string * list MeansCell).

(** The open file as [summarize_means] and [run] see it: the handler above,
    the columns of [f.meta], one value per site each, and the names
    [f.datasets]. *)
Record ResourceFile := {
  handler : Resource (V:=V);
  meta_columns : list (string * list M);
  datasets : list string
}.

(** The names that are not summarised: [['meta', 'time_index']]. *)
Definition reserved : list string := ["meta"; "time_index"].

(** [meta[ds_name] = data] on a table of [n_rows] rows: pandas refuses
    values that are not one per row. *)
Definition setitem (meta : MeansTable) (n_rows : nat) (ds_name : string)
    (data : list V) : result MeansTable :=
  if bool_decide (length data = n_rows)
  then Ok (set_column meta ds_name (DataCell <$> data))
  else Raise (ValueError ("Length of values (" +:+ pretty (length data)
                          +:+ ") does not match length of index ("
                          +:+ pretty n_rows +:+ ")")).

(** One iteration of the loop [for ds_name in f.datasets] of
    [summarize_means]. *)
Definition add_means (f : ResourceFile) (meta : MeansTable)
    (ds_name : string) : result MeansTable :=
  if bool_decide (ds_name ∈ reserved) then Ok meta
  else
    '(shape, _) ← get_dset_properties (handler f) ds_name;
    if bool_decide (length shape = 1%nat) then
      data ← getitem_all (handler f) ds_name;
      setitem meta (length (meta_index (handler f))) ds_name data
    else Ok meta.

Fixpoint means_loop (f : ResourceFile) (meta : MeansTable)
    (names : list string) : result MeansTable :=
  match names with
  | [] => Ok meta
  | ds_name :: names' =>
      meta ← add_means f meta ds_name;
      means_loop f meta names'
  end.

(** [f.meta], with its index as the first column, named ['gid'], when it has
    no column of this name. *)
Definition load_meta (f : ResourceFile) : MeansTable :=
  let meta : MeansTable :=
    map (λ '(name, vals), (name, MetaCell <$> vals)) (meta_columns f) in
  if bool_decide ("gid" ∈ meta.*1) then meta
  else ("gid", IndexCell <$> meta_index (handler f)) :: meta.

(** [Summarize.summarize_means]: the table, and what [to_csv] wrote where. *)
Definition summarize_means (f : ResourceFile) (out_path : option string)
  : result (MeansTable * list (string * MeansTable)) :=
  meta ← means_loop f (load_meta f) (datasets f);
  match out_path with
  | Some path => Ok (meta, [(path, meta)])
  | None => Ok (meta, [])
  end.

(** The argument [dsets] of [run]: [None], a [str] or a list. *)
Inductive DsetsArg :=
| DsetsNone
| DsetsStr (dset : string)
| DsetsList (dsets : list string).

(** What [run] does: [os.makedirs], what [summarize_dset] does, and the
    [to_csv] of [summarize_means]. *)
Inductive RunEffect :=
| Makedirs (path : string)
| DsetEffect (e : Effect (V:=V) (Stats:=Stats))
| MeansToCsv (path : string) (meta : MeansTable).

(** A call that returns its effects with its value, as a call of [eff]. *)
Definition of_logged {A E E'} (inj : E → E') (r : result (A * list E))
  : eff E' A :=
  match r with
  | Ok (a, log) => Eff (inj <$> log) (Ok a)
  | Raise e => Eff [] (Raise e)
  | Blocks => Eff [] Blocks
  end.

(** The loop [for ds_name in dsets] of [run]; [scheds i] is the order in
    which the workers of the pool of call [i] finish. *)
Fixpoint run_dsets (summary : ResourceFile) (out_dir : string)
    (process_size max_workers : option Z) (scheds : nat → list nat)
    (i : nat) (dsets : list string) : eff RunEffect unit :=
  match dsets with
  | [] => mret ()
  | ds_name :: dsets' =>
      let out_path := path_join out_dir (ds_name +:+ "_summary.csv") in
      _ ← of_logged DsetEffect
            (summarize_dset describe zero add (handler summary) ds_name
               process_size max_workers (Some out_path) (scheds i));
      run_dsets summary out_dir process_size max_workers scheds (S i) dsets'
  end.

(** The datasets [run] summarises; [Resource_open group] is
    [Resource(h5_file, group=group)]. *)
Definition resolve_dsets (Resource_open : option string → ResourceFile)
    (group : option string) (dsets : DsetsArg) : list string :=
  match dsets with
  | DsetsNone =>
      filter (λ dset, dset ∉ reserved) (datasets (Resource_open group))
  | DsetsStr dset => [dset]
  | DsetsList dsets => dsets
  end.

(** [Summarize.run].  The instance is made by [cls(h5_file)], without the
    group, so its methods open [Resource(h5_file, group=None)]. *)
Definition run (path_exists : string → bool)
    (Resource_open : option string → ResourceFile)
    (h5_file out_dir : string) (group : option string) (dsets : DsetsArg)
    (process_size max_workers : option Z) (scheds : nat → list nat)
  : eff RunEffect unit :=
  _ ← (if path_exists out_dir then mret () else emit (Makedirs out_dir));
  let dsets := resolve_dsets Resource_open group dsets in
  let summary := Resource_open None in
  _ ← run_dsets summary out_dir process_size max_workers scheds 0 dsets;
  let out_path := py_replace (basename h5_file) ".h5" "_summary.csv" in
  let out_path := path_join out_dir out_path in
  _ ← of_logged (λ '(path, meta), MeansToCsv path meta)
        (summarize_means summary (Some out_path));
  mret ().

End SummarizeRun.

(** The small resource as a file: its [meta] has the coordinates of the five
    sites and no column ['gid']. *)
Definition ex_file : ResourceFile (V:=Z) (M:=Z) :=
  {| handler := ex_resource;
     meta_columns := [("latitude", [41; 42; 43; 44; 45]);
                      ("longitude", [-71; -72; -73; -74; -75])];
     datasets := ["cf_mean"; "cf_profile"; "meta"; "time_index"] |}.

(** The table [summarize_means] makes of it. *)
Definition ex_means_table : MeansTable (V:=Z) (M:=Z) :=
  [("gid", IndexCell <$> [100; 101; 102; 103; 104]);
   ("latitude", MetaCell <$> [41; 42; 43; 44; 45]);
   ("longitude", MetaCell <$> [-71; -72; -73; -74; -75]);
   ("cf_mean", DataCell <$> [0; 7; 14; 21; 28])].

(** The file has no groups: every group opens the same datasets. *)
Definition ex_Resource_open (group : option string)
  : ResourceFile (V:=Z) (M:=Z) := ex_file.

Definition ex_run :=
  run (Stats:=Z * Z) ex_describe 0 Z.add (λ _, false) ex_Resource_open
      "out/gen_2015.h5" "qa".

(** ** The generation CLI: [main], [direct], [local] and [from_config]

    [ctx.obj] is the dictionary the commands hand each other.  Its keys are
    the eleven the commands use, each holding a value of the type its click
    option has, or nothing when the key was never set.  [logger.debug] lines
    are not modelled. *)

Record CtxObj := {
  obj_name : option string;
  obj_verbose : option bool;
  obj_tech : option pyval;
  obj_points : option pyval;
  obj_sam_files : option pyval;
  obj_res_file : option pyval;
  obj_sites_per_core : option pyval;
  obj_fout : option string;
  obj_dirout : option pyval;
  obj_logdir : option pyval;
  obj_cf_profiles : option bool
}.

(** [main(obj={})] starts from the empty dictionary. *)
Definition empty_obj : CtxObj :=
  {| obj_name := None; obj_verbose := None; obj_tech := None;
     obj_points := None; obj_sam_files := None; obj_res_file := None;
     obj_sites_per_core := None; obj_fout := None; obj_dirout := None;
     obj_logdir := None; obj_cf_profiles := None |}.

(** [ctx.obj[key]] *)
Definition obj_getitem {A} (key : string) (v : option A) : result A :=
  match v with
  | Some a => Ok a
  | None => Raise (KeyError key)
  end.

(** The reads that [local] and [peregrine] start with, in their order. *)
Definition read_ctx (obj : CtxObj) : result GenContext :=
  name ← obj_getitem "name" (obj_name obj);
  tech ← obj_getitem "tech" (obj_tech obj);
  points ← obj_getitem "points" (obj_points obj);
  sam_files ← obj_getitem "sam_files" (obj_sam_files obj);
  res_file ← obj_getitem "res_file" (obj_res_file obj);
  sites_per_core ← obj_getitem "sites_per_core" (obj_sites_per_core obj);
  fout ← obj_getitem "fout" (obj_fout obj);
  dirout ← obj_getitem "dirout" (obj_dirout obj);
  logdir ← obj_getitem "logdir" (obj_logdir obj);
  cf_profiles ← obj_getitem "cf_profiles" (obj_cf_profiles obj);
  verbose ← obj_getitem "verbose" (obj_verbose obj);
  Ok {| ctx_name := name; ctx_tech := tech; ctx_points := points;
        ctx_sam_files := sam_files; ctx_res_file := res_file;
        ctx_sites_per_core := sites_per_core; ctx_fout := fout;
        ctx_dirout := dirout; ctx_logdir := logdir;
        ctx_cf_profiles := cf_profiles; ctx_verbose := verbose |}.

(** [main] *)
Definition main (obj : CtxObj) (name : string) (verbose : bool) : CtxObj :=
  {| obj_name := Some name; obj_verbose := Some verbose;
     obj_tech := obj_tech obj; obj_points := obj_points obj;
     obj_sam_files := obj_sam_files obj; obj_res_file := obj_res_file obj;
     obj_sites_per_core := obj_sites_per_core obj; obj_fout := obj_fout obj;
     obj_dirout := obj_dirout obj; obj_logdir := obj_logdir obj;
     obj_cf_profiles := obj_cf_profiles obj |}.

(** [direct]: the nine values are stored, then [ctx.obj['verbose']] is
    read. *)
Definition direct (obj : CtxObj) (tech points sam_files res_file : pyval)
    (sites_per_core : pyval) (fout : string) (dirout logdir : pyval)
    (cf_profiles verbose : bool) : result CtxObj :=
  let obj :=
    {| obj_name := obj_name obj; obj_verbose := obj_verbose obj;
       obj_tech := Some tech; obj_points := Some points;
       obj_sam_files := Some sam_files; obj_res_file := Some res_file;
       obj_sites_per_core := Some sites_per_core; obj_fout := Some fout;
       obj_dirout := Some dirout; obj_logdir := Some logdir;
       obj_cf_profiles := Some cf_profiles |} in
  v ← obj_getitem "verbose" (obj_verbose obj);
  let verbose := verbose || v in
  Ok obj.

(** The arguments [local] calls [Gen.run_direct] with ([return_obj] is
    [False]). *)
Record RunDirectArgs := {
  rd_tech : pyval;
  rd_points : pyval;
  rd_sam_files : pyval;
  rd_res_file : pyval;
  rd_cf_profiles : bool;
  rd_n_workers : option Z;
  rd_sites_per_split : pyval;
  rd_points_range : option (list Z);
  rd_fout : string;
  rd_dirout : pyval
}.

(** What a command does: the call of [init_gen_loggers] (which sets up the
    log files and is not looked into), [click.echo] and the call of
    [Gen.run_direct]. *)
Inductive CliEffect :=
| InitGenLoggers (verbose : bool) (name : string) (logdir : pyval)
                 (modules : list string)
| Echo (msg : string)
| GenRunDirect (args : RunDirectArgs).

(** A command: what it did, in order, and how it ended. *)
Record cmd (A : Type) := Cmd {
  did : list CliEffect;
  ended : outcome A
}.
Arguments Cmd {A} did ended.
Arguments did {A} c.
Arguments ended {A} c.

Global Instance cmd_bind : MBind cmd := λ A B k m,
  match ended m with
  | Returns a => Cmd (did m ++ did (k a)) (ended (k a))
  | Raises e => Cmd (did m) (Raises e)
  | Hangs => Cmd (did m) Hangs
  end.

Global Instance cmd_ret : MRet cmd := λ A a, Cmd [] (Returns a).

Definition does (e : CliEffect) : cmd unit := Cmd [e] (Returns ()).

Definition lift {A} (r : result A) : cmd A := Cmd [] (of_result r).

Definition raise {A} (e : Exn) : cmd A := Cmd [] (Raises e).

(** The default [modules] of [init_gen_loggers]. *)
Definition gen_modules : list string :=
  ["reV.SAM"; "reV.config"; "reV.generation"; "reV.execution"].

(** [re.match(r'.*([1-3][0-9]{3})', name)] finds a match: some four
    characters of the first line of [name] are a digit from 1 to 3 followed
    by three digits. *)
Definition is_digit (c : ascii) : bool :=
  (48 <=? nat_of_ascii c)%nat && (nat_of_ascii c <=? 57)%nat.

Definition is_1_to_3 (c : ascii) : bool :=
  (49 <=? nat_of_ascii c)%nat && (nat_of_ascii c <=? 51)%nat.

Definition starts_with_year (s : string) : bool :=
  match s with
  | String c1 (String c2 (String c3 (String c4 _))) =>
      is_1_to_3 c1 && is_digit c2 && is_digit c3 && is_digit c4
  | _ => false
  end.

Fixpoint re_match_year (name : string) : bool :=
  starts_with_year name
  || match name with
     | EmptyString => false
     | String c name' =>
         negb (bool_decide (c = ascii_of_nat 10)) && re_match_year name'
     end.

(** The values [from_config] reads from the [GenConfig] object it creates
    (reV/config/gen_config.py): its properties, the entries of
    [execution_control] and [len(config.points_control)]. *)
Record GenConfig := {
  cfg_logging_level : Z;
  cfg_logdir : string;
  cfg_tech : pyval;
  cfg_project_points : pyval;
  cfg_sam_gen : pyval;
  cfg_dirout : string;
  cfg_write_profiles : bool;
  cfg_sites_per_core : pyval;
  cfg_years : list Z;
  cfg_res_files : list string;
  cfg_option : string;
  cfg_ppn : Z;
  cfg_nodes : Z;
  cfg_alloc : string;
  cfg_queue : string;
  cfg_n_points : nat
}.

(** [logging.DEBUG] *)
Definition logging_DEBUG : Z := 10.

Section GenerationCLI.
(** [PBS.s], the submission of [PBS(...)], the sites of [ProjectPoints] and
    the splits of [PointsControl], as for [peregrine] above, and
    [Gen.run_direct]. *)
Variable PBS_s : pyval → string.
Variable qsub : string → string → string → string → string → option string.
Variable project_points_sites : pyval → pyval → pyval → pyval → list Z.
Variable points_control : list Z → Z → list Split.
Variable run_direct : RunDirectArgs → result unit.

(** The call [Gen.run_direct(...)]: it is recorded, and ends as
    [Gen.run_direct] does. *)
Definition Gen_run_direct (args : RunDirectArgs) : cmd unit :=
  Cmd [GenRunDirect args] (of_result (run_direct args)).

(** [local] *)
Definition local (obj : CtxObj) (n_workers : option Z)
    (points_range : option (list Z)) (verbose : bool) : cmd unit :=
  ctx ← lift (read_ctx obj);
  let verbose := verbose || ctx_verbose ctx in
  _ ← does (InitGenLoggers verbose (ctx_name ctx) (ctx_logdir ctx)
                           gen_modules);
  _ ← does (Echo ("Kicking off reV generation local run " +:+ dquote
                  +:+ ctx_name ctx +:+ dquote +:+ "."));
  _ ← Gen_run_direct
        {| rd_tech := ctx_tech ctx;
           rd_points := ctx_points ctx;
           rd_sam_files := ctx_sam_files ctx;
           rd_res_file := ctx_res_file ctx;
           rd_cf_profiles := ctx_cf_profiles ctx;
           rd_n_workers := n_workers;
           rd_sites_per_split := ctx_sites_per_core ctx;
           rd_points_range := points_range;
           rd_fout := ctx_fout ctx;
           rd_dirout := ctx_dirout ctx |};
  does (Echo "reV generation local run complete.").

(** The command [peregrine] on [ctx.obj]: the reads, the loggers, and the
    dispatch above with what it echoes. *)
Definition peregrine_cmd (obj : CtxObj) (nodes : Z)
    (alloc queue stdout_path : string) (verbose : bool)
  : cmd (gmap nat PBS) :=
  ctx ← lift (read_ctx obj);
  _ ← does (InitGenLoggers (verbose || ctx_verbose ctx) (ctx_name ctx)
                           (ctx_logdir ctx) gen_modules);
  match peregrine PBS_s qsub project_points_sites points_control ctx nodes
                  alloc queue stdout_path verbose with
  | Ok (jobs, echoed) => Cmd (Echo <$> echoed) (Returns jobs)
  | Raise e => raise (Builtin e)
  | Blocks => Cmd [] Hangs
  end.

(** The message [from_config] echoes for a year. *)
Definition year_msg (year : Z) (res_file : string) : string :=
  "Running reV generation for year: " +:+ pretty year
  +:+ " with resource file: " +:+ res_file.

Definition mismatch_msg (year : Z) (res_file : string) : string :=
  "Resource file and year do not appear to match. "
  +:+ "Expected the string representation of the year "
  +:+ "to be in the resource file name. "
  +:+ "Year: " +:+ pretty year +:+ ", Resource file: " +:+ res_file.

(** [ctx.obj['res_file'] = config.res_files[i]] *)
Definition set_res_file (obj : CtxObj) (res_file : string) : CtxObj :=
  {| obj_name := obj_name obj; obj_verbose := obj_verbose obj;
     obj_tech := obj_tech obj; obj_points := obj_points obj;
     obj_sam_files := obj_sam_files obj;
     obj_res_file := Some (PyStr res_file);
     obj_sites_per_core := obj_sites_per_core obj; obj_fout := obj_fout obj;
     obj_dirout := obj_dirout obj; obj_logdir := obj_logdir obj;
     obj_cf_profiles := obj_cf_profiles obj |}.

(** [ctx.obj['fout'] = '{}_{}.h5'.format(name, year)] and
    [ctx.obj['name'] = '{}_{}'.format(name, year)] *)
Definition set_year_names (obj : CtxObj) (name : string) (year : Z) : CtxObj :=
  {| obj_name := Some (name +:+ "_" +:+ pretty year);
     obj_verbose := obj_verbose obj;
     obj_tech := obj_tech obj; obj_points := obj_points obj;
     obj_sam_files := obj_sam_files obj; obj_res_file := obj_res_file obj;
     obj_sites_per_core := obj_sites_per_core obj;
     obj_fout := Some (name +:+ "_" +:+ pretty year +:+ ".h5");
     obj_dirout := obj_dirout obj; obj_logdir := obj_logdir obj;
     obj_cf_profiles := obj_cf_profiles obj |}.

(** [ctx.obj['sites_per_core'] = sites_per_core] *)
Definition set_sites_per_core (obj : CtxObj) (sites_per_core : Z) : CtxObj :=
  {| obj_name := obj_name obj; obj_verbose := obj_verbose obj;
     obj_tech := obj_tech obj; obj_points := obj_points obj;
     obj_sam_files := obj_sam_files obj; obj_res_file := obj_res_file obj;
     obj_sites_per_core := Some (PyInt sites_per_core);
     obj_fout := obj_fout obj;
     obj_dirout := obj_dirout obj; obj_logdir := obj_logdir obj;
     obj_cf_profiles := obj_cf_profiles obj |}.

(** One iteration of [for i, year in enumerate(config.years)], from the
    echo on: the check of the year and the run by the execution option. *)
Definition run_year (config : GenConfig) (verbose : bool) (obj : CtxObj)
    (year : Z) (res_file : string) : cmd CtxObj :=
  _ ← does (Echo (year_msg year res_file));
  if negb (py_in (pretty year) res_file) then
    raise (Exception (mismatch_msg year res_file))
  else if bool_decide (cfg_option config = "local") then
    sites_per_core ←
      lift (ceil_div (Z.of_nat (cfg_n_points config)) (cfg_ppn config));
    let obj := set_sites_per_core obj sites_per_core in
    _ ← local obj (Some (cfg_ppn config)) None verbose;
    mret obj
  else if bool_decide (cfg_option config = "peregrine") then
    _ ← peregrine_cmd obj (cfg_nodes config) (cfg_alloc config)
          (cfg_queue config) (path_join (cfg_dirout config) "stdout") verbose;
    mret obj
  else
    raise (Builtin (ConfigError ("Execution option not recognized: "
                                 +:+ dquote +:+ cfg_option config
                                 +:+ dquote))).

(** The loop over the years; [name] is the job name read before the loop,
    which the loop does not change. *)
Fixpoint from_config_years (config : GenConfig) (name : string)
    (verbose : bool) (i : nat) (years : list Z) (obj : CtxObj)
  : cmd CtxObj :=
  match years with
  | [] => mret obj
  | year :: years' =>
      res_file ←
        match cfg_res_files config !! i with
        | Some res_file => mret res_file
        | None => raise (IndexError "list index out of range")
        end;
      let obj := set_res_file obj res_file in
      let obj :=
        if re_match_year name then obj else set_year_names obj name year in
      obj ← run_year config verbose obj year res_file;
      from_config_years config name verbose (S i) years' obj
  end.

(** [from_config], given the config object that [GenConfig(config_file)]
    makes: the final [ctx.obj]. *)
Definition from_config (obj : CtxObj) (config : GenConfig) (verbose : bool)
  : cmd CtxObj :=
  name ← lift (obj_getitem "name" (obj_name obj));
  v ← lift (obj_getitem "verbose" (obj_verbose obj));
  let verbose := verbose || v in
  let verbose :=
    if bool_decide (cfg_logging_level config = logging_DEBUG) then true
    else verbose in
  _ ← does (InitGenLoggers verbose name (PyStr (cfg_logdir config))
                           ["reV.config"; "reV.generation"; "reV.execution"]);
  let obj :=
    {| obj_name := obj_name obj; obj_verbose := obj_verbose obj;
       obj_tech := Some (cfg_tech config);
       obj_points := Some (cfg_project_points config);
       obj_sam_files := Some (cfg_sam_gen config);
       obj_res_file := obj_res_file obj;
       obj_sites_per_core := Some (cfg_sites_per_core config);
       obj_fout := obj_fout obj;
       obj_dirout := Some (PyStr (cfg_dirout config));
       obj_logdir := Some (PyStr (cfg_logdir config));
       obj_cf_profiles := Some (cfg_write_profiles config) |} in
  from_config_years config name verbose 0 (cfg_years config) obj.

End GenerationCLI.

(** Configs for a run of the years 2012 and 2013 with four workers per
    node: a local run, one whose second resource file is that of another
    year, and one with an execution option that does not exist. *)
Definition ex_config_with (option : string) (res_files : list string)
  : GenConfig :=
  {| cfg_logging_level := 20;
     cfg_logdir := "./out/log";
     cfg_tech := PyStr "pv";
     cfg_project_points := PySlice (Some 0) (Some 100) None;
     cfg_sam_gen := PyStr "sam.json";
     cfg_dirout := "./out";
     cfg_write_profiles := false;
     cfg_sites_per_core := PyInt 100;
     cfg_years := [2012; 2013];
     cfg_res_files := res_files;
     cfg_option := option;
     cfg_ppn := 4;
     cfg_nodes := 1;
     cfg_alloc := "rev";
     cfg_queue := "short";
     cfg_n_points := 100 |}.

Definition ex_gen_config : GenConfig :=
  ex_config_with "local" ["nsrdb_2012.h5"; "nsrdb_2013.h5"].

Definition ex_gen_config_2014 : GenConfig :=
  ex_config_with "local" ["nsrdb_2012.h5"; "nsrdb_2014.h5"].

Definition ex_gen_config_slurm : GenConfig :=
  ex_config_with "slurm" ["nsrdb_2012.h5"; "nsrdb_2013.h5"].

(** A [Gen.run_direct] that returns. *)
Definition ex_run_direct (args : RunDirectArgs) : result unit := Ok ().

Definition ex_from_config :=
  from_config ex_PBS_s ex_qsub ex_project_points_sites ex_points_control
              ex_run_direct.

(** ** Notions used to state the further properties *)

(** The columns [_check_value] looks for, in the order it checks them. *)
Definition checked_columns (values : ValuesArg) (scatter : bool)
  : list string :=
  match values with
  | OneValue value => [value]
  | ManyValues values => values
  end ++ (if scatter then ["latitude"; "longitude"] else []).

Definition sum_Z (l : list Z) : Z := foldr Z.add 0 l.

(** An effect that is only a line in the log. *)
Definition is_log (c : PlotCall) : Prop :=
  match c with
  | LoggerError _ => True
  | _ => False
  end.

Section MeansNotions.
Context {V M : Type}.

(** The values of a 1-D dataset. *)
Definition dset_series (d : Dataset (V:=V)) : list V :=
  map (λ t, cell d [t]) (seq 0 (nth 0 (shape d) 0%nat)).

(** A name that [summarize_means] does not skip and that is the name of a
    1-D dataset of the file. *)
Definition is_vector (f : ResourceFile (V:=V) (M:=M)) (ds_name : string)
  : bool :=
  bool_decide (ds_name ∉ reserved)
  && match dsets (handler f) !! ds_name with
     | Some d => bool_decide (length (shape d) = 1%nat)
     | None => false
     end.

(** The number of sites of the file: the rows of [meta]. *)
Definition n_sites (f : ResourceFile (V:=V) (M:=M)) : nat :=
  length (meta_index (handler f)).

(** A dataset that [summarize_means] can take in: it is in the file, and
    when it is 1-D it has one value per site. *)
Definition fits_meta (f : ResourceFile (V:=V) (M:=M)) (ds_name : string)
  : Prop :=
  ∃ d, dsets (handler f) !! ds_name = Some d
       ∧ (length (shape d) = 1%nat → nth 0 (shape d) 0%nat = n_sites f).

End MeansNotions.

Section RunNotions.
Context {V Stats : Type}.
Variable describe : list V → Stats.
Variable zero : V.
Variable add : V → V → V.

(** The summary of a dataset: one row per site when it has two dimensions,
    the statistics of its values when it has one. *)
Definition dset_summary (f : Resource) (ds_name : string) (d : Dataset)
  : DataFrame :=
  if decide (1 < length (shape d))%nat then sites_table describe zero add f d
  else DsSummary ds_name (describe (dset_series d))
                 (np_sum zero add (dset_series d)).

End RunNotions.

(** The [ctx.obj] that [from_config] has filled from the config; [v] is the
    flag [main] stored. *)
Definition configured (config : GenConfig) (v : bool) (obj : CtxObj) : Prop :=
  obj_verbose obj = Some v
  ∧ obj_tech obj = Some (cfg_tech config)
  ∧ obj_points obj = Some (cfg_project_points config)
  ∧ obj_sam_files obj = Some (cfg_sam_gen config)
  ∧ obj_dirout obj = Some (PyStr (cfg_dirout config))
  ∧ obj_logdir obj = Some (PyStr (cfg_logdir config))
  ∧ obj_cf_profiles obj = Some (cfg_write_profiles config).

(** The verbosity [from_config] settles on. *)
Definition config_verbose (config : GenConfig) (verbose v : bool) : bool :=
  if bool_decide (cfg_logging_level config = logging_DEBUG) then true
  else verbose || v.

(** The arguments of [Gen.run_direct] for one year of a local run from a
    config: everything from the config, the output file named after the job
    and the year. *)
Definition year_run_args (config : GenConfig) (name : string)
    (sites_per_core : Z) (year : Z) (res_file : string) : RunDirectArgs :=
  {| rd_tech := cfg_tech config;
     rd_points := cfg_project_points config;
     rd_sam_files := cfg_sam_gen config;
     rd_res_file := PyStr res_file;
     rd_cf_profiles := cfg_write_profiles config;
     rd_n_workers := Some (cfg_ppn config);
     rd_sites_per_split := PyInt sites_per_core;
     rd_points_range := None;
     rd_fout := name +:+ "_" +:+ pretty year +:+ ".h5";
     rd_dirout := PyStr (cfg_dirout config) |}.

(** What one year of a local run from a config does. *)
Definition local_year_effects (config : GenConfig) (name : string)
    (verbose : bool) (sites_per_core : Z) (yr : Z * string)
  : list CliEffect :=
  [Echo (year_msg yr.1 yr.2);
   InitGenLoggers verbose (name +:+ "_" +:+ pretty yr.1)
                  (PyStr (cfg_logdir config)) gen_modules;
   Echo ("Kicking off reV generation local run " +:+ dquote
         +:+ (name +:+ "_" +:+ pretty yr.1) +:+ dquote +:+ ".");
   GenRunDirect (year_run_args config name sites_per_core yr.1 yr.2);
   Echo "reV generation local run complete."].

(** ** Notions used to state the properties *)

(** The sub-arrays of [array_split], cut one after the other. *)
Fixpoint split_sizes {A} (l : list A) (sizes : list nat) : list (list A) :=
  match sizes with
  | [] => []
  | s :: sizes' => take s l :: split_sizes (drop s l) sizes'
  end.

(** The sizes [array_split] cuts, without the leading 0 of [section_sizes]. *)
Definition sub_sizes (Ntotal Nsections : nat) : list nat :=
  replicate (Ntotal mod Nsections)%nat (Ntotal / Nsections + 1)%nat
  ++ replicate (Nsections - Ntotal mod Nsections)%nat (Ntotal / Nsections)%nat.

Section PoolInvariants.
Context {Res : Type}.
Implicit Types (ex : Pool Res) (sched : list nat).

(** Finished tasks carry the outcome they were submitted with, and every
    submitted task is finished or still due in the schedule. *)
Definition pool_inv (tasks : list (result Res)) ex sched : Prop :=
  submitted ex = tasks
  ∧ (∀ k r, finished ex !! k = Some r → tasks !! k = Some r)
  ∧ (∀ k, (k < length tasks)%nat → is_Some (finished ex !! k) ∨ k ∈ sched).

(** The finished tasks carry the outcome they were submitted with. *)
Definition pool_sound (tasks : list (result Res)) ex : Prop :=
  submitted ex = tasks
  ∧ (∀ k r, finished ex !! k = Some r → tasks !! k = Some r).

End PoolInvariants.

(** The exceptions chunk planning can end in. *)
Definition is_planning_error (e : PyError) : Prop :=
  match e with
  | TypeError _ | ZeroDivisionError _ | ValueError _ => True
  | _ => False
  end.

(** The job recorded for node [i]: named after the run and the node, and
    holding the id that the submission of its own command returned, [None]
    when that submission failed. *)
Definition node_job
    (qsub : string → string → string → string → string → option string)
    (ctx : GenContext) (alloc queue stdout_path : string)
    (i : nat) (pbs : PBS) : Prop :=
  pbs_name pbs = ctx_name ctx +:+ "_" +:+ format_int i
  ∧ pbs_alloc pbs = alloc
  ∧ pbs_queue pbs = queue
  ∧ pbs_stdout_path pbs = stdout_path
  ∧ pbs_id pbs = qsub (pbs_cmd pbs) alloc queue (pbs_name pbs) stdout_path.

(** ** Splitting by a list of sizes *)

Lemma slices_split_sizes {A} (l : list A) (sizes : list nat) (a : nat) :
  map (λ i, py_slice l (nth i (a :: cumsum_from a sizes) 0%nat)
                       (nth (i + 1) (a :: cumsum_from a sizes) 0%nat))
      (seq 0 (length sizes))
  = split_sizes (drop a l) sizes.
Proof.
  revert a. induction sizes as [|s sizes IH]; intros a; [reflexivity|].
  cbn [length seq map split_sizes cumsum_from]. f_equal.
  - unfold py_slice. cbn [nth Nat.add]. f_equal. lia.
  - rewrite <- seq_shift, map_map, drop_drop. rewrite <- (IH (a + s)%nat).
    apply map_ext. intros i. reflexivity.
Qed.

Lemma concat_split_sizes {A} (l : list A) (sizes : list nat) :
  concat (split_sizes l sizes) = take (list_sum sizes) l.
Proof.
  revert l. induction sizes as [|s sizes IH]; intros l; cbn.
  - reflexivity.
  - rewrite IH. apply take_take_drop.
Qed.

Lemma length_split_sizes {A} (l : list A) (sizes : list nat) :
  length (split_sizes l sizes) = length sizes.
Proof. revert l. induction sizes; intros; cbn; auto. Qed.

Lemma split_sizes_lengths {A} (l : list A) (sizes : list nat) :
  (list_sum sizes ≤ length l)%nat →
  map length (split_sizes l sizes) = sizes.
Proof.
  revert l. induction sizes as [|s sizes IH]; intros l Hle; [done|].
  change (list_sum (s :: sizes)) with (s + list_sum sizes)%nat in Hle.
  cbn [split_sizes map]. f_equal.
  - rewrite length_take. lia.
  - apply IH. rewrite length_drop. lia.
Qed.

Lemma split_sizes_map {A B} (g : A → B) (l : list A) (sizes : list nat) :
  split_sizes (map g l) sizes = map (map g) (split_sizes l sizes).
Proof.
  revert l. induction sizes as [|s sizes IH]; intros l; cbn; [done|].
  change (@map A B g) with (@fmap list _ A B g).
  rewrite <- fmap_take, <- fmap_drop. f_equal. apply IH.
Qed.

Lemma list_sum_replicate (n x : nat) : list_sum (replicate n x) = (n * x)%nat.
Proof.
  induction n as [|n IH]; [done|].
  change (list_sum (replicate (S n) x)) with (x + list_sum (replicate n x))%nat.
  rewrite IH. lia.
Qed.

Lemma length_sub_sizes (N n : nat) : n ≠ 0%nat → length (sub_sizes N n) = n.
Proof.
  intros Hn. unfold sub_sizes. rewrite length_app, !length_replicate.
  pose proof (Nat.mod_upper_bound N n Hn). lia.
Qed.

Lemma list_sum_sub_sizes (N n : nat) : n ≠ 0%nat → list_sum (sub_sizes N n) = N.
Proof.
  intros Hn. unfold sub_sizes. rewrite list_sum_app, !list_sum_replicate.
  pose proof (Nat.mod_upper_bound N n Hn).
  pose proof (Nat.div_mod_eq N n). nia.
Qed.

Lemma array_split_sections {A} (ary : list A) (n : Z) :
  0 < n →
  array_split ary n
  = Ok (split_sizes ary (sub_sizes (length ary) (Z.to_nat n))).
Proof.
  intros Hn. unfold array_split.
  destruct (Z.leb_spec n 0) as [?|_]; [lia|]. f_equal.
  assert (Hne : Z.to_nat n ≠ 0%nat) by lia.
  pose proof (slices_split_sizes ary (sub_sizes (length ary) (Z.to_nat n)) 0) as H.
  rewrite drop_0, length_sub_sizes in H by done. rewrite <- H.
  apply map_ext. intros i. reflexivity.
Qed.

Lemma array_split_concat {A} (ary : list A) (n : Z) (chunks : list (list A)) :
  array_split ary n = Ok chunks → concat chunks = ary.
Proof.
  intros H. destruct (Z.leb_spec n 0) as [Hle|Hlt].
  - unfold array_split in H. destruct (Z.leb_spec n 0); [discriminate|lia].
  - rewrite array_split_sections in H by done. injection H as <-.
    rewrite concat_split_sizes, list_sum_sub_sizes by lia.
    apply firstn_all.
Qed.

(** *** Every schedule that finishes all tasks yields the results in
    submission order *)

Section PoolFacts.
Context {Res : Type}.
Implicit Types (ex : Pool Res) (sched futures : list nat).

Lemma pool_inv_complete tasks ex k sched :
  pool_inv tasks ex (k :: sched) → pool_inv tasks (complete ex k) sched.
Proof.
  intros (Hsub & Hfin & Hdue). unfold complete, pool_inv. rewrite Hsub.
  destruct (tasks !! k) as [r|] eqn:Hk; cbn [submitted finished].
  - split; [done|]. split.
    + intros j r'. rewrite lookup_insert. case_decide; subst; [congruence|auto].
    + intros j Hj. destruct (decide (k = j)) as [->|Hne].
      * left. rewrite lookup_insert_eq. eauto.
      * rewrite lookup_insert_ne by done.
        destruct (Hdue j Hj) as [?|Hin]; [by left|].
        apply elem_of_cons in Hin as [->|?]; [done|by right].
  - split; [done|]. split; [done|].
    intros j Hj. destruct (Hdue j Hj) as [?|Hin]; [by left|].
    apply elem_of_cons in Hin as [->|?]; [|by right].
    apply lookup_ge_None in Hk. lia.
Qed.

Lemma future_result_ok tasks ex sched fut r :
  pool_inv tasks ex sched →
  tasks !! fut = Some (Ok r) →
  ∃ ex' sched',
    future_result fut ex sched = Ok (r, ex', sched') ∧ pool_inv tasks ex' sched'.
Proof.
  intros Hinv Hfut. revert ex Hinv.
  induction sched as [|k sched IH]; intros ex Hinv; cbn.
  - destruct Hinv as (Hsub & Hfin & Hdue).
    destruct (Hdue fut) as [[r' Hr']|Hin].
    { eapply lookup_lt_Some, Hfut. }
    + rewrite Hr'. apply Hfin in Hr'. rewrite Hfut in Hr'. injection Hr' as <-.
      eexists _, _. split; [done|]. by split.
    + by apply elem_of_nil in Hin.
  - destruct (finished ex !! fut) as [r'|] eqn:Hr'.
    + destruct Hinv as (Hsub & Hfin & Hdue).
      pose proof (Hfin _ _ Hr') as Heq. rewrite Hfut in Heq. injection Heq as <-.
      eexists _, _. split; [done|]. by split.
    + apply IH. by apply pool_inv_complete.
Qed.

Lemma collect_results_ok tasks futures rs ex sched :
  pool_inv tasks ex sched →
  Forall2 (λ fut r, tasks !! fut = Some (Ok r)) futures rs →
  collect_results futures ex sched = Ok rs.
Proof.
  intros Hinv Hall. revert ex sched Hinv.
  induction Hall as [|fut r futures rs Hfut _ IH]; intros ex sched Hinv; [done|].
  cbn [collect_results].
  destruct (future_result_ok _ _ _ _ _ Hinv Hfut) as (ex' & sched' & -> & Hinv').
  cbn. by rewrite (IH _ _ Hinv').
Qed.

Lemma submit_all_from {Arg} (fn : Arg → result Res) (args : list Arg)
    (pre : list (result Res)) :
  foldl (λ '(ex, futures) arg,
           let '(ex', fut) := submit ex (fn arg) in (ex', futures ++ [fut]))
        ({| submitted := pre; finished := ∅ |}, seq 0 (length pre)) args
  = ({| submitted := pre ++ map fn args; finished := ∅ |},
     seq 0 (length pre + length args)).
Proof.
  revert pre. induction args as [|arg args IH]; intros pre; cbn.
  - by rewrite app_nil_r, Nat.add_0_r.
  - rewrite <- seq_S.
    replace (S (length pre)) with (length (pre ++ [fn arg]))
      by (rewrite length_app; cbn; lia).
    etransitivity; [exact (IH (pre ++ [fn arg]))|].
    rewrite <- app_assoc, length_app. cbn. do 2 f_equal. lia.
Qed.

Lemma submit_all_spec {Arg} (fn : Arg → result Res) (args : list Arg) :
  submit_all fn args
  = ({| submitted := map fn args; finished := ∅ |}, seq 0 (length args)).
Proof. apply (submit_all_from fn args []). Qed.

(** Submitting one task per argument and collecting the futures in submission
    order returns the workers' results in the order of the arguments, under
    every schedule in which each submitted task finishes. *)
Lemma pool_collect_in_order {Arg} (fn : Arg → result Res) (g : Arg → Res)
    (args : list Arg) sched :
  (∀ arg, arg ∈ args → fn arg = Ok (g arg)) →
  (∀ k, (k < length args)%nat → k ∈ sched) →
  (let '(ex, futures) := submit_all fn args in
   collect_results futures ex sched) = Ok (map g args).
Proof.
  intros Hfn Hsched. rewrite submit_all_spec.
  apply (collect_results_ok (map fn args)).
  - split; [done|]. split.
    + intros k r. cbn. by rewrite lookup_empty.
    + intros k Hk. right. apply Hsched. by rewrite length_map in Hk.
  - apply Forall2_same_length_lookup_2.
    + by rewrite length_seq, length_map.
    + intros i fut r Hi Hr.
      apply lookup_seq in Hi as [-> Hlt]. cbn.
      change (map g args) with (g <$> args) in Hr.
      change (map fn args) with (fn <$> args).
      apply list_lookup_fmap_Some in Hr as (arg & -> & Harg).
      rewrite list_lookup_fmap, Harg. cbn. f_equal. apply Hfn.
      by eapply list_elem_of_lookup_2.
Qed.

End PoolFacts.

(** ** Facts about [summarize_dset] *)

Section SummarizeFacts.
Context {V Stats : Type}.
Variable describe : list V → Stats.
Variable zero : V.
Variable add : V → V → V.

Lemma ceil_div_bounds (a b : Z) :
  0 < b → ∃ n, ceil_div a b = Ok n ∧ (n - 1) * b < a ≤ n * b.
Proof.
  intros Hb. unfold ceil_div. destruct (Z.eqb_spec b 0) as [?|_]; [lia|].
  eexists. split; [done|].
  pose proof (Z.div_mod (- a) b ltac:(lia)).
  pose proof (Z.mod_pos_bound (- a) b Hb). nia.
Qed.

Lemma plan_sections (N : nat) (ps : Z) :
  (0 < N)%nat → 0 < ps →
  ∃ chunks,
    ceil_div (Z.of_nat N) ps = Ok (Z.of_nat (n_sections N ps))
    ∧ array_split (arange N) (Z.of_nat (n_sections N ps)) = Ok chunks
    ∧ concat chunks = arange N
    ∧ length chunks = n_sections N ps
    ∧ (0 < n_sections N ps ≤ N)%nat.
Proof.
  intros HN Hps.
  destruct (ceil_div_bounds (Z.of_nat N) ps Hps) as (n & Hn & Hlo & Hhi).
  assert (Hn' : n = - (- Z.of_nat N / ps)).
  { unfold ceil_div in Hn. destruct (ps =? 0); congruence. }
  assert (0 < n ≤ Z.of_nat N) by nia.
  assert (Hsec : Z.of_nat (n_sections N ps) = n).
  { unfold n_sections. rewrite <- Hn'. lia. }
  rewrite Hsec, Hn.
  rewrite array_split_sections by lia.
  eexists. split; [done|]. split; [done|]. split; [|split].
  - rewrite concat_split_sizes, list_sum_sub_sizes by lia.
    apply take_ge. unfold arange. rewrite length_seq. lia.
  - rewrite length_split_sizes, length_sub_sizes by lia. lia.
  - lia.
Qed.

Lemma column_getitem_sites (d : Dataset) (sites ts : list nat) (j s : nat) :
  sites !! j = Some s →
  column zero (map (λ t, map (λ s, cell d [t; s]) sites) ts) j
  = map (λ t, cell d [t; s]) ts.
Proof.
  intros Hj. unfold column. rewrite map_map. apply map_ext. intros t.
  apply nth_lookup_Some with (d := zero).
  change (map ?g sites) with (g <$> sites).
  by rewrite list_lookup_fmap, Hj.
Qed.

Lemma compute_sites_summary_rows (f : Resource) (ds_name : string)
    (d : Dataset) (sites : list nat) :
  dsets f !! ds_name = Some d →
  _compute_sites_summary describe zero add f ds_name (Some sites)
  = Ok (map (site_row describe zero add f d) sites).
Proof.
  intros Hd. unfold _compute_sites_summary, getitem_sites. rewrite Hd. cbn.
  f_equal. apply list_eq. intros j.
  change (map (site_row describe zero add f d) sites)
    with (site_row describe zero add f d <$> sites).
  rewrite lookup_zip_with, list_lookup_imap, list_lookup_fmap.
  unfold meta_sites_index, sum_axis0.
  change (map ?g sites) with (g <$> sites).
  change (map ?g (seq 0 (length sites))) with (g <$> seq 0 (length sites)).
  rewrite !list_lookup_fmap.
  destruct (sites !! j) as [s|] eqn:Hj; cbn; [|done].
  rewrite lookup_seq_lt by (by eapply lookup_lt_Some). cbn.
  unfold site_row, site_series.
  by rewrite (column_getitem_sites d sites _ j s Hj).
Qed.

Lemma mapM_sites_summary (f : Resource) (ds_name : string) (d : Dataset)
    (chunks : list (list nat)) :
  dsets f !! ds_name = Some d →
  mapM (λ site_slice,
          _compute_sites_summary describe zero add f ds_name (Some site_slice))
       chunks
  = Ok (map (map (site_row describe zero add f d)) chunks).
Proof.
  intros Hd. induction chunks as [|c chunks IH]; [done|].
  cbn. rewrite (compute_sites_summary_rows _ _ _ _ Hd). cbn.
  fold (mapM (λ site_slice,
                _compute_sites_summary describe zero add f ds_name
                  (Some site_slice))
          chunks).
  by rewrite IH.
Qed.

Lemma pd_concat_map_rows {A B} (g : A → B) (chunks : list (list A)) :
  chunks ≠ [] →
  pd_concat (map (map g) chunks) = Ok (map g (concat chunks)).
Proof.
  intros Hne. destruct chunks as [|c chunks]; [done|].
  unfold pd_concat. cbn [map]. f_equal.
  by rewrite concat_map.
Qed.

Lemma summarize_dset_single_pass (f : Resource) (ds_name : string)
    (d : Dataset) (w : Z) (out_path : option string) (sched : list nat) :
  dsets f !! ds_name = Some d →
  (1 < length (shape d))%nat →
  w ≤ 1 →
  summarize_dset describe zero add f ds_name None (Some w) out_path sched
  = Ok (sites_table describe zero add f d,
        csv_log out_path (sites_table describe zero add f d)).
Proof.
  intros Hd H2 Hw. unfold summarize_dset, get_dset_properties. rewrite Hd. cbn.
  destruct (decide (1 < length (shape d))%nat) as [_|?]; [|lia].
  destruct (Z.ltb_spec 1 w) as [?|_]; [lia|]. cbn.
  rewrite (compute_sites_summary_rows _ _ _ _ Hd). cbn.
  by destruct out_path.
Qed.

Lemma summarize_dset_serial_chunked (f : Resource) (ds_name : string)
    (d : Dataset) (ps w : Z) (out_path : option string) (sched : list nat) :
  dsets f !! ds_name = Some d →
  (1 < length (shape d))%nat →
  (0 < nth 1 (shape d) 0)%nat →
  0 < ps →
  w ≤ 1 →
  summarize_dset describe zero add f ds_name (Some ps) (Some w) out_path sched
  = Ok (sites_table describe zero add f d,
        csv_log out_path (sites_table describe zero add f d)).
Proof.
  intros Hd H2 HN Hps Hw.
  unfold summarize_dset, get_dset_properties. rewrite Hd. cbn.
  destruct (decide (1 < length (shape d))%nat) as [_|?]; [|lia].
  destruct (Z.ltb_spec 1 w) as [?|_]; [lia|]. cbn.
  destruct (plan_sections _ ps HN Hps) as (chunks & Hn & Hsplit & Hcat & Hlen & Hpos).
  unfold arange in *. rewrite length_seq, Hn. cbn. rewrite Hsplit. cbn.
  rewrite (mapM_sites_summary _ _ _ _ Hd). cbn.
  rewrite pd_concat_map_rows, Hcat by (intros ->; cbn in Hlen; lia). cbn.
  by destruct out_path.
Qed.

Lemma summarize_dset_parallel (f : Resource) (ds_name : string)
    (d : Dataset) (process_size : option Z) (w : Z)
    (out_path : option string) (sched : list nat) :
  dsets f !! ds_name = Some d →
  (1 < length (shape d))%nat →
  (0 < nth 1 (shape d) 0)%nat →
  0 < default (chunks d) process_size →
  1 < w →
  completes_all sched (n_sections (nth 1 (shape d) 0%nat)
                                  (default (chunks d) process_size)) →
  summarize_dset describe zero add f ds_name process_size (Some w)
                 out_path sched
  = Ok (sites_table describe zero add f d,
        csv_log out_path (sites_table describe zero add f d)).
Proof.
  intros Hd H2 HN Hps Hw Hsched.
  unfold summarize_dset, get_dset_properties. rewrite Hd. cbn.
  destruct (decide (1 < length (shape d))%nat) as [_|?]; [|lia].
  destruct (Z.ltb_spec 1 w) as [_|?]; [|lia]. cbn.
  destruct (plan_sections _ _ HN Hps) as (cs & Hn & Hsplit & Hcat & Hlen & Hpos).
  unfold arange in *. rewrite length_seq, Hn. cbn. rewrite Hsplit. cbn.
  pose proof (pool_collect_in_order
    (λ site_slice,
       _compute_sites_summary describe zero add f ds_name (Some site_slice))
    (map (site_row describe zero add f d)) cs sched) as Hpool.
  destruct (submit_all _ cs) as [ex futures].
  rewrite Hpool.
  - cbn. rewrite pd_concat_map_rows, Hcat by (intros ->; cbn in Hlen; lia). cbn.
    by destruct out_path.
  - intros c _. by apply compute_sites_summary_rows.
  - intros k Hk. apply Hsched. lia.
Qed.

End SummarizeFacts.

(** ** Facts about the planned chunks *)

Lemma sub_sizes_bounds (N n : nat) (ps : Z) :
  (0 < n ≤ N)%nat → 0 < ps →
  (Z.of_nat n - 1) * ps < Z.of_nat N ≤ Z.of_nat n * ps →
  Forall (λ s, (0 < s)%nat ∧ Z.of_nat s ≤ ps) (sub_sizes N n).
Proof.
  intros Hn Hps Hceil. unfold sub_sizes.
  pose proof (Nat.div_mod_eq N n) as Hdm.
  pose proof (Nat.mod_upper_bound N n ltac:(lia)) as Hr.
  assert (Hq : (1 ≤ N / n)%nat).
  { apply Nat.div_le_lower_bound; lia. }
  apply Forall_app. split.
  - destruct (decide (N mod n = 0)%nat) as [->|Hne]; [constructor|].
    apply Forall_replicate. split; [lia|]. nia.
  - apply Forall_replicate. split; [lia|]. nia.
Qed.

Lemma split_sizes_Forall {A} (P : nat → Prop) (l : list A) (sizes : list nat) :
  (list_sum sizes ≤ length l)%nat →
  Forall P sizes →
  Forall (λ c, P (length c)) (split_sizes l sizes).
Proof.
  intros Hsum HP. apply Forall_fmap.
  change (Forall P (map length (split_sizes l sizes))).
  by rewrite split_sizes_lengths.
Qed.

(** The chunks [summarize_dset] cuts the [N] sites into, for a positive
    process size: they are the consecutive runs of [0 .. N-1], none of them
    empty or longer than the process size, and there are [ceil(N / ps)] of
    them. *)
Lemma array_split_plan (N : nat) (ps : Z) :
  (0 < N)%nat → 0 < ps →
  ∃ chunks,
    (n ← ceil_div (Z.of_nat (length (arange N))) ps; array_split (arange N) n)
    = Ok chunks
    ∧ concat chunks = arange N
    ∧ Forall (λ c, (0 < length c)%nat ∧ Z.of_nat (length c) ≤ ps) chunks
    ∧ (Z.of_nat (length chunks) - 1) * ps < Z.of_nat N
                                          ≤ Z.of_nat (length chunks) * ps.
Proof.
  intros HN Hps.
  destruct (ceil_div_bounds (Z.of_nat N) ps Hps) as (n & Hn & Hlo & Hhi).
  assert (0 < n ≤ Z.of_nat N) by nia.
  unfold arange. rewrite length_seq, Hn. cbn.
  rewrite array_split_sections by lia. rewrite length_seq.
  eexists. split; [done|]. split; [|split].
  - rewrite concat_split_sizes, list_sum_sub_sizes by lia.
    apply take_ge. rewrite length_seq. lia.
  - apply (split_sizes_Forall (λ s, (0 < s)%nat ∧ Z.of_nat s ≤ ps)).
    + rewrite list_sum_sub_sizes, length_seq by lia. lia.
    + apply sub_sizes_bounds; lia.
  - rewrite length_split_sizes, length_sub_sizes by lia. lia.
Qed.

(** 250 sites and a process size of 100: [array_split] cuts 3 chunks of
    84, 83 and 83 sites; the planner, for a chunk size of 100, cuts
    [[0, 100)], [[100, 200)] and [[200, 250)]. *)
Example array_split_250_by_100 :
  (n ← ceil_div 250 100; chunks ← array_split (arange 250) n;
   Ok (map length chunks))
  = Ok [84; 83; 83]%nat.
Proof. reflexivity. Qed.

Example plan_250_by_100 :
  plan 250 100
  = Ok [{| chunk_index := 0; chunk_start := 0; chunk_stop := 100 |};
        {| chunk_index := 1; chunk_start := 100; chunk_stop := 200 |};
        {| chunk_index := 2; chunk_start := 200; chunk_stop := 250 |}].
Proof. reflexivity. Qed.

Lemma concat_plan_units (size total j : nat) :
  (0 < size)%nat → (j * size < total + size)%nat →
  concat (map chunk_units
            (map (λ i, {| chunk_index := i;
                          chunk_start := i * size;
                          chunk_stop := Nat.min ((i + 1) * size) total |})
                 (seq 0 j)))
  = seq 0 (Nat.min (j * size) total).
Proof.
  intros Hsize. induction j as [|j IH]; intros Hj; [done|].
  rewrite seq_S, !map_app, concat_app, IH by lia. cbn [map concat].
  rewrite app_nil_r. unfold chunk_units. cbn [chunk_start chunk_stop].
  replace (Nat.min (j * size) total) with (j * size)%nat by lia.
  replace (Nat.min (S j * size) total)
    with (j * size + (Nat.min ((j + 1) * size) total - j * size))%nat by lia.
  by rewrite seq_app.
Qed.

(** The planner's chunks for [N] units and a positive chunk size. *)
Lemma plan_chunks (N : nat) (size : Z) :
  (0 < N)%nat → 0 < size →
  ∃ chunks,
    plan (Z.of_nat N) size = Ok chunks
    ∧ concat (map chunk_units chunks) = seq 0 N
    ∧ map chunk_index chunks = seq 0 (length chunks)
    ∧ (Z.of_nat (length chunks) - 1) * size < Z.of_nat N
                                             ≤ Z.of_nat (length chunks) * size
    ∧ (∀ i c, chunks !! i = Some c →
         (chunk_start c < chunk_stop c)%nat
         ∧ Z.of_nat (chunk_stop c - chunk_start c) ≤ size
         ∧ ((S i < length chunks)%nat →
            Z.of_nat (chunk_stop c - chunk_start c) = size)).
Proof.
  intros HN Hsize. unfold plan.
  destruct (Z.leb_spec (Z.of_nat N) 0) as [?|_]; [lia|].
  destruct (Z.leb_spec size 0) as [?|_]; [lia|]. cbn [orb].
  destruct (ceil_div_bounds (Z.of_nat N) size Hsize) as (n & -> & Hlo & Hhi).
  assert (0 < n ≤ Z.of_nat N) by nia. cbn.
  rewrite Nat2Z.id.
  eexists. split; [done|]. split; [|split; [|split]].
  - rewrite concat_plan_units by nia. f_equal. nia.
  - rewrite map_map, length_map, length_seq. cbn. apply map_id.
  - rewrite length_map, length_seq. lia.
  - intros i c Hc. rewrite length_map, length_seq.
    change (map ?g ?l) with (g <$> l) in Hc.
    apply list_lookup_fmap_Some in Hc as (j & -> & Hj).
    apply lookup_seq in Hj as [-> Hlt]. cbn. nia.
Qed.

(** ** What a returned table can be *)

Section PoolSound.
Context {Res : Type}.
Implicit Types (ex : Pool Res) (sched futures : list nat).

Lemma pool_sound_complete tasks ex k :
  pool_sound tasks ex → pool_sound tasks (complete ex k).
Proof.
  intros (Hsub & Hfin). unfold complete, pool_sound. rewrite Hsub.
  destruct (tasks !! k) as [r|] eqn:Hk; cbn [submitted finished]; [|done].
  split; [done|]. intros j r'. rewrite lookup_insert.
  case_decide; subst; [congruence|auto].
Qed.

Lemma future_result_sound tasks fut sched ex :
  pool_sound tasks ex →
  match future_result fut ex sched with
  | Ok (r, ex', _) => tasks !! fut = Some (Ok r) ∧ pool_sound tasks ex'
  | Raise e => tasks !! fut = Some (Raise e)
  | Blocks => True
  end.
Proof.
  revert ex. induction sched as [|k sched IH]; intros ex Hs; cbn.
  - destruct (finished ex !! fut) as [[r|e|]|] eqn:Hr; try done.
    + split; [|done]. by apply Hs.
    + by apply Hs.
  - destruct (finished ex !! fut) as [[r|e|]|] eqn:Hr; try done.
    + split; [|done]. by apply Hs.
    + by apply Hs.
    + apply IH. by apply pool_sound_complete.
Qed.

Lemma collect_results_sound tasks futures sched ex :
  pool_sound tasks ex →
  match collect_results futures ex sched with
  | Ok rs => Forall2 (λ fut r, tasks !! fut = Some (Ok r)) futures rs
  | Raise e => ∃ fut, fut ∈ futures ∧ tasks !! fut = Some (Raise e)
  | Blocks => True
  end.
Proof.
  revert ex sched. induction futures as [|fut futures IH]; intros ex sched Hs.
  { constructor. }
  cbn [collect_results].
  pose proof (future_result_sound tasks fut sched ex Hs) as Hfut.
  destruct (future_result fut ex sched) as [[[r ex'] sched']|e|]; cbn; [| |done].
  - destruct Hfut as [Hr Hs'].
    pose proof (IH ex' sched' Hs') as Hrest.
    destruct (collect_results futures ex' sched') as [rs|e|]; cbn; [| |done].
    + by constructor.
    + destruct Hrest as (fut' & Hin & Hfut'). exists fut'. split; [|done].
      by apply elem_of_cons; right.
  - exists fut. split; [|done]. by apply elem_of_cons; left.
Qed.

End PoolSound.

Section SummarizeSound.
Context {V Stats : Type}.
Variable describe : list V → Stats.
Variable zero : V.
Variable add : V → V → V.

(** Whatever the process size, the workers and the schedule: a call on a 2-D
    dataset that returns, returns the table with one row per site in site
    order, and a call that raises does so while planning the chunks. *)
Lemma summarize_dset_2d_sound (f : Resource) (ds_name : string) (d : Dataset)
    (process_size max_workers : option Z) (out_path : option string)
    (sched : list nat) :
  dsets f !! ds_name = Some d →
  (1 < length (shape d))%nat →
  match summarize_dset describe zero add f ds_name process_size max_workers
                       out_path sched with
  | Ok (df, log) =>
      df = sites_table describe zero add f d ∧ log = csv_log out_path df
  | Raise e => is_planning_error e
  | Blocks => True
  end.
Proof.
  intros Hd H2. unfold summarize_dset, get_dset_properties. rewrite Hd. cbn.
  destruct (decide (1 < length (shape d))%nat) as [_|?]; [|lia].
  destruct max_workers as [w|]; cbn; [|done].
  set (N := nth 1 (shape d) 0%nat).
  assert (Hfin : ∀ rows : result (list Row),
    match rows with
    | Ok rows => rows = map (site_row describe zero add f d) (arange N)
    | Raise e => is_planning_error e
    | Blocks => True
    end →
    match (summary ← rows; Ok (SitesSummary "gid" summary, []))
          ≫= (λ '(summary, log),
                match out_path with
                | Some path => Ok (summary, log ++ [ToCsv path summary])
                | None => Ok (summary, log)
                end) with
    | Ok (df, log) =>
        df = sites_table describe zero add f d ∧ log = csv_log out_path df
    | Raise e => is_planning_error e
    | Blocks => True
    end).
  { intros [rows|e|] Hrows; cbn; [|done|done]. subst rows.
    by destruct out_path. }
  destruct (1 <? w); cbn.
  - apply Hfin.
    destruct (ceil_div _ (default (chunks d) process_size)) as [n|e|] eqn:Hn;
      cbn; [| |done].
    2:{ unfold ceil_div in Hn. destruct (_ =? 0); [|done].
        by injection Hn as <-. }
    destruct (array_split (arange N) n) as [chunks|e|] eqn:Hsplit; cbn;
      [| |done].
    2:{ unfold array_split in Hsplit. destruct (n <=? 0); [|done].
        by injection Hsplit as <-. }
    rewrite submit_all_spec.
    pose proof (collect_results_sound
      (map (λ site_slice, _compute_sites_summary describe zero add f ds_name
                            (Some site_slice)) chunks)
      (seq 0 (length chunks)) sched
      {| submitted := map (λ site_slice,
                             _compute_sites_summary describe zero add f ds_name
                               (Some site_slice)) chunks;
         finished := ∅ |}) as Hsound.
    specialize (Hsound ltac:(by split)).
    destruct (collect_results _ _ sched) as [rs|e|]; cbn; [| |done].
    + assert (Hrs : rs = map (map (site_row describe zero add f d)) chunks).
      { apply list_eq_same_length with (length chunks).
        - by rewrite length_map.
        - apply Forall2_length in Hsound.
          by rewrite length_seq in Hsound.
        - intros i x y Hi Hx Hy.
          eapply Forall2_lookup_r in Hsound as (fut & Hfut & Htask); [|exact Hx].
          apply lookup_seq in Hfut as [-> _]. cbn in Htask.
          change (map ?g chunks) with (g <$> chunks) in Htask.
          change (map ?g chunks) with (g <$> chunks) in Hy.
          rewrite list_lookup_fmap in Htask. rewrite list_lookup_fmap in Hy.
          destruct (chunks !! i) as [c|]; cbn in *; [|done].
          rewrite (compute_sites_summary_rows _ _ _ _ _ d) in Htask by done.
          congruence. }
      subst rs. destruct chunks as [|c chunks].
      { unfold array_split in Hsplit. destruct (Z.leb_spec n 0); [done|].
        injection Hsplit as Hsplit.
        apply (f_equal length) in Hsplit.
        rewrite length_map, length_seq in Hsplit. cbn in Hsplit. lia. }
      rewrite pd_concat_map_rows by done.
      by rewrite (array_split_concat _ _ _ Hsplit).
    + exfalso. destruct Hsound as (fut & _ & Hfut).
      change (map ?g chunks) with (g <$> chunks) in Hfut.
      rewrite list_lookup_fmap in Hfut.
      destruct (chunks !! fut) as [c|]; cbn in *; [|done].
      rewrite (compute_sites_summary_rows _ _ _ _ _ d) in Hfut by done.
      done.
  - apply Hfin. destruct process_size as [ps|].
    + destruct (ceil_div _ ps) as [n|e|] eqn:Hn; cbn; [| |done].
      2:{ unfold ceil_div in Hn. destruct (_ =? 0); [|done].
          by injection Hn as <-. }
      destruct (array_split (arange N) n) as [chunks|e|] eqn:Hsplit; cbn;
        [| |done].
      2:{ unfold array_split in Hsplit. destruct (n <=? 0); [|done].
          by injection Hsplit as <-. }
      rewrite (mapM_sites_summary _ _ _ _ _ d) by done. cbn.
      destruct chunks as [|c chunks].
      { unfold array_split in Hsplit. destruct (Z.leb_spec n 0); [done|].
        injection Hsplit as Hsplit.
        apply (f_equal length) in Hsplit.
        rewrite length_map, length_seq in Hsplit. cbn in Hsplit. lia. }
      rewrite pd_concat_map_rows by done.
      by rewrite (array_split_concat _ _ _ Hsplit).
    + by rewrite (compute_sites_summary_rows _ _ _ _ _ d).
Qed.

End SummarizeSound.

(** ** Properties of [Summarize.summarize_dset] *)

Section SummarizeClaims.
Context {V Stats : Type}.
Variable describe : list V → Stats.
Variable zero : V.
Variable add : V → V → V.

(** C1. On a 2-D dataset with [max_workers > 1], and whatever the order in
    which the workers of the pool finish (every schedule in which each
    submitted chunk finishes at some point), [summarize_dset] returns the
    table whose rows are the sites [0, 1, ..., N-1] in ascending site order:
    the futures are read in the order of submission and the partial tables
    are concatenated in that order.  Two such schedules give the same
    result. *)
Theorem summarize_dset_parallel_site_order (f : Resource) (ds_name : string)
    (d : Dataset) (process_size : option Z) (w : Z)
    (out_path : option string) (sched sched' : list nat) :
  let N := nth 1 (shape d) 0%nat in
  let size := default (chunks d) process_size in
  let table :=
    SitesSummary "gid" (map (site_row describe zero add f d) (seq 0 N)) in
  dsets f !! ds_name = Some d →
  (1 < length (shape d))%nat →
  (0 < N)%nat →
  0 < size →
  1 < w →
  completes_all sched (n_sections N size) →
  completes_all sched' (n_sections N size) →
  summarize_dset describe zero add f ds_name process_size (Some w)
                 out_path sched
  = Ok (table, csv_log out_path table)
  ∧ summarize_dset describe zero add f ds_name process_size (Some w)
                   out_path sched'
    = summarize_dset describe zero add f ds_name process_size (Some w)
                     out_path sched.
Proof.
  intros N size table Hd H2 HN Hsize Hw Hsched Hsched'.
  rewrite (summarize_dset_parallel _ _ _ _ _ d _ _ _ sched) by done.
  rewrite (summarize_dset_parallel _ _ _ _ _ d _ _ _ sched') by done.
  done.
Qed.

(** C2. On a 2-D dataset with at least one site and for every positive
    [process_size], the chunked serial path ([ceil(N / process_size)] groups
    of sites, one partial table per group, concatenated) returns what the
    single pass over all [N] sites returns: the same table, row by row, with
    the same statistics and the same per-site sum.  [add] is arbitrary, so
    the sums agree exactly even for an addition that rounds. *)
Theorem chunked_summary_eq_single_pass (f : Resource) (ds_name : string)
    (d : Dataset) (process_size w : Z) (out_path : option string)
    (sched : list nat) :
  let N := nth 1 (shape d) 0%nat in
  let table :=
    SitesSummary "gid" (map (site_row describe zero add f d) (seq 0 N)) in
  dsets f !! ds_name = Some d →
  (1 < length (shape d))%nat →
  (0 < N)%nat →
  0 < process_size →
  w ≤ 1 →
  summarize_dset describe zero add f ds_name (Some process_size) (Some w)
                 out_path sched
  = summarize_dset describe zero add f ds_name None (Some w) out_path sched
  ∧ summarize_dset describe zero add f ds_name None (Some w) out_path sched
    = Ok (table, csv_log out_path table).
Proof.
  intros N table Hd H2 HN Hps Hw.
  rewrite (summarize_dset_serial_chunked _ _ _ _ _ d) by done.
  rewrite (summarize_dset_single_pass _ _ _ _ _ d) by done.
  done.
Qed.

(** C5. The call with [max_workers = None] (the default) does not use all
    cores: on every 2-D dataset the comparison [max_workers > 1] raises
    [TypeError] before any statistic is computed. *)
Theorem summarize_dset_max_workers_None (f : Resource) (ds_name : string)
    (d : Dataset) (process_size : option Z) (out_path : option string)
    (sched : list nat) :
  dsets f !! ds_name = Some d →
  (1 < length (shape d))%nat →
  summarize_dset describe zero add f ds_name process_size None out_path sched
  = Raise (TypeError
             "'>' not supported between instances of 'NoneType' and 'int'").
Proof.
  intros Hd H2. unfold summarize_dset,
    get_dset_properties.
  rewrite Hd. cbn.
  by destruct (decide (1 < length (shape d))%nat) as [_|?]; [|lia].
Qed.

(** C6. On a 1-D dataset the statistics are those of one call of
    [_compute_ds_summary] over the whole series, and every call that gives
    [process_size] or an integer [max_workers] returns this summary: a
    request for chunking or parallel workers ([process_size] set, or
    [max_workers > 1]) is only reported, by one logger warning and one
    [warn], and without such a request nothing is logged.  The default call
    does not return it: with [process_size = None] and [max_workers = None]
    (which the docstring documents as the use of all cores) the test
    [process_size is not None or max_workers > 1] raises [TypeError] before
    the summary is computed. *)
Theorem summarize_dset_1d_outcomes (f : Resource) (ds_name : string)
    (d : Dataset) (process_size max_workers : option Z)
    (out_path : option string) (sched : list nat) :
  dsets f !! ds_name = Some d →
  (length (shape d) ≤ 1)%nat →
  let series := map (λ t, cell d [t]) (seq 0 (nth 0 (shape d) 0%nat)) in
  let summary := DsSummary ds_name (describe series) (np_sum zero add series) in
  _compute_ds_summary describe zero add f ds_name = Ok summary
  ∧ (process_size ≠ None ∨ max_workers ≠ None →
     summarize_dset describe zero add f ds_name process_size max_workers
                    out_path sched
     = Ok (summary,
           (if requested process_size max_workers
            then [LoggerWarning serial_msg; Warn serial_msg] else [])
           ++ csv_log out_path summary))
  ∧ (process_size = None → max_workers = None →
     summarize_dset describe zero add f ds_name process_size max_workers
                    out_path sched
     = Raise (TypeError
                "'>' not supported between instances of 'NoneType' and 'int'")).
Proof.
  intros Hd H1 series summary.
  assert (Hsum : _compute_ds_summary describe zero add f ds_name = Ok summary).
  { unfold _compute_ds_summary, getitem_all. by rewrite Hd. }
  split; [done|].
  unfold summarize_dset, get_dset_properties.
  rewrite Hd. cbn.
  destruct (decide (1 < length (shape d))%nat) as [?|_]; [lia|].
  split.
  - intros Hgiven. destruct process_size as [ps|]; cbn.
    + rewrite Hsum. cbn. by destruct out_path.
    + destruct max_workers as [w|]; [|by destruct Hgiven]. cbn.
      rewrite Hsum. cbn. by destruct (1 <? w), out_path.
  - by intros -> ->.
Qed.

(** On a 1-D dataset and without such a request, an integer [max_workers]
    gives the same summary and no warning. *)
Lemma summarize_dset_1d_quiet (f : Resource) (ds_name : string)
    (d : Dataset) (w : Z) (out_path : option string) (sched : list nat) :
  dsets f !! ds_name = Some d →
  (length (shape d) ≤ 1)%nat →
  w ≤ 1 →
  let series := map (λ t, cell d [t]) (seq 0 (nth 0 (shape d) 0%nat)) in
  let summary := DsSummary ds_name (describe series) (np_sum zero add series) in
  summarize_dset describe zero add f ds_name None (Some w) out_path sched
  = Ok (summary, csv_log out_path summary).
Proof.
  intros Hd H1 Hw series summary.
  unfold summarize_dset, get_dset_properties.
  rewrite Hd. cbn.
  destruct (decide (1 < length (shape d))%nat) as [?|_]; [lia|].
  destruct (Z.ltb_spec 1 w) as [?|_]; [lia|]. cbn.
  unfold _compute_ds_summary, getitem_all. rewrite Hd. cbn.
  by destruct out_path.
Qed.

End SummarizeClaims.

(** *** The properties at work on the small resource *)

Lemma ex_lookup_profile : dsets ex_resource !! "cf_profile" = Some ex_profile.
Proof. reflexivity. Defined.

Lemma ex_lookup_mean : dsets ex_resource !! "cf_mean" = Some ex_mean.
Proof. reflexivity. Defined.

Lemma ex_sched_201 : completes_all [2; 0; 1]%nat (n_sections 5 2).
Proof.
  change (n_sections 5 2) with 3%nat. intros k Hk.
  destruct k as [|[|[|k]]]; [repeat constructor..|lia].
Defined.

Lemma ex_sched_012 : completes_all [0; 1; 2]%nat (n_sections 5 2).
Proof.
  change (n_sections 5 2) with 3%nat. intros k Hk.
  destruct k as [|[|[|k]]]; [repeat constructor..|lia].
Defined.

(** Three chunks finishing in the order 2, 0, 1: the rows still come out in
    site order, as they do when the chunks finish in the order 0, 1, 2. *)
Lemma summarize_dset_parallel_site_order_witness :
  dsets ex_resource !! "cf_profile" = Some ex_profile
  ∧ (1 < length (shape ex_profile))%nat
  ∧ (0 < nth 1 (shape ex_profile) 0)%nat
  ∧ 0 < default (chunks ex_profile) (Some 2)
  ∧ 1 < 4
  ∧ completes_all [2; 0; 1]%nat (n_sections 5 2)
  ∧ completes_all [0; 1; 2]%nat (n_sections 5 2)
  ∧ ex_summarize_dset "cf_profile" (Some 2) (Some 4) None [2; 0; 1]%nat
    = Ok (SitesSummary "gid"
            [{| gid := 100; stats := (0, 20); sum := 30 |};
             {| gid := 101; stats := (1, 21); sum := 33 |};
             {| gid := 102; stats := (2, 22); sum := 36 |};
             {| gid := 103; stats := (3, 23); sum := 39 |};
             {| gid := 104; stats := (4, 24); sum := 42 |}], [])
  ∧ ex_summarize_dset "cf_profile" (Some 2) (Some 4) None [0; 1; 2]%nat
    = ex_summarize_dset "cf_profile" (Some 2) (Some 4) None [2; 0; 1]%nat.
Proof.
  split; [exact ex_lookup_profile|]. split; [cbn; lia|]. split; [cbn; lia|].
  split; [cbn; lia|]. split; [lia|]. split; [exact ex_sched_201|].
  split; [exact ex_sched_012|].
  apply (summarize_dset_parallel_site_order ex_describe 0 Z.add ex_resource
           "cf_profile" ex_profile (Some 2) 4 None
           [2; 0; 1]%nat [0; 1; 2]%nat).
  - exact ex_lookup_profile.
  - cbn; lia.
  - cbn; lia.
  - cbn; lia.
  - lia.
  - exact ex_sched_201.
  - exact ex_sched_012.
Defined.

Lemma chunked_summary_eq_single_pass_witness :
  dsets ex_resource !! "cf_profile" = Some ex_profile
  ∧ (1 < length (shape ex_profile))%nat
  ∧ (0 < nth 1 (shape ex_profile) 0)%nat
  ∧ 0 < 2
  ∧ 1 ≤ 1
  ∧ ex_summarize_dset "cf_profile" (Some 2) (Some 1) None []
    = ex_summarize_dset "cf_profile" None (Some 1) None [].
Proof.
  split; [exact ex_lookup_profile|]. split; [cbn; lia|]. split; [cbn; lia|].
  split; [lia|]. split; [lia|].
  apply (chunked_summary_eq_single_pass ex_describe 0 Z.add ex_resource
           "cf_profile" ex_profile 2 1 None []).
  - exact ex_lookup_profile.
  - cbn; lia.
  - cbn; lia.
  - lia.
  - lia.
Defined.

Lemma summarize_dset_max_workers_None_witness :
  dsets ex_resource !! "cf_profile" = Some ex_profile
  ∧ (1 < length (shape ex_profile))%nat
  ∧ ex_summarize_dset "cf_profile" None None None []
    = Raise (TypeError
               "'>' not supported between instances of 'NoneType' and 'int'").
Proof.
  split; [exact ex_lookup_profile|]. split; [cbn; lia|].
  apply (summarize_dset_max_workers_None ex_describe 0 Z.add ex_resource
           "cf_profile" ex_profile None None []).
  - exact ex_lookup_profile.
  - cbn; lia.
Defined.

(** The 1-D dataset of the small resource: a call that asks for chunks of 2
    and 4 workers returns the summary and warns; the call with the default
    arguments raises. *)
Lemma summarize_dset_1d_outcomes_witness :
  dsets ex_resource !! "cf_mean" = Some ex_mean
  ∧ (length (shape ex_mean) ≤ 1)%nat
  ∧ ex_summarize_dset "cf_mean" (Some 2) (Some 4) None []
    = Ok (DsSummary "cf_mean" (0, 28) 70,
          [LoggerWarning serial_msg; Warn serial_msg])
  ∧ ex_summarize_dset "cf_mean" None None None []
    = Raise (TypeError
               "'>' not supported between instances of 'NoneType' and 'int'").
Proof.
  split; [exact ex_lookup_mean|]. split; [cbn; lia|]. split.
  - destruct (summarize_dset_1d_outcomes ex_describe 0 Z.add ex_resource
                "cf_mean" ex_mean (Some 2) (Some 4) None []
                ex_lookup_mean ltac:(cbn; lia)) as (_ & Hok & _).
    apply Hok. by left.
  - destruct (summarize_dset_1d_outcomes ex_describe 0 Z.add ex_resource
                "cf_mean" ex_mean None None None []
                ex_lookup_mean ltac:(cbn; lia)) as (_ & _ & Hraise).
    by apply Hraise.
Defined.

(** ** Properties of chunk planning *)

(** C3. For [N > 0] units and a valid hint.
    In [summarize_dset] (positive [process_size]): the chunks [array_split]
    returns are consecutive runs of [0 .. N-1] whose concatenation is
    [0 .. N-1] itself, so they are contiguous, disjoint, in order and cover
    [[0, N)] exactly; none is empty or larger than [process_size]; and their
    number is [ceil(N / process_size)].

    In [peregrine] (positive [nodes]): [sites_per_node] is [ceil(N / nodes)],
    and the planner's chunks for that size are contiguous, in order and cover
    [[0, N)] exactly, are numbered from 0, are [ceil(N / sites_per_node)] in
    number and at most [nodes], and all have [sites_per_node] units except
    the last, which may have fewer. *)
Theorem planned_chunks_cover (N : nat) (process_size nodes : Z) :
  (0 < N)%nat → 0 < process_size → 0 < nodes →
  (∃ chunks : list (list nat),
      (n ← ceil_div (Z.of_nat (length (arange N))) process_size;
       array_split (arange N) n) = Ok chunks
      ∧ concat chunks = seq 0 N
      ∧ Forall (λ c, (0 < length c)%nat ∧ Z.of_nat (length c) ≤ process_size)
               chunks
      ∧ (Z.of_nat (length chunks) - 1) * process_size < Z.of_nat N
          ≤ Z.of_nat (length chunks) * process_size)
  ∧ (∃ (size : Z) (chunks : list Chunk),
      sites_per_node N nodes = Ok size
      ∧ (size - 1) * nodes < Z.of_nat N ≤ size * nodes
      ∧ plan (Z.of_nat N) size = Ok chunks
      ∧ concat (map chunk_units chunks) = seq 0 N
      ∧ map chunk_index chunks = seq 0 (length chunks)
      ∧ (Z.of_nat (length chunks) - 1) * size < Z.of_nat N
          ≤ Z.of_nat (length chunks) * size
      ∧ Z.of_nat (length chunks) ≤ nodes
      ∧ (∀ i c, chunks !! i = Some c →
           (chunk_start c < chunk_stop c)%nat
           ∧ Z.of_nat (chunk_stop c - chunk_start c) ≤ size
           ∧ ((S i < length chunks)%nat →
              Z.of_nat (chunk_stop c - chunk_start c) = size))).
Proof.
  intros HN Hps Hnodes. split.
  - exact (array_split_plan N process_size HN Hps).
  - destruct (ceil_div_bounds (Z.of_nat N) nodes Hnodes) as (size & Hsize & Hlo & Hhi).
    assert (0 < size) by nia.
    destruct (plan_chunks N size HN ltac:(done))
      as (chunks & Hplan & Hcat & Hidx & [Hclo Hchi] & Hsizes).
    exists size, chunks.
    split; [exact Hsize|]. split; [lia|]. split; [exact Hplan|].
    split; [exact Hcat|]. split; [exact Hidx|]. split; [lia|].
    split; [nia|]. exact Hsizes.
Qed.

(** 250 units: with a process size of 100 [summarize_dset] plans 3 chunks;
    with 3 nodes [peregrine] plans 84 sites per node. *)
Lemma planned_chunks_cover_witness :
  (0 < 250)%nat ∧ 0 < 100 ∧ 0 < 3
  ∧ (∃ chunks : list (list nat),
       (n ← ceil_div (Z.of_nat (length (arange 250))) 100;
        array_split (arange 250) n) = Ok chunks
       ∧ concat chunks = seq 0 250)
  ∧ (∃ (size : Z) (chunks : list Chunk),
       sites_per_node 250 3 = Ok size
       ∧ plan 250 size = Ok chunks
       ∧ concat (map chunk_units chunks) = seq 0 250).
Proof.
  split; [lia|]. split; [lia|]. split; [lia|].
  destruct (planned_chunks_cover 250 100 3 ltac:(lia) ltac:(lia) ltac:(lia))
    as [(chunks & Hsplit & Hcat & _) (size & cs & Hsize & _ & Hplan & Hunits & _)].
  split.
  - exists chunks. by split.
  - exists size, cs. by repeat split.
Defined.

Section PlanningFailures.
Context {V Stats : Type}.
Variable describe : list V → Stats.
Variable zero : V.
Variable add : V → V → V.
Variable PBS_s : pyval → string.
Variable qsub : string → string → string → string → string → option string.
Variable project_points_sites : pyval → pyval → pyval → pyval → list Z.
Variable points_control : list Z → Z → list Split.

(** C4, as the code has it.  The sources plan chunks in two places, in
    [summarize_dset] and in [peregrine] ([sites_per_node]); neither validates
    its hint and neither raises [InvalidPartitionError], whatever it is
    given.  (How [PointsControl] splits the sites is not among the sources
    and is not covered here.)

    In [summarize_dset], on a 2-D dataset and with an integer [max_workers],
    the chunks are planned with [process_size] when it is given and, when it
    is not, with the storage chunk size [ds_chunks] if [max_workers > 1].  A
    planning size of 0 raises [ZeroDivisionError], and a negative one, or
    any non-zero one for a dataset without sites, raises the [ValueError] of
    [np.array_split]: the expression that plans the chunks fails itself, so
    no chunks are produced, and the call returns nothing.

    A process size that is not supplied is no error in itself: with
    [max_workers <= 1] nothing is planned and the call returns the table of
    the single pass; with [max_workers > 1] the call is the call with
    [process_size = ds_chunks], and fails as said above when [ds_chunks] is
    not positive.

    In [peregrine], 0 nodes raise [ZeroDivisionError] and no job is
    submitted. *)
Theorem chunk_planning_failures (f : Resource) (ds_name : string)
    (d : Dataset) (process_size : option Z) (w : Z)
    (out_path : option string) (sched : list nat)
    (ctx : GenContext) (alloc queue stdout_path : string) (verbose : bool) :
  dsets f !! ds_name = Some d →
  (1 < length (shape d))%nat →
  let sites := arange (nth 1 (shape d) 0%nat) in
  (∀ ps, planning_size d process_size w = Some ps →
     (ps = 0 →
      (n ← ceil_div (Z.of_nat (length sites)) ps; array_split sites n)
      = Raise (ZeroDivisionError "division by zero")
      ∧ summarize_dset describe zero add f ds_name process_size (Some w)
                       out_path sched
        = Raise (ZeroDivisionError "division by zero"))
     ∧ (ps < 0 ∨ (ps ≠ 0 ∧ nth 1 (shape d) 0%nat = 0%nat) →
        (n ← ceil_div (Z.of_nat (length sites)) ps; array_split sites n)
        = Raise (ValueError "number sections must be larger than 0.")
        ∧ summarize_dset describe zero add f ds_name process_size (Some w)
                         out_path sched
          = Raise (ValueError "number sections must be larger than 0.")))
  ∧ (w ≤ 1 →
     planning_size d None w = None
     ∧ summarize_dset describe zero add f ds_name None (Some w) out_path sched
       = Ok (sites_table describe zero add f d,
             csv_log out_path (sites_table describe zero add f d)))
  ∧ (1 < w →
     planning_size d None w = Some (chunks d)
     ∧ summarize_dset describe zero add f ds_name None (Some w) out_path sched
       = summarize_dset describe zero add f ds_name (Some (chunks d)) (Some w)
                        out_path sched)
  ∧ (∀ max_workers msg,
       summarize_dset describe zero add f ds_name process_size max_workers
                      out_path sched
       ≠ Raise (InvalidPartitionError msg))
  ∧ (is_points_type (ctx_points ctx) = true →
     peregrine PBS_s qsub project_points_sites points_control
               ctx 0 alloc queue stdout_path verbose
     = Raise (ZeroDivisionError "division by zero"))
  ∧ (∀ nodes msg,
       peregrine PBS_s qsub project_points_sites points_control
                 ctx nodes alloc queue stdout_path verbose
       ≠ Raise (InvalidPartitionError msg)).
Proof.
  intros Hd H2 sites.
  assert (Hplan : ∀ ps,
    (ps = 0 →
     (n ← ceil_div (Z.of_nat (length sites)) ps; array_split sites n)
     = Raise (ZeroDivisionError "division by zero"))
    ∧ (ps < 0 ∨ (ps ≠ 0 ∧ nth 1 (shape d) 0%nat = 0%nat) →
     (n ← ceil_div (Z.of_nat (length sites)) ps; array_split sites n)
     = Raise (ValueError "number sections must be larger than 0."))).
  { intros ps. unfold sites, arange. rewrite length_seq. split.
    - intros ->. reflexivity.
    - intros Hbad. unfold ceil_div.
      destruct (Z.eqb_spec ps 0) as [?|Hne]; [lia|]. cbn.
      unfold array_split.
      destruct (Z.leb_spec (- (- Z.of_nat (nth 1 (shape d) 0%nat) / ps)) 0)
        as [_|Hpos]; [done|].
      exfalso. destruct Hbad as [Hneg|[_ HN]].
      + pose proof (Z.div_mod (- Z.of_nat (nth 1 (shape d) 0%nat)) ps Hne).
        pose proof (Z.mod_neg_bound (- Z.of_nat (nth 1 (shape d) 0%nat)) ps Hneg).
        nia.
      + rewrite HN in Hpos. cbn in Hpos. rewrite Z.div_0_l in Hpos by done. lia. }
  assert (Hcall : ∀ ps e,
    planning_size d process_size w = Some ps →
    (n ← ceil_div (Z.of_nat (length sites)) ps; array_split sites n) = Raise e →
    summarize_dset describe zero add f ds_name process_size (Some w)
                   out_path sched
    = Raise e).
  { intros ps e Hsize Hfail.
    unfold summarize_dset, get_dset_properties. rewrite Hd. cbn.
    destruct (decide (1 < length (shape d))%nat) as [_|?]; [|lia].
    unfold planning_size in Hsize. fold sites.
    destruct (1 <? w); cbn.
    - injection Hsize as Hsize. rewrite Hsize.
      destruct (ceil_div (Z.of_nat (length sites)) ps) as [n| |]; cbn in *;
        [|congruence..].
      destruct (array_split sites n); cbn in *; congruence.
    - rewrite Hsize.
      destruct (ceil_div (Z.of_nat (length sites)) ps) as [n| |]; cbn in *;
        [|congruence..].
      destruct (array_split sites n); cbn in *; congruence. }
  split; [|split; [|split; [|split; [|split]]]].
  - intros ps Hsize. destruct (Hplan ps) as [Hzero Hneg]. split.
    + intros Hps. split; [by apply Hzero|].
      apply (Hcall ps); [done|by apply Hzero].
    + intros Hbad. split; [by apply Hneg|].
      apply (Hcall ps); [done|by apply Hneg].
  - intros Hw. split.
    + unfold planning_size. by destruct (Z.ltb_spec 1 w) as [?|_]; [lia|].
    + by apply summarize_dset_single_pass.
  - intros Hw. split.
    + unfold planning_size. by destruct (Z.ltb_spec 1 w) as [_|?]; [|lia].
    + unfold summarize_dset, get_dset_properties. rewrite Hd. cbn.
      destruct (decide (1 < length (shape d))%nat) as [_|?]; [|lia].
      by destruct (Z.ltb_spec 1 w) as [_|?]; [|lia].
  - intros max_workers msg Heq.
    pose proof (summarize_dset_2d_sound describe zero add f ds_name d
                  process_size max_workers out_path sched Hd H2) as Hsound.
    rewrite Heq in Hsound. exact Hsound.
  - intros Hpoints. unfold peregrine. rewrite Hpoints. reflexivity.
  - intros nodes msg. unfold peregrine, sites_per_node, ceil_div.
    destruct (is_points_type (ctx_points ctx)); [|done].
    by destruct (nodes =? 0).
Qed.

End PlanningFailures.

(** *** Planning on the small resource and a small run *)

(** On the 2-D dataset of the small resource: a process size of 0 and 0
    nodes fail with [ZeroDivisionError]; without a process size the serial
    call returns the table, and the call with 4 workers is the call with the
    storage chunk size. *)
Lemma chunk_planning_failures_witness :
  dsets ex_resource !! "cf_profile" = Some ex_profile
  ∧ (1 < length (shape ex_profile))%nat
  ∧ planning_size ex_profile (Some 0) 1 = Some 0
  ∧ is_points_type (ctx_points ex_ctx) = true
  ∧ ex_summarize_dset "cf_profile" (Some 0) (Some 1) None []
    = Raise (ZeroDivisionError "division by zero")
  ∧ ex_summarize_dset "cf_profile" None (Some 1) None []
    = Ok (sites_table ex_describe 0 Z.add ex_resource ex_profile, [])
  ∧ ex_summarize_dset "cf_profile" None (Some 4) None []
    = ex_summarize_dset "cf_profile" (Some (chunks ex_profile)) (Some 4) None []
  ∧ ex_peregrine 0 = Raise (ZeroDivisionError "division by zero").
Proof.
  split; [exact ex_lookup_profile|]. split; [cbn; lia|].
  split; [reflexivity|]. split; [reflexivity|].
  destruct (chunk_planning_failures ex_describe 0 Z.add ex_PBS_s ex_qsub
              ex_project_points_sites ex_points_control
              ex_resource "cf_profile" ex_profile (Some 0) 1 None []
              ex_ctx "rev" "short" "./out/stdout" false
              ex_lookup_profile ltac:(cbn; lia))
    as (Hfail & Hserial & _ & _ & Hnodes & _).
  destruct (Hfail 0 eq_refl) as [Hzero _].
  destruct (Hserial ltac:(lia)) as [_ Hpass].
  destruct (chunk_planning_failures ex_describe 0 Z.add ex_PBS_s ex_qsub
              ex_project_points_sites ex_points_control
              ex_resource "cf_profile" ex_profile None 4 None []
              ex_ctx "rev" "short" "./out/stdout" false
              ex_lookup_profile ltac:(cbn; lia))
    as (_ & _ & Hparallel & _).
  destruct (Hparallel ltac:(lia)) as [_ Hsame].
  split; [exact (proj2 (Hzero eq_refl))|]. split; [exact Hpass|].
  split; [exact Hsame|exact (Hnodes eq_refl)].
Defined.

(** C4 does not hold as stated.  A supplied chunk size of 0 fails with
    [ZeroDivisionError] and a negative one with the [ValueError] of
    [np.array_split], not with [InvalidPartitionError]; and with neither a
    chunk size nor a node count supplied ([process_size = None], serial) the
    call plans nothing, fails with nothing and returns the table. *)
Lemma chunk_planning_counterexample :
  ex_summarize_dset "cf_profile" (Some 0) (Some 1) None []
  = Raise (ZeroDivisionError "division by zero")
  ∧ ex_summarize_dset "cf_profile" (Some (-3)) (Some 1) None []
    = Raise (ValueError "number sections must be larger than 0.")
  ∧ is_Ok (ex_summarize_dset "cf_profile" None (Some 1) None []) = true
  ∧ ¬ (∀ process_size,
         (process_size = None ∨ ∃ size, process_size = Some size ∧ size ≤ 0) →
         ∃ msg, ex_summarize_dset "cf_profile" process_size (Some 1) None []
                = Raise (InvalidPartitionError msg)).
Proof.
  split; [reflexivity|]. split; [reflexivity|]. split; [reflexivity|].
  intros Hclaim. destruct (Hclaim (Some 0)) as [msg Hmsg].
  - right. exists 0. split; [reflexivity|lia].
  - vm_compute in Hmsg. discriminate Hmsg.
Qed.

(** ** Properties of the merge *)

Section MergeClaims.
Context {V Stats : Type}.
Variable describe : list V → Stats.
Variable zero : V.
Variable add : V → V → V.

(** C7, as the code has it.  The merge is [pd.concat] alone: it checks no
    row count and [summarize_dset] never raises [MergeIntegrityError].  The
    tables it merges cannot be short or long: [_compute_sites_summary]
    returns exactly one row per site of its slice, [pd.concat] keeps every
    row it is given, and every table [summarize_dset] returns for a 2-D
    dataset has exactly [N] rows, the rows of the sites [0 .. N-1]. *)
Theorem merged_table_row_count (f : Resource) (ds_name : string)
    (d : Dataset) (process_size max_workers : option Z)
    (out_path : option string) (sched : list nat) :
  dsets f !! ds_name = Some d →
  (1 < length (shape d))%nat →
  (∀ sites, ∃ rows,
     _compute_sites_summary describe zero add f ds_name (Some sites) = Ok rows
     ∧ length rows = length sites)
  ∧ (∀ (partials : list (list (@Row V Stats))) merged,
       pd_concat partials = Ok merged →
       merged = concat partials
       ∧ length merged = list_sum (map length partials))
  ∧ (∀ df log,
       summarize_dset describe zero add f ds_name process_size max_workers
                      out_path sched = Ok (df, log) →
       ∃ rows, df = SitesSummary "gid" rows
               ∧ rows = map (site_row describe zero add f d)
                            (seq 0 (nth 1 (shape d) 0%nat))
               ∧ length rows = nth 1 (shape d) 0%nat)
  ∧ (∀ msg,
       summarize_dset describe zero add f ds_name process_size max_workers
                      out_path sched ≠ Raise (MergeIntegrityError msg)).
Proof.
  intros Hd H2.
  pose proof (summarize_dset_2d_sound describe zero add f ds_name d
                process_size max_workers out_path sched Hd H2) as Hsound.
  split; [|split; [|split]].
  - intros sites. eexists. split.
    + by apply compute_sites_summary_rows.
    + by rewrite length_map.
  - intros partials merged Hm. unfold pd_concat in Hm.
    destruct partials as [|p partials]; [done|]. injection Hm as <-.
    split; [done|]. apply (length_concat (p :: partials)).
  - intros df log Heq. rewrite Heq in Hsound. destruct Hsound as [-> _].
    unfold sites_table, arange.
    eexists. split; [reflexivity|]. split; [reflexivity|].
    by rewrite length_map, length_seq.
  - intros msg Heq. rewrite Heq in Hsound. exact Hsound.
Qed.

End MergeClaims.

Lemma merged_table_row_count_witness :
  dsets ex_resource !! "cf_profile" = Some ex_profile
  ∧ (1 < length (shape ex_profile))%nat
  ∧ (∀ df log,
       ex_summarize_dset "cf_profile" (Some 2) (Some 4) None [1; 2; 0]%nat
       = Ok (df, log) →
       ∃ rows, df = SitesSummary "gid" rows ∧ length rows = 5%nat).
Proof.
  split; [exact ex_lookup_profile|]. split; [cbn; lia|].
  intros df log Heq.
  destruct (merged_table_row_count ex_describe 0 Z.add ex_resource
              "cf_profile" ex_profile (Some 2) (Some 4) None [1; 2; 0]%nat
              ex_lookup_profile ltac:(cbn; lia))
    as (_ & _ & Hrows & _).
  destruct (Hrows df log Heq) as (rows & Hdf & _ & Hlen).
  exists rows. split; [exact Hdf|exact Hlen].
Defined.

(** C7 does not hold as stated: two chunks of two sites each, and partial
    tables that are one row short.  [pd.concat], the whole of the merge,
    returns the three rows: the short table, and no [MergeIntegrityError]. *)
Lemma merge_short_counterexample :
  list_sum (map length [[0; 1]; [2; 3]]%nat) = 4%nat
  ∧ pd_concat [[{| gid := 100; stats := (0, 20); sum := 30 |};
                {| gid := 101; stats := (1, 21); sum := 33 |}];
               [{| gid := 102; stats := (2, 22); sum := 36 |}]]
    = Ok [{| gid := 100; stats := (0, 20); sum := 30 |};
          {| gid := 101; stats := (1, 21); sum := 33 |};
          {| gid := 102; stats := (2, 22); sum := 36 |}]
  ∧ ¬ (∃ msg,
         pd_concat [[{| gid := 100; stats := (0, 20); sum := 30 |};
                     {| gid := 101; stats := (1, 21); sum := 33 |}];
                    [{| gid := 102; stats := (2, 22); sum := 36 |}]]
         = Raise (MergeIntegrityError msg)).
Proof.
  split; [reflexivity|]. split; [reflexivity|].
  intros [msg Hmsg]. discriminate Hmsg.
Qed.

(** ** Properties of the dispatch loop of [peregrine] *)

Section DispatchClaims.
Variable PBS_s : pyval → string.
Variable qsub : string → string → string → string → string → option string.

Lemma dispatch_from_jobs (ctx : GenContext) (alloc queue stdout_path : string)
    (verbose : bool) (pc : list Split) (i0 : nat) (st : DispatchState) :
  let st' :=
    dispatch_from PBS_s qsub ctx alloc queue stdout_path verbose i0 pc st in
  (∀ i, (i < i0)%nat → jobs st' !! i = jobs st !! i)
  ∧ (∀ i, (i0 + length pc ≤ i)%nat → jobs st' !! i = jobs st !! i)
  ∧ (∀ k, (k < length pc)%nat →
       ∃ pbs, jobs st' !! (i0 + k)%nat = Some pbs
              ∧ node_job qsub ctx alloc queue stdout_path (i0 + k) pbs)
  ∧ length (echoed st') = (length (echoed st) + length pc)%nat.
Proof.
  revert i0 st. induction pc as [|split pc IH]; intros i0 st; cbn zeta.
  { cbn. split; [done|]. split; [done|]. split; [intros; lia|lia]. }
  cbn [dispatch_from length].
  set (st1 := dispatch_node PBS_s qsub ctx alloc queue stdout_path verbose
                st i0 split).
  destruct (IH (S i0) st1) as (Hlow & Hhigh & Hjobs & Hecho).
  assert (Hst1 : ∀ i, i ≠ i0 → jobs st1 !! i = jobs st !! i).
  { intros i Hi. unfold st1, dispatch_node, node_fout. cbn.
    by rewrite lookup_insert_ne. }
  split; [|split; [|split]].
  - intros i Hi. rewrite Hlow by lia. apply Hst1. lia.
  - intros i Hi. rewrite Hhigh by lia. apply Hst1. lia.
  - intros [|k] Hk.
    + rewrite Nat.add_0_r, Hlow by lia.
      unfold st1, dispatch_node, node_fout. cbn. rewrite lookup_insert_eq.
      eexists. split; [done|]. by repeat split.
    + destruct (Hjobs k ltac:(lia)) as (pbs & Hpbs & Hjob).
      replace (i0 + S k)%nat with (S i0 + k)%nat by lia. eauto.
  - rewrite Hecho. unfold st1, dispatch_node, node_fout. cbn.
    rewrite length_app. cbn. lia.
Qed.

(** C8. After the dispatch loop over the [n] splits of [pc], the returned
    [jobs] has exactly the keys [0 .. n-1], whatever the submissions
    returned: the entry of node [i] is the job created for it, whose id is
    what the submission of its command returned, so a failed submission is
    recorded as an entry with the id [None]; it neither ends the loop nor is
    left out.  One line is echoed per node. *)
Theorem dispatch_loop_registry (ctx : GenContext)
    (alloc queue stdout_path : string) (verbose : bool) (pc : list Split) :
  let st := dispatch_loop PBS_s qsub ctx alloc queue stdout_path verbose pc in
  dom (jobs st) = set_seq 0 (length pc)
  ∧ size (jobs st) = length pc
  ∧ (∀ i, (i < length pc)%nat →
       ∃ pbs, jobs st !! i = Some pbs
              ∧ node_job qsub ctx alloc queue stdout_path i pbs)
  ∧ length (echoed st) = length pc.
Proof.
  cbn zeta. unfold dispatch_loop.
  destruct (dispatch_from_jobs ctx alloc queue stdout_path verbose pc 0
              {| st_fout := ctx_fout ctx; jobs := ∅; echoed := [] |})
    as (_ & Hhigh & Hjobs & Hecho).
  cbn in Hhigh, Hjobs, Hecho.
  set (st := dispatch_from PBS_s qsub ctx alloc queue stdout_path verbose 0 pc _) in *.
  assert (Hdom : dom (jobs st) = set_seq 0 (length pc)).
  { apply set_eq. intros i. rewrite elem_of_dom, elem_of_set_seq. split.
    - intros Hi. destruct (decide (i < length pc)%nat) as [?|Hge]; [lia|].
      rewrite Hhigh in Hi by lia. rewrite lookup_empty in Hi.
      by destruct Hi.
    - intros [_ Hi]. destruct (Hjobs i ltac:(lia)) as (pbs & -> & _). eauto. }
  split; [done|]. split; [|split; [done|done]].
  rewrite <- size_dom, Hdom. apply size_set_seq.
Qed.

End DispatchClaims.

(** Five nodes, the queue refusing the job of node 2: all five are in the
    registry, node 2 with the id [None], and nodes 3 and 4 were submitted. *)
Lemma dispatch_loop_registry_witness :
  length ex_pc = 5%nat
  ∧ dom (jobs ex_dispatch) = set_seq 0 5
  ∧ (∃ pbs, jobs ex_dispatch !! 2%nat = Some pbs ∧ pbs_id pbs = None)
  ∧ (∃ pbs, jobs ex_dispatch !! 4%nat = Some pbs
            ∧ pbs_id pbs = Some "job.reV_gen_4").
Proof.
  destruct (dispatch_loop_registry ex_PBS_s ex_qsub ex_ctx "rev" "short"
              "./out/stdout" false ex_pc) as (Hdom & _ & Hjobs & _).
  assert (Hlen : length ex_pc = 5%nat) by reflexivity.
  split; [exact Hlen|]. split; [exact Hdom|]. split.
  - destruct (Hjobs 2%nat ltac:(rewrite Hlen; lia))
      as (pbs & Hpbs & Hname & _ & _ & _ & Hid).
    exists pbs. split; [exact Hpbs|]. rewrite Hid, Hname. reflexivity.
  - destruct (Hjobs 4%nat ltac:(rewrite Hlen; lia))
      as (pbs & Hpbs & Hname & _ & _ & _ & Hid).
    exists pbs. split; [exact Hpbs|]. rewrite Hid, Hname. reflexivity.
Defined.

(** ** The output file name of a node *)

Lemma string_app_cons (a : ascii) (s t : string) :
  String a s +:+ t = String a (s +:+ t).
Proof. reflexivity. Qed.

Lemma string_length_app (s t : string) :
  String.length (s +:+ t) = (String.length s + String.length t)%nat.
Proof.
  induction s as [|a s IH]; [done|].
  rewrite string_app_cons. cbn. by rewrite IH.
Qed.

Lemma string_app_inj_r (t s1 s2 : string) : s1 +:+ t = s2 +:+ t → s1 = s2.
Proof.
  revert s2. induction s1 as [|a s1 IH]; intros [|b s2] Heq; [done| | |].
  - apply (f_equal String.length) in Heq.
    change ("" +:+ t) with t in Heq.
    rewrite string_app_cons in Heq. cbn in Heq.
    rewrite string_length_app in Heq. lia.
  - apply (f_equal String.length) in Heq.
    change ("" +:+ t) with t in Heq.
    rewrite string_app_cons in Heq. cbn in Heq.
    rewrite string_length_app in Heq. lia.
  - rewrite !string_app_cons in Heq. injection Heq as -> Heq.
    f_equal. by apply IH.
Qed.

(** Whatever [fout] is, two nodes never get the same output file name. *)
Lemma node_fout_distinct (fout : string) (i j : nat) :
  i ≠ j → snd (node_fout fout i) ≠ snd (node_fout fout j).
Proof.
  intros Hij Heq. apply Hij. unfold node_fout in Heq. cbn in Heq.
  apply String.app_inj, String.app_inj, string_app_inj_r in Heq.
  by apply pretty_nat_inj in Heq.
Qed.

(** In the dispatch loop [fout] is stripped at most once: what [strip]
    returns does not end in a stripped character, so from the second node on
    the test [fout.endswith('.h5')] is false and [fout] stays as it is. *)
Lemma lstrip_chars_head (chars l : list ascii) (c : ascii) (l' : list ascii) :
  lstrip_chars chars l = c :: l' → c ∉ chars.
Proof.
  induction l as [|a l IH]; cbn; [done|].
  case_bool_decide; [done|]. by intros [= -> _].
Qed.

Lemma string_of_list_ascii_app (l1 l2 : list ascii) :
  String.string_of_list_ascii (l1 ++ l2)
  = String.string_of_list_ascii l1 +:+ String.string_of_list_ascii l2.
Proof. induction l1 as [|a l1 IH]; cbn; [done|]. by rewrite IH. Qed.

Lemma string_app_assoc (s1 s2 s3 : string) :
  (s1 +:+ s2) +:+ s3 = s1 +:+ (s2 +:+ s3).
Proof.
  induction s1 as [|a s1 IH]; [done|]. by rewrite !string_app_cons, IH.
Qed.

Lemma string_rev_app_of_list (l : list ascii) (acc : string) :
  String.rev_app (String.string_of_list_ascii l) acc
  = String.string_of_list_ascii (rev l) +:+ acc.
Proof.
  revert acc. induction l as [|a l IH]; intros acc; cbn; [done|].
  by rewrite IH, string_of_list_ascii_app, string_app_assoc.
Qed.

Lemma string_prefix_cons (a c : ascii) (s t : string) :
  String.prefix (String a s) (String c t)
  = if ascii_dec a c then String.prefix s t else false.
Proof. reflexivity. Qed.

Lemma endswith_strip_h5 (s : string) :
  endswith (py_strip s ".h5") ".h5" = false.
Proof.
  unfold endswith, py_strip, String.rev.
  rewrite string_rev_app_of_list, rev_involutive.
  destruct (lstrip_chars _ (rev _)) as [|c l] eqn:Hstrip; [done|].
  apply lstrip_chars_head in Hstrip.
  cbn [String.string_of_list_ascii]. change (String.rev_app ".h5" "") with "5h.".
  rewrite string_app_cons, string_prefix_cons.
  destruct (ascii_dec _ c) as [<-|_]; [|done].
  exfalso. apply Hstrip. vm_compute. repeat constructor.
Qed.

Lemma node_fout_stable (fout : string) (i j : nat) :
  fst (node_fout (fst (node_fout fout i)) j) = fst (node_fout fout i).
Proof.
  unfold node_fout. cbn [fst].
  destruct (endswith fout ".h5") eqn:Hends.
  - by rewrite endswith_strip_h5.
  - by rewrite Hends.
Qed.

(** C9.  The base name is not the output name without its ['.h5']
    extension: [fout.strip('.h5')] removes every leading and trailing
    character among ['.'], ['h'] and ['5'].  For the base name
    ["gen_2015.h5"] node 0 writes ["gen_201_node_0.h5"], not
    ["gen_2015_node_0.h5"]; for ["h5_out.h5"] the leading ["h5"] goes too. *)
Theorem node_fout_strips_characters :
  node_fout "gen_2015.h5" 0 = ("gen_201", "gen_201_node_0.h5")
  ∧ snd (node_fout "gen_2015.h5" 0) ≠ "gen_2015_node_0.h5"
  ∧ node_fout "h5_out.h5" 3 = ("_out", "_out_node_3.h5")
  ∧ node_fout "gen_output.h5" 0 = ("gen_output", "gen_output_node_0.h5").
Proof. by vm_compute. Qed.

(** ** Properties of [AggregationConfig] *)

(** C10.  For every config, [_preflight] raises the [ConfigError] of the
    missing keys, and so does the construction of [AggregationConfig]: after
    the loop [req] is the last requirement name, ['dset_tm'], and [any(req)]
    is true.  With all four required keys present and not [None] the error
    is raised all the same, with an empty list of missing keys. *)
Theorem preflight_always_raises (path_exists : string → bool)
    (config : gmap string pyval) :
  missing_loop config REQUIREMENTS = (missing_keys config, Some "dset_tm")
  ∧ any_str "dset_tm" = true
  ∧ _preflight path_exists config
    = Raise (ConfigError ("SC Aggregation config missing the following keys: "
                          +:+ repr_str_list (missing_keys config)))
  ∧ AggregationConfig_init path_exists config
    = Raise (ConfigError ("SC Aggregation config missing the following keys: "
                          +:+ repr_str_list (missing_keys config)))
  ∧ (∀ fpath_excl fpath_gen fpath_techmap dset_tm : string,
       AggregationConfig_init path_exists
         (<["fpath_excl" := PyStr fpath_excl]>
            (<["fpath_gen" := PyStr fpath_gen]>
               (<["fpath_techmap" := PyStr fpath_techmap]>
                  (<["dset_tm" := PyStr dset_tm]> config))))
       = Raise (ConfigError
                  "SC Aggregation config missing the following keys: []")).
Proof.
  assert (Hloop : ∀ c : gmap string pyval,
            missing_loop c REQUIREMENTS = (missing_keys c, Some "dset_tm")).
  { intros c. unfold missing_loop, missing_keys, REQUIREMENTS. cbn.
    destruct (is_None (config_get c "fpath_excl" PyNone));
    destruct (is_None (config_get c "fpath_gen" PyNone));
    destruct (is_None (config_get c "fpath_techmap" PyNone));
    destruct (is_None (config_get c "dset_tm" PyNone)); reflexivity. }
  assert (Hpre : ∀ c : gmap string pyval,
            _preflight path_exists c
            = Raise (ConfigError
                       ("SC Aggregation config missing the following keys: "
                        +:+ repr_str_list (missing_keys c)))).
  { intros c. unfold _preflight. by rewrite Hloop. }
  split; [apply Hloop|]. split; [reflexivity|]. split; [apply Hpre|].
  split.
  - unfold AggregationConfig_init. by rewrite Hpre.
  - intros a b c e. unfold AggregationConfig_init. rewrite Hpre. cbn.
    do 3 f_equal. unfold missing_keys, REQUIREMENTS, config_get. cbn.
    repeat (rewrite lookup_insert_eq || rewrite lookup_insert_ne by done).
    reflexivity.
Qed.

(** * Further properties of the code *)

(** ** [RepProfilesConfig] *)

(** X1.  [RepProfilesConfig._preflight] accepts a config exactly when each of
    the three required keys is present with a value other than [None];
    otherwise it raises the [ConfigError] that lists the missing keys, in the
    order of [REQUIREMENTS]. *)
Theorem rep_preflight_accepts_iff (config : gmap string pyval) :
  RepProfilesConfig._preflight config
  = match RepProfilesConfig.missing_keys config with
    | [] => Ok ()
    | missing =>
        Raise (ConfigError ("Rep profiles config missing the following keys: "
                            +:+ repr_str_list missing))
    end
  ∧ (RepProfilesConfig._preflight config = Ok ()
     ↔ ∀ req, req ∈ RepProfilesConfig.REQUIREMENTS →
              ∃ v, config !! req = Some v ∧ v ≠ PyNone).
Proof.
  assert (Hset : ∀ req, is_None (config_get config req PyNone) = false →
                        ∃ v, config !! req = Some v ∧ v ≠ PyNone).
  { intros req. unfold config_get.
    destruct (config !! req) as [v|]; cbn; [|done].
    intros Hv. exists v. split; [done|]. by intros ->. }
  assert (Hget : ∀ req, (∃ v, config !! req = Some v ∧ v ≠ PyNone) →
                        is_None (config_get config req PyNone) = false).
  { intros req (v & Hv & Hne). unfold config_get. rewrite Hv. cbn.
    by destruct v. }
  assert (Hpre : RepProfilesConfig._preflight config
    = match RepProfilesConfig.missing_keys config with
      | [] => Ok ()
      | missing =>
          Raise (ConfigError
                   ("Rep profiles config missing the following keys: "
                    +:+ repr_str_list missing))
      end).
  { unfold RepProfilesConfig._preflight, RepProfilesConfig.missing_keys,
      missing_loop, RepProfilesConfig.REQUIREMENTS. cbn.
    destruct (is_None (config_get config "fpath_gen" PyNone));
    destruct (is_None (config_get config "rev_summary" PyNone));
    destruct (is_None (config_get config "reg_cols" PyNone)); reflexivity. }
  split; [exact Hpre|]. rewrite Hpre. split.
  - intros Hok req Hreq. apply Hset.
    unfold RepProfilesConfig.missing_keys, RepProfilesConfig.REQUIREMENTS in *.
    cbn in Hok.
    destruct (is_None (config_get config "fpath_gen" PyNone)) eqn:H1;
    destruct (is_None (config_get config "rev_summary" PyNone)) eqn:H2;
    destruct (is_None (config_get config "reg_cols" PyNone)) eqn:H3;
      cbn in Hok; try discriminate.
    set_unfold in Hreq. by destruct Hreq as [->|[->|[->|[]]]].
  - intros Hall.
    assert (H1 : is_None (config_get config "fpath_gen" PyNone) = false).
    { apply Hget. apply Hall.
      unfold RepProfilesConfig.REQUIREMENTS. set_solver. }
    assert (H2 : is_None (config_get config "rev_summary" PyNone) = false).
    { apply Hget. apply Hall.
      unfold RepProfilesConfig.REQUIREMENTS. set_solver. }
    assert (H3 : is_None (config_get config "reg_cols" PyNone) = false).
    { apply Hget. apply Hall.
      unfold RepProfilesConfig.REQUIREMENTS. set_solver. }
    unfold RepProfilesConfig.missing_keys, RepProfilesConfig.REQUIREMENTS.
    cbn. by rewrite H1, H2, H3.
Qed.

Lemma parse_targets_first (parse : string → outcome pyval) (fpath : pyval)
    (before after : list string) (target_module : string) (v : pyval) :
  (∀ m, m ∈ before → ∃ key, parse m = Raises (Builtin (KeyError key))) →
  parse target_module = Returns v →
  RepProfilesConfig.parse_targets parse fpath (before ++ target_module :: after)
  = Returns v.
Proof.
  intros Hbefore Hparse. induction before as [|m before IH]; cbn.
  - by rewrite Hparse.
  - destruct (Hbefore m) as [key ->]; [set_solver|].
    apply IH. intros m' Hm'. apply Hbefore. set_solver.
Qed.

(** X2.  When [fpath_gen] is ['PIPELINE'], the path comes from the first of
    the target modules ['multi-year'], ['collect'], ['generation'], in this
    order, whose lookup does not raise [KeyError]: the modules before it were
    tried and passed over, the ones after it are not looked at.  The value
    found is reported by [logger.info]. *)
Theorem fpath_gen_first_available (parse : string → outcome pyval)
    (config : gmap string pyval) (before after : list string)
    (target_module : string) (v : pyval) :
  config !! "fpath_gen" = Some (PyStr "PIPELINE") →
  RepProfilesConfig.TARGET_MODULES = before ++ target_module :: after →
  (∀ m, m ∈ before → ∃ key, parse m = Raises (Builtin (KeyError key))) →
  parse target_module = Returns v →
  RepProfilesConfig.is_PIPELINE v = false →
  RepProfilesConfig.fpath_gen parse config = Returns (v, [v]).
Proof.
  intros Hcfg Htargets Hbefore Hparse Hv.
  unfold RepProfilesConfig.fpath_gen, config_getitem. rewrite Hcfg.
  cbn -[RepProfilesConfig.TARGET_MODULES RepProfilesConfig.parse_targets].
  rewrite Htargets, (parse_targets_first _ _ _ _ _ v) by done.
  cbn. by rewrite Hv.
Qed.

(** X3.  [fpath_gen] raises [PipelineError] when it is ['PIPELINE'] and the
    lookup raises [KeyError] for all three target modules, and also when the
    lookup that succeeds yields ['PIPELINE'] again; a value other than
    ['PIPELINE'] is returned as it is, whatever the pipeline holds. *)
Theorem fpath_gen_pipeline_error (parse : string → outcome pyval)
    (config : gmap string pyval) :
  (config !! "fpath_gen" = Some (PyStr "PIPELINE") →
   (∀ m, m ∈ RepProfilesConfig.TARGET_MODULES →
         (∃ key, parse m = Raises (Builtin (KeyError key)))
         ∨ parse m = Returns (PyStr "PIPELINE")) →
   RepProfilesConfig.fpath_gen parse config
   = Raises (PipelineError
               "Could not parse fpath_gen from previous pipeline jobs."))
  ∧ (∀ v, config !! "fpath_gen" = Some v →
          RepProfilesConfig.is_PIPELINE v = false →
          RepProfilesConfig.fpath_gen parse config = Returns (v, []))
  ∧ (config !! "fpath_gen" = None →
     RepProfilesConfig.fpath_gen parse config
     = Raises (Builtin (KeyError "fpath_gen"))).
Proof.
  split; [|split].
  - intros Hcfg Hall.
    unfold RepProfilesConfig.fpath_gen, config_getitem. rewrite Hcfg. cbn.
    unfold RepProfilesConfig.TARGET_MODULES in *.
    assert (Hcases : ∀ m, m ∈ ["multi-year"; "collect"; "generation"] →
      (∃ key, parse m = Raises (Builtin (KeyError key)))
      ∨ parse m = Returns (PyStr "PIPELINE")) by exact Hall.
    cbn.
    destruct (Hcases "multi-year") as [[k1 ->]| ->]; [set_solver| |done].
    destruct (Hcases "collect") as [[k2 ->]| ->]; [set_solver| |done].
    destruct (Hcases "generation") as [[k3 ->]| ->]; [set_solver| |done].
    done.
  - intros v Hcfg Hv.
    unfold RepProfilesConfig.fpath_gen, config_getitem. rewrite Hcfg. cbn.
    by rewrite Hv.
  - intros Hcfg.
    unfold RepProfilesConfig.fpath_gen, config_getitem. by rewrite Hcfg.
Qed.

Lemma rep_preflight_accepts_iff_witness :
  (∀ req, req ∈ RepProfilesConfig.REQUIREMENTS →
          ∃ v, ex_rep_config !! req = Some v ∧ v ≠ PyNone)
  ∧ RepProfilesConfig._preflight ex_rep_config = Ok ().
Proof.
  assert (Hall : ∀ req, req ∈ RepProfilesConfig.REQUIREMENTS →
                        ∃ v, ex_rep_config !! req = Some v ∧ v ≠ PyNone).
  { intros req Hreq. unfold RepProfilesConfig.REQUIREMENTS in Hreq.
    set_unfold in Hreq.
    destruct Hreq as [->|[->|[->|[]]]]; eexists; (split; [reflexivity|done]). }
  split; [exact Hall|].
  exact (proj2 (proj2 (rep_preflight_accepts_iff ex_rep_config)) Hall).
Defined.

Lemma fpath_gen_first_available_witness :
  ex_rep_config !! "fpath_gen" = Some (PyStr "PIPELINE")
  ∧ RepProfilesConfig.TARGET_MODULES
    = ["multi-year"] ++ "collect" :: ["generation"]
  ∧ RepProfilesConfig.fpath_gen ex_parse_previous ex_rep_config
    = Returns (PyStr "out/collect_2015.h5", [PyStr "out/collect_2015.h5"]).
Proof.
  split; [reflexivity|]. split; [reflexivity|].
  apply (fpath_gen_first_available ex_parse_previous ex_rep_config
           ["multi-year"] ["generation"] "collect"
           (PyStr "out/collect_2015.h5")).
  - reflexivity.
  - reflexivity.
  - intros m Hm. apply list_elem_of_singleton in Hm as ->.
    exists "multi-year". reflexivity.
  - reflexivity.
  - reflexivity.
Defined.

Lemma fpath_gen_pipeline_error_witness :
  ex_rep_config !! "fpath_gen" = Some (PyStr "PIPELINE")
  ∧ RepProfilesConfig.fpath_gen ex_parse_nothing ex_rep_config
    = Raises (PipelineError
                "Could not parse fpath_gen from previous pipeline jobs.")
  ∧ RepProfilesConfig.fpath_gen ex_parse_nothing
      (<["fpath_gen" := PyStr "out/gen_2015.h5"]> ex_rep_config)
    = Returns (PyStr "out/gen_2015.h5", [])
  ∧ RepProfilesConfig.fpath_gen ex_parse_nothing ∅
    = Raises (Builtin (KeyError "fpath_gen")).
Proof.
  split; [reflexivity|]. split; [|split].
  - apply (proj1 (fpath_gen_pipeline_error ex_parse_nothing ex_rep_config)).
    + reflexivity.
    + intros m _. left. exists m. reflexivity.
  - apply (proj1 (proj2 (fpath_gen_pipeline_error ex_parse_nothing
                           (<["fpath_gen" := PyStr "out/gen_2015.h5"]>
                              ex_rep_config))) (PyStr "out/gen_2015.h5")).
    + reflexivity.
    + reflexivity.
  - apply (proj2 (proj2 (fpath_gen_pipeline_error ex_parse_nothing ∅))).
    reflexivity.
Defined.

Lemma rep_preflight_Ok_present (config : gmap string pyval) (req : string) :
  RepProfilesConfig._preflight config = Ok () →
  req ∈ RepProfilesConfig.REQUIREMENTS →
  ∃ v, config !! req = Some v ∧ v ≠ PyNone.
Proof.
  intros Hok Hreq.
  assert (Hnone : is_None (config_get config req PyNone) = false).
  { unfold RepProfilesConfig._preflight, missing_loop,
      RepProfilesConfig.REQUIREMENTS in Hok, Hreq. cbn in Hok.
    set_unfold in Hreq.
    destruct (is_None (config_get config "fpath_gen" PyNone)) eqn:H1;
    destruct (is_None (config_get config "rev_summary" PyNone)) eqn:H2;
    destruct (is_None (config_get config "reg_cols" PyNone)) eqn:H3;
      cbn in Hok; try discriminate.
    by destruct Hreq as [->|[->|[->|[]]]]. }
  unfold config_get in Hnone.
  destruct (config !! req) as [v|]; cbn in Hnone; [|done].
  exists v. split; [done|]. by intros ->.
Qed.

(** X4.  A [RepProfilesConfig] that was constructed has its required
    inputs: [rev_summary] and [reg_cols] return a value other than [None],
    and [fpath_gen] does not fail for want of the key, so that with a path
    other than ['PIPELINE'] it returns this path. *)
Theorem rep_config_required_inputs (parse : string → outcome pyval)
    (config cfg : gmap string pyval) :
  RepProfilesConfig.init config = Ok cfg →
  cfg = config
  ∧ (∃ v, RepProfilesConfig.rev_summary cfg = Ok v ∧ v ≠ PyNone)
  ∧ (∃ v, RepProfilesConfig.reg_cols cfg = Ok v ∧ v ≠ PyNone)
  ∧ (∃ v, config_getitem cfg "fpath_gen" = Ok v ∧ v ≠ PyNone
          ∧ (RepProfilesConfig.is_PIPELINE v = false →
             RepProfilesConfig.fpath_gen parse cfg = Returns (v, []))).
Proof.
  unfold RepProfilesConfig.init.
  destruct (RepProfilesConfig._preflight config) as [[]| |] eqn:Hpre;
    cbn; [|done..].
  intros [= <-]. split; [done|].
  assert (Hin : ∀ req, req ∈ ["fpath_gen"; "rev_summary"; "reg_cols"] →
                       req ∈ RepProfilesConfig.REQUIREMENTS) by done.
  destruct (rep_preflight_Ok_present config "rev_summary" Hpre)
    as (v1 & Hv1 & Hne1); [apply Hin; set_solver|].
  destruct (rep_preflight_Ok_present config "reg_cols" Hpre)
    as (v2 & Hv2 & Hne2); [apply Hin; set_solver|].
  destruct (rep_preflight_Ok_present config "fpath_gen" Hpre)
    as (v3 & Hv3 & Hne3); [apply Hin; set_solver|].
  unfold RepProfilesConfig.rev_summary, RepProfilesConfig.reg_cols,
    RepProfilesConfig.fpath_gen, config_getitem.
  rewrite Hv1, Hv2, Hv3. split; [eauto|]. split; [eauto|].
  exists v3. split; [done|]. split; [done|]. intros Hpipe. cbn.
  by rewrite Hpipe.
Qed.

Lemma rep_config_required_inputs_witness :
  RepProfilesConfig.init ex_rep_config = Ok ex_rep_config
  ∧ (∃ v, RepProfilesConfig.rev_summary ex_rep_config = Ok v ∧ v ≠ PyNone).
Proof.
  split; [reflexivity|].
  exact (proj1 (proj2 (rep_config_required_inputs ex_parse_previous
                         ex_rep_config ex_rep_config eq_refl))).
Defined.


(** ** [Summarize.summarize_dset], further *)

Section PoolBlocks.
Context {Res : Type}.
Implicit Types (ex : Pool Res) (sched futures : list nat).

Lemma complete_not_finished ex k fut :
  finished ex !! fut = None → k ≠ fut → finished (complete ex k) !! fut = None.
Proof.
  intros Hfut Hne. unfold complete.
  destruct (submitted ex !! k); cbn; [|done]. by rewrite lookup_insert_ne.
Qed.

(** A task that is not finished and not in the schedule stays so while
    another future is waited for. *)
Lemma future_result_keeps_unfinished fut0 fut sched ex :
  finished ex !! fut0 = None → fut0 ∉ sched →
  match future_result fut ex sched with
  | Ok (_, ex', sched') => finished ex' !! fut0 = None ∧ fut0 ∉ sched'
  | _ => True
  end.
Proof.
  revert ex. induction sched as [|k sched IH]; intros ex Hfin Hsched; cbn.
  - by destruct (finished ex !! fut) as [[r|e|]|].
  - destruct (finished ex !! fut) as [[r|e|]|]; try done.
    apply IH.
    + apply complete_not_finished; [done|]. intros ->. set_solver.
    + set_solver.
Qed.

Lemma future_result_blocks fut sched ex :
  finished ex !! fut = None → fut ∉ sched →
  future_result fut ex sched = Blocks.
Proof.
  revert ex. induction sched as [|k sched IH]; intros ex Hfin Hsched; cbn.
  - by rewrite Hfin.
  - rewrite Hfin. apply IH.
    + apply complete_not_finished; [done|]. intros ->. set_solver.
    + set_solver.
Qed.

Lemma collect_results_blocks tasks fut0 futures sched ex :
  pool_sound tasks ex →
  (∀ fut, fut ∈ futures → ∃ r, tasks !! fut = Some (Ok r)) →
  fut0 ∈ futures →
  finished ex !! fut0 = None → fut0 ∉ sched →
  collect_results futures ex sched = Blocks.
Proof.
  revert ex sched.
  induction futures as [|fut futures IH]; intros ex sched Hs Hok Hin Hfin Hsched.
  { by apply elem_of_nil in Hin. }
  cbn [collect_results].
  pose proof (future_result_sound tasks fut sched ex Hs) as Hsound.
  pose proof (future_result_keeps_unfinished fut0 fut sched ex Hfin Hsched)
    as Hkeep.
  destruct (decide (fut = fut0)) as [->|Hne].
  { by rewrite future_result_blocks. }
  destruct (future_result fut ex sched) as [[[r ex'] sched']|e|]; cbn.
  - destruct Hsound as [_ Hs']. destruct Hkeep as [Hfin' Hsched'].
    rewrite (IH ex' sched'); [done|done| |set_solver|done|done].
    intros f Hf. apply Hok. set_solver.
  - destruct (Hok fut) as [r Hr]; [set_solver|]. congruence.
  - done.
Qed.

End PoolBlocks.

Section SummarizeFurther.
Context {V Stats : Type}.
Variable describe : list V → Stats.
Variable zero : V.
Variable add : V → V → V.

(** X5.  On the parallel path no table is returned before every chunk has
    finished: when the worker of some submitted chunk never finishes, the
    call does not return a partial table, it waits for ever. *)
Theorem summarize_dset_waits_for_all_chunks (f : Resource) (ds_name : string)
    (d : Dataset) (process_size : option Z) (w : Z)
    (out_path : option string) (sched : list nat) (k : nat) :
  dsets f !! ds_name = Some d →
  (1 < length (shape d))%nat →
  (0 < nth 1 (shape d) 0)%nat →
  0 < default (chunks d) process_size →
  1 < w →
  (k < n_sections (nth 1 (shape d) 0%nat)
                  (default (chunks d) process_size))%nat →
  k ∉ sched →
  summarize_dset describe zero add f ds_name process_size (Some w)
                 out_path sched
  = Blocks.
Proof.
  intros Hd H2 HN Hps Hw Hk Hsched.
  unfold summarize_dset, get_dset_properties. rewrite Hd. cbn.
  destruct (decide (1 < length (shape d))%nat) as [_|?]; [|lia].
  destruct (Z.ltb_spec 1 w) as [_|?]; [|lia]. cbn.
  destruct (plan_sections _ _ HN Hps) as (cs & Hn & Hsplit & Hcat & Hlen & Hpos).
  unfold arange in *. rewrite length_seq, Hn. cbn. rewrite Hsplit. cbn.
  rewrite submit_all_spec.
  rewrite (collect_results_blocks
             (map (λ site_slice,
                     _compute_sites_summary describe zero add f ds_name
                       (Some site_slice)) cs) k); [done|by split| | | |done].
  - intros fut Hfut. apply list_elem_of_lookup in Hfut as [i Hi].
    apply lookup_seq in Hi as [Heq Hi]. cbn in Heq. subst fut.
    change (map ?g cs) with (g <$> cs). rewrite list_lookup_fmap.
    destruct (lookup_lt_is_Some_2 cs i Hi) as [c ->]. cbn.
    rewrite (compute_sites_summary_rows _ _ _ _ _ d) by done. eauto.
  - apply list_elem_of_lookup. exists k. apply lookup_seq. lia.
  - cbn. apply lookup_empty.
Qed.

(** X6.  On a 1-D dataset and with an integer [max_workers] the call always
    returns the one-pass summary, and it warns exactly when chunking or
    parallel workers were asked for: with [process_size = None] and
    [max_workers <= 1] nothing is logged. *)
Theorem summarize_dset_1d_warns_iff (f : Resource) (ds_name : string)
    (d : Dataset) (process_size : option Z) (w : Z)
    (out_path : option string) (sched : list nat) :
  dsets f !! ds_name = Some d →
  (length (shape d) ≤ 1)%nat →
  ∃ summary log,
    summarize_dset describe zero add f ds_name process_size (Some w)
                   out_path sched
    = Ok (summary, log ++ csv_log out_path summary)
    ∧ _compute_ds_summary describe zero add f ds_name = Ok summary
    ∧ (log = [LoggerWarning serial_msg; Warn serial_msg]
       ↔ (process_size ≠ None ∨ 1 < w))
    ∧ (log = [] ↔ (process_size = None ∧ w ≤ 1)).
Proof.
  intros Hd H1.
  assert (Hsum : ∃ summary,
            _compute_ds_summary describe zero add f ds_name = Ok summary).
  { unfold _compute_ds_summary, getitem_all. rewrite Hd. cbn. eauto. }
  destruct Hsum as [summary Hsum]. exists summary.
  unfold summarize_dset, get_dset_properties. rewrite Hd. cbn.
  destruct (decide (1 < length (shape d))%nat) as [?|_]; [lia|].
  destruct process_size as [ps|]; cbn.
  - rewrite Hsum. cbn. exists [LoggerWarning serial_msg; Warn serial_msg].
    split; [by destruct out_path|].
    split; [done|]. split; split; try done; [by left|]. by intros [? _].
  - destruct (Z.ltb_spec 1 w) as [Hw|Hw]; cbn; rewrite Hsum; cbn.
    + exists [LoggerWarning serial_msg; Warn serial_msg].
      split; [by destruct out_path|]. split; [done|].
      split; split; try done; [by right|]. intros [_ ?]. lia.
    + exists []. split; [by destruct out_path|]. split; [done|].
      split; split; try done. intros [?|?]; [done|lia].
Qed.

End SummarizeFurther.

Lemma summarize_dset_waits_for_all_chunks_witness :
  dsets ex_resource !! "cf_profile" = Some ex_profile
  ∧ (1 < length (shape ex_profile))%nat
  ∧ (0 < nth 1 (shape ex_profile) 0)%nat
  ∧ 0 < default (chunks ex_profile) (Some 2)
  ∧ 1 < 4
  ∧ (1 < n_sections (nth 1 (shape ex_profile) 0) 2)%nat
  ∧ (1%nat ∉ [2; 0]%nat)
  ∧ ex_summarize_dset "cf_profile" (Some 2) (Some 4) None [2; 0]%nat = Blocks.
Proof.
  assert (Hsched : 1%nat ∉ [2; 0]%nat).
  { intros Hin. apply elem_of_cons in Hin as [?|Hin']; [done|].
    apply elem_of_cons in Hin' as [?|Hnil]; [done|].
    by apply elem_of_nil in Hnil. }
  split; [exact ex_lookup_profile|]. split; [cbn; lia|]. split; [cbn; lia|].
  split; [cbn; lia|]. split; [lia|]. split; [vm_compute; lia|].
  split; [exact Hsched|].
  apply (summarize_dset_waits_for_all_chunks ex_describe 0 Z.add ex_resource
           "cf_profile" ex_profile (Some 2) 4 None [2; 0]%nat 1).
  - exact ex_lookup_profile.
  - cbn; lia.
  - cbn; lia.
  - cbn; lia.
  - lia.
  - vm_compute; lia.
  - exact Hsched.
Defined.

Lemma summarize_dset_1d_warns_iff_witness :
  dsets ex_resource !! "cf_mean" = Some ex_mean
  ∧ (length (shape ex_mean) ≤ 1)%nat
  ∧ ex_summarize_dset "cf_mean" None (Some 1) (Some "cf_mean_summary.csv") []
    = Ok (DsSummary "cf_mean" (0, 28) 70,
          [ToCsv "cf_mean_summary.csv" (DsSummary "cf_mean" (0, 28) 70)]).
Proof.
  split; [exact ex_lookup_mean|]. split; [cbn; lia|].
  destruct (summarize_dset_1d_warns_iff ex_describe 0 Z.add ex_resource
              "cf_mean" ex_mean None 1 (Some "cf_mean_summary.csv") []
              ex_lookup_mean ltac:(cbn; lia))
    as (summary & log & Hcall & Hsum & _ & Hquiet).
  unfold ex_summarize_dset. rewrite Hcall.
  assert (Hlog : log = []) by (apply Hquiet; split; [reflexivity|lia]).
  rewrite Hlog. injection Hsum as <-. reflexivity.
Defined.

(** ** Calls with effects *)

Lemma eff_eta {E A} (m : eff E A) : Eff (effects m) (returned m) = m.
Proof. by destruct m. Qed.

Lemma eff_bind_Ok {E A B} (k : A → eff E B) (log : list E) (a : A) :
  (Eff log (Ok a) ≫= k) = Eff (log ++ effects (k a)) (returned (k a)).
Proof. reflexivity. Qed.

Lemma eff_bind_ret {E A B} (k : A → eff E B) (a : A) :
  (Eff [] (Ok a) ≫= k) = k a.
Proof. rewrite eff_bind_Ok. apply eff_eta. Qed.

(** ** Strings and paths *)

Lemma replace_from_absent (old new s : string) :
  py_in old s = false → replace_from old new 0 s = s.
Proof.
  induction s as [|c s IH]; [done|]. intros Hin.
  cbn [py_in] in Hin. apply orb_false_iff in Hin as [Hpre Hin].
  cbn [replace_from]. rewrite Hpre. by rewrite IH.
Qed.

Lemma string_app_nil_r (s : string) : s +:+ "" = s.
Proof. induction s as [|a s IH]; [done|]. by rewrite string_app_cons, IH. Qed.

Lemma string_prefix_app (s t : string) : String.prefix s (s +:+ t) = true.
Proof.
  induction s as [|a s IH]; [by destruct t|].
  rewrite string_app_cons, string_prefix_cons.
  by destruct (ascii_dec a a).
Qed.

Lemma string_rev_app_app (s t acc : string) :
  String.rev_app (s +:+ t) acc = String.rev_app t (String.rev_app s acc).
Proof.
  revert acc. induction s as [|a s IH]; intros acc; [done|].
  rewrite string_app_cons. cbn. apply IH.
Qed.

Lemma string_rev_app_acc (s acc : string) :
  String.rev_app s acc = String.rev s +:+ acc.
Proof.
  unfold String.rev. revert acc.
  induction s as [|a s IH]; intros acc; [done|]. cbn.
  rewrite (IH (String a "")), IH, string_app_assoc. done.
Qed.

Lemma endswith_app (s suffix : string) : endswith (s +:+ suffix) suffix = true.
Proof.
  unfold endswith. unfold String.rev at 2. rewrite string_rev_app_app.
  rewrite (string_rev_app_acc suffix (String.rev_app s "")).
  apply string_prefix_app.
Qed.

(** A character that does not occur in a string. *)
Lemma py_in_char_cons (c a : ascii) (s : string) :
  py_in (String c "") (String a s) = false →
  c ≠ a ∧ py_in (String c "") s = false.
Proof.
  cbn [py_in]. intros Hin. apply orb_false_iff in Hin as [Hpre Hin].
  split; [|done]. intros ->. rewrite string_prefix_cons in Hpre.
  destruct (ascii_dec a a); [|done]. by destruct s.
Qed.

Lemma replace_from_skip (old new s : string) :
  replace_from old new (String.length s) s = "".
Proof. induction s as [|a s IH]; [done|]. cbn. apply IH. Qed.

Lemma replace_from_suffix (c : ascii) (old' new stem : string) :
  py_in (String c "") stem = false →
  replace_from (String c old') new 0 (stem +:+ String c old') = stem +:+ new.
Proof.
  induction stem as [|a stem IH]; intros Hin.
  - change ("" +:+ String c old') with (String c old').
    cbn [replace_from]. rewrite string_prefix_cons.
    destruct (ascii_dec c c); [|done].
    pose proof (string_prefix_app old' "") as Hpre.
    rewrite string_app_nil_r in Hpre. rewrite Hpre.
    replace (String.length (String c old') - 1)%nat
      with (String.length old') by (cbn [String.length]; lia).
    rewrite replace_from_skip.
    by rewrite string_app_nil_r.
  - apply py_in_char_cons in Hin as [Hne Hin].
    rewrite !string_app_cons. cbn [replace_from].
    rewrite string_prefix_cons. destruct (ascii_dec c a); [done|].
    by rewrite IH.
Qed.

Lemma basename_from_no_slash (acc s : string) :
  py_in "/" s = false → basename_from acc s = acc +:+ s.
Proof.
  revert acc. induction s as [|a s IH]; intros acc Hin.
  - by rewrite string_app_nil_r.
  - apply py_in_char_cons in Hin as [Hne Hin]. cbn [basename_from].
    rewrite bool_decide_eq_false_2 by (intros ->; by apply Hne).
    rewrite IH by done. by rewrite string_app_assoc.
Qed.

Lemma basename_from_dir (acc dir name : string) :
  basename_from acc (dir +:+ "/" +:+ name) = basename_from "" name.
Proof.
  revert acc. induction dir as [|a dir IH]; intros acc; [done|].
  rewrite string_app_cons. cbn [basename_from]. case_bool_decide; apply IH.
Qed.

Lemma basename_dir (dir name : string) :
  py_in "/" name = false → basename (dir +:+ "/" +:+ name) = name.
Proof.
  intros Hin. unfold basename.
  by rewrite basename_from_dir, basename_from_no_slash.
Qed.

Lemma py_in_char_app (c : ascii) (s t : string) :
  py_in (String c "") s = false → py_in (String c "") t = false →
  py_in (String c "") (s +:+ t) = false.
Proof.
  intros Hs Ht. induction s as [|a s IH]; [done|].
  apply py_in_char_cons in Hs as [Hne Hs]. rewrite string_app_cons.
  cbn [py_in]. rewrite string_prefix_cons.
  destruct (ascii_dec c a); [done|]. by apply IH.
Qed.

(** ** [SummaryPlots] *)

Lemma get_column_Some_columns (summary : Table) (value : string)
    (vals : list Z) :
  get_column summary value = Some vals → value ∈ columns summary.
Proof.
  induction summary as [|[name v] summary IH]; [done|]. cbn.
  case_bool_decide as Hname.
  - intros _. subst name. apply elem_of_cons. by left.
  - intros Hget. apply elem_of_cons. right. by apply IH.
Qed.

Lemma check_values_all (summary : Table) (values : list string) :
  (∀ c, c ∈ values → c ∈ columns summary) →
  SummaryPlots.check_values summary values = Eff [] (Ok ()).
Proof.
  induction values as [|value values IH]; intros Hall; [done|].
  cbn [SummaryPlots.check_values].
  rewrite bool_decide_eq_true_2 by (apply Hall; set_solver).
  apply IH. intros c Hc. apply Hall. set_solver.
Qed.

Lemma check_values_first_missing (summary : Table)
    (before after : list string) (value : string) :
  (∀ c, c ∈ before → c ∈ columns summary) →
  value ∉ columns summary →
  SummaryPlots.check_values summary (before ++ value :: after)
  = log_and_raise (SummaryPlots.invalid_column_msg summary value).
Proof.
  induction before as [|c before IH]; intros Hbefore Hvalue.
  - cbn [app SummaryPlots.check_values]. by rewrite bool_decide_eq_false_2.
  - cbn [app SummaryPlots.check_values].
    rewrite bool_decide_eq_true_2 by (apply Hbefore; set_solver).
    apply IH; [|done]. intros c' Hc'. apply Hbefore. set_solver.
Qed.

Lemma check_values_Ok_inv (summary : Table) (values : list string) :
  returned (SummaryPlots.check_values summary values) = Ok () →
  ∀ c, c ∈ values → c ∈ columns summary.
Proof.
  induction values as [|value values IH]; intros Hok c Hc.
  { by apply elem_of_nil in Hc. }
  cbn [SummaryPlots.check_values] in Hok.
  case_bool_decide as Hvalue; [|done].
  apply elem_of_cons in Hc as [->|Hc]; [done|]. by apply IH.
Qed.

Lemma check_value_checked_columns (summary : Table) (values : ValuesArg)
    (scatter : bool) :
  SummaryPlots._check_value summary values scatter
  = SummaryPlots.check_values summary (checked_columns values scatter).
Proof.
  unfold SummaryPlots._check_value, checked_columns.
  destruct scatter; [done|]. by rewrite app_nil_r.
Qed.

(** X7.  [_check_value] returns, without logging anything, exactly when
    every column it looks for is in the summary table: the given ones and,
    for a scatter plot, ['latitude'] and ['longitude'] after them.  Otherwise
    it logs and raises the [ValueError] that names the first column, in this
    order, that the table does not have. *)
Theorem check_value_first_missing (summary : Table) (values : ValuesArg)
    (scatter : bool) :
  (returned (SummaryPlots._check_value summary values scatter) = Ok ()
   ↔ ∀ c, c ∈ checked_columns values scatter → c ∈ columns summary)
  ∧ ((∀ c, c ∈ checked_columns values scatter → c ∈ columns summary) →
     SummaryPlots._check_value summary values scatter = Eff [] (Ok ()))
  ∧ (∀ before value after,
       checked_columns values scatter = before ++ value :: after →
       (∀ c, c ∈ before → c ∈ columns summary) →
       value ∉ columns summary →
       SummaryPlots._check_value summary values scatter
       = Eff [LoggerError (SummaryPlots.invalid_column_msg summary value)]
             (Raise (ValueError
                       (SummaryPlots.invalid_column_msg summary value)))).
Proof.
  rewrite check_value_checked_columns. split; [|split].
  - split; [apply check_values_Ok_inv|].
    intros Hall. by rewrite check_values_all.
  - apply check_values_all.
  - intros before value after -> Hbefore Hvalue.
    by apply check_values_first_missing.
Qed.

Lemma check_value_first_missing_witness :
  checked_columns (OneValue "cf_mean") true
  = ["cf_mean"; "latitude"] ++ "longitude" :: []
  ∧ SummaryPlots._check_value
      [("cf_mean", [3; 4]); ("latitude", [41; 42])] (OneValue "cf_mean") true
    = Eff [LoggerError
             (SummaryPlots.invalid_column_msg
                [("cf_mean", [3; 4]); ("latitude", [41; 42])] "longitude")]
          (Raise (ValueError
                    (SummaryPlots.invalid_column_msg
                       [("cf_mean", [3; 4]); ("latitude", [41; 42])]
                       "longitude"))).
Proof.
  split; [reflexivity|].
  apply (proj2 (proj2 (check_value_first_missing
                         [("cf_mean", [3; 4]); ("latitude", [41; 42])]
                         (OneValue "cf_mean") true))
           ["cf_mean"; "latitude"] "longitude" []).
  - reflexivity.
  - intros c Hc. vm_compute. set_unfold in Hc. set_unfold.
    destruct Hc as [->|[->|[]]]; auto.
  - vm_compute. set_unfold. intros [?|[?|[]]]; discriminate.
Defined.

Global Instance by_lcoe_total : Total by_lcoe.
Proof. intros r1 r2. unfold by_lcoe. lia. Qed.

Lemma Sorted_by_lcoe_snd (rows : list (Z * Z)) :
  Sorted by_lcoe rows → Sorted Z.le (rows.*2).
Proof.
  induction 1 as [|r rows Hs IH Hhd]; cbn; [constructor|].
  constructor; [done|]. destruct Hhd as [|r' rows' Hr]; cbn; constructor.
  exact Hr.
Qed.

Lemma extract_sc_data_eq (summary : Table) (lcoe : string)
    (capacity cost : list Z) :
  get_column summary "capacity" = Some capacity →
  get_column summary lcoe = Some cost →
  lcoe ≠ "capacity" →
  lcoe ≠ "cumulative_capacity" →
  SummaryPlots._extract_sc_data summary lcoe
  = Eff [] (Ok [("capacity", (merge_sort by_lcoe (zip capacity cost)).*1);
                (lcoe, (merge_sort by_lcoe (zip capacity cost)).*2);
                ("cumulative_capacity",
                 cumsum_Z ((merge_sort by_lcoe (zip capacity cost)).*1))]).
Proof.
  intros Hcap Hcost Hne1 Hne2. unfold SummaryPlots._extract_sc_data.
  rewrite check_value_checked_columns, check_values_all.
  2:{ intros c Hc. unfold checked_columns in Hc. rewrite app_nil_r in Hc.
      apply elem_of_cons in Hc as [->|Hc];
        [by eapply get_column_Some_columns|].
      apply elem_of_cons in Hc as [->|Hc];
        [by eapply get_column_Some_columns|].
      by apply elem_of_nil in Hc. }
  rewrite eff_bind_ret. rewrite bool_decide_eq_false_2 by done.
  rewrite Hcap, Hcost. cbn.
  rewrite (bool_decide_eq_false_2 (lcoe = "cumulative_capacity")) by done.
  reflexivity.
Qed.

(** X8.  The supply-curve table holds the rows of the summary, each keeping
    its own capacity and [lcoe], in the order of non-decreasing [lcoe]. *)
Theorem extract_sc_data_sorted (summary : Table) (lcoe : string)
    (capacity cost : list Z) :
  get_column summary "capacity" = Some capacity →
  get_column summary lcoe = Some cost →
  length capacity = length cost →
  lcoe ≠ "capacity" →
  lcoe ≠ "cumulative_capacity" →
  ∃ rows : list (Z * Z),
    SummaryPlots._extract_sc_data summary lcoe
    = Eff [] (Ok [("capacity", rows.*1); (lcoe, rows.*2);
                  ("cumulative_capacity", cumsum_Z (rows.*1))])
    ∧ rows ≡ₚ zip capacity cost
    ∧ Sorted Z.le (rows.*2)
    ∧ rows.*1 ≡ₚ capacity
    ∧ rows.*2 ≡ₚ cost.
Proof.
  intros Hcap Hcost Hlen Hne1 Hne2.
  exists (merge_sort by_lcoe (zip capacity cost)).
  split; [by apply extract_sc_data_eq|].
  assert (Hperm : merge_sort by_lcoe (zip capacity cost) ≡ₚ zip capacity cost)
    by apply merge_sort_Permutation.
  split; [exact Hperm|]. split.
  - apply Sorted_by_lcoe_snd. apply (Sorted_merge_sort by_lcoe).
  - split.
    + rewrite Hperm. rewrite fst_zip by lia. done.
    + rewrite Hperm. rewrite snd_zip by lia. done.
Qed.

Lemma extract_sc_data_sorted_witness :
  get_column ex_sc_summary "capacity" = Some [10; 40; 20; 30]
  ∧ get_column ex_sc_summary "total_lcoe" = Some [55; 20; 70; 30]
  ∧ ∃ rows : list (Z * Z),
      SummaryPlots._extract_sc_data ex_sc_summary "total_lcoe"
      = Eff [] (Ok [("capacity", rows.*1); ("total_lcoe", rows.*2);
                    ("cumulative_capacity", cumsum_Z (rows.*1))])
      ∧ rows ≡ₚ zip [10; 40; 20; 30] [55; 20; 70; 30]
      ∧ Sorted Z.le (rows.*2)
      ∧ rows.*1 ≡ₚ [10; 40; 20; 30]
      ∧ rows.*2 ≡ₚ [55; 20; 70; 30].
Proof.
  split; [reflexivity|]. split; [reflexivity|].
  apply (extract_sc_data_sorted ex_sc_summary "total_lcoe"
           [10; 40; 20; 30] [55; 20; 70; 30]).
  - reflexivity.
  - reflexivity.
  - reflexivity.
  - discriminate.
  - discriminate.
Defined.

Lemma cumsum_Z_from_length (acc : Z) (l : list Z) :
  length (cumsum_Z_from acc l) = length l.
Proof. revert acc. induction l as [|x l IH]; intros acc; cbn; [done|]. by rewrite IH. Qed.

Lemma cumsum_Z_from_lookup (acc : Z) (l : list Z) (i : nat) :
  (i < length l)%nat →
  cumsum_Z_from acc l !! i = Some (acc + sum_Z (take (S i) l)).
Proof.
  revert acc i. induction l as [|x l IH]; intros acc i Hi; cbn in Hi; [lia|].
  destruct i as [|i].
  - cbn. rewrite take_0. cbn. f_equal. lia.
  - cbn [cumsum_Z_from lookup list_lookup]. rewrite IH by lia.
    f_equal. change (take (S (S i)) (x :: l)) with (x :: take (S i) l).
    unfold sum_Z. cbn [foldr]. lia.
Qed.

Lemma cumsum_Z_from_sorted (acc : Z) (l : list Z) :
  Forall (λ c, 0 ≤ c) l → Sorted Z.le (cumsum_Z_from acc l).
Proof.
  revert acc. induction l as [|x l IH]; intros acc Hpos; cbn; [constructor|].
  apply Forall_cons in Hpos as [Hx Hpos].
  constructor; [by apply IH|].
  destruct l as [|y l]; cbn; constructor.
  apply Forall_cons in Hpos as [Hy _]. lia.
Qed.

Lemma sum_Z_Permutation (l k : list Z) : l ≡ₚ k → sum_Z l = sum_Z k.
Proof.
  unfold sum_Z. induction 1; cbn; lia.
Qed.

(** X9.  The column [cumulative_capacity] of the supply-curve table is the
    running total of its column [capacity]: entry [i] is the sum of the
    capacities of the [i + 1] rows of least [lcoe], the last entry is the
    total capacity of the summary, and the column never decreases when no
    capacity is negative. *)
Theorem cumulative_capacity_running_total (summary : Table) (lcoe : string)
    (capacity cost : list Z) :
  get_column summary "capacity" = Some capacity →
  get_column summary lcoe = Some cost →
  length capacity = length cost →
  lcoe ≠ "capacity" →
  lcoe ≠ "cumulative_capacity" →
  ∃ sc_df caps cum,
    returned (SummaryPlots._extract_sc_data summary lcoe) = Ok sc_df
    ∧ get_column sc_df "capacity" = Some caps
    ∧ get_column sc_df "cumulative_capacity" = Some cum
    ∧ length cum = length capacity
    ∧ (∀ i, (i < length capacity)%nat →
            cum !! i = Some (sum_Z (take (S i) caps)))
    ∧ (capacity ≠ [] → last cum = Some (sum_Z capacity))
    ∧ (Forall (λ c, 0 ≤ c) capacity → Sorted Z.le cum).
Proof.
  intros Hcap Hcost Hlen Hne1 Hne2.
  rewrite (extract_sc_data_eq summary lcoe capacity cost) by done.
  set (rows := merge_sort by_lcoe (zip capacity cost)).
  assert (Hperm : rows.*1 ≡ₚ capacity).
  { unfold rows. rewrite merge_sort_Permutation. by rewrite fst_zip by lia. }
  assert (Hlen' : length (rows.*1) = length capacity) by by rewrite Hperm.
  eexists _, (rows.*1), (cumsum_Z (rows.*1)). split; [reflexivity|].
  split; [reflexivity|]. split.
  { cbn. rewrite (bool_decide_eq_false_2 (lcoe = "cumulative_capacity")) by done.
    reflexivity. }
  split; [unfold cumsum_Z; by rewrite cumsum_Z_from_length|]. split.
  { intros i Hi. unfold cumsum_Z. rewrite cumsum_Z_from_lookup by lia.
    f_equal; lia. }
  split.
  - intros Hne. rewrite last_lookup. unfold cumsum_Z.
    rewrite cumsum_Z_from_length, Hlen'.
    destruct capacity as [|c capacity']; [done|]. cbn [length pred].
    rewrite cumsum_Z_from_lookup by (rewrite Hlen'; cbn; lia).
    rewrite take_ge by (rewrite Hlen'; cbn; lia).
    rewrite (sum_Z_Permutation _ _ Hperm). f_equal; lia.
  - intros Hpos. apply cumsum_Z_from_sorted. by rewrite Hperm.
Qed.

Lemma cumulative_capacity_running_total_witness :
  get_column ex_sc_summary "capacity" = Some [10; 40; 20; 30]
  ∧ get_column ex_sc_summary "total_lcoe" = Some [55; 20; 70; 30]
  ∧ ∃ sc_df caps cum,
      returned (SummaryPlots._extract_sc_data ex_sc_summary "total_lcoe")
      = Ok sc_df
      ∧ get_column sc_df "capacity" = Some caps
      ∧ get_column sc_df "cumulative_capacity" = Some cum
      ∧ length cum = 4%nat
      ∧ last cum = Some 100.
Proof.
  split; [reflexivity|]. split; [reflexivity|].
  destruct (cumulative_capacity_running_total ex_sc_summary "total_lcoe"
              [10; 40; 20; 30] [55; 20; 70; 30])
    as (sc_df & caps & cum & Hret & Hcaps & Hcum & Hlen & _ & Hlast & _).
  - reflexivity.
  - reflexivity.
  - reflexivity.
  - discriminate.
  - discriminate.
  - exists sc_df, caps, cum. split; [exact Hret|]. split; [exact Hcaps|].
    split; [exact Hcum|]. split; [exact Hlen|]. apply Hlast. discriminate.
Defined.

(** X10.  [dist_plot] never plots: for every table, column and path it ends
    in an exception without calling the plotting library, the [ValueError]
    of [_check_value] when the column is missing and otherwise the
    [TypeError] of calling the table. *)
Theorem dist_plot_never_plots (summary : Table) (value : string)
    (out_path : option string) :
  (∃ e, returned (SummaryPlots.dist_plot summary value out_path) = Raise e)
  ∧ Forall is_log (effects (SummaryPlots.dist_plot summary value out_path))
  ∧ SummaryPlots.dist_plot summary value out_path
    = if bool_decide (value ∈ columns summary)
      then Eff [] (Raise (TypeError "'DataFrame' object is not callable"))
      else Eff [LoggerError (SummaryPlots.invalid_column_msg summary value)]
               (Raise (ValueError
                         (SummaryPlots.invalid_column_msg summary value))).
Proof.
  assert (Heq : SummaryPlots.dist_plot summary value out_path
    = if bool_decide (value ∈ columns summary)
      then Eff [] (Raise (TypeError "'DataFrame' object is not callable"))
      else Eff [LoggerError (SummaryPlots.invalid_column_msg summary value)]
               (Raise (ValueError
                         (SummaryPlots.invalid_column_msg summary value)))).
  { unfold SummaryPlots.dist_plot, SummaryPlots._check_value.
    cbn [SummaryPlots.check_values]. by case_bool_decide. }
  rewrite Heq. case_bool_decide; cbn.
  - split; [eauto|]. split; [constructor|done].
  - split; [eauto|]. split; [|done]. by repeat constructor.
Qed.

(** X11.  The additional keyword arguments of [dist_plotly] never reach
    [px.histogram].  Without [out_path] they are ignored; with [out_path],
    any of them makes the call raise [TypeError] once the histogram is made,
    before it is saved or shown. *)
Theorem dist_plotly_kwargs (summary : Table) (value : string)
    (kwargs : list string) :
  value ∈ columns summary →
  SummaryPlots.dist_plotly summary value None kwargs
  = Eff [PxHistogram summary value; FigShow] (Ok ())
  ∧ (∀ out_path,
       kwargs ≠ [] →
       ∃ msg, SummaryPlots.dist_plotly summary value (Some out_path) kwargs
              = Eff [PxHistogram summary value] (Raise (TypeError msg)))
  ∧ (∀ out_path,
       SummaryPlots.dist_plotly summary value (Some out_path) []
       = Eff ([PxHistogram summary value]
              ++ effects (SummaryPlots._save_plotly out_path) ++ [FigShow])
             (Ok ())).
Proof.
  intros Hvalue.
  assert (Hcheck : SummaryPlots._check_value summary (OneValue value) false
                   = Eff [] (Ok ())).
  { unfold SummaryPlots._check_value. cbn [SummaryPlots.check_values].
    by rewrite bool_decide_eq_true_2. }
  unfold SummaryPlots.dist_plotly. rewrite Hcheck, eff_bind_ret.
  split; [reflexivity|]. split.
  - intros out_path Hkw. destruct kwargs as [|key kwargs]; [done|].
    unfold SummaryPlots.save_plotly_kwargs.
    case_bool_decide; eexists; reflexivity.
  - intros out_path. unfold SummaryPlots.save_plotly_kwargs,
      SummaryPlots._save_plotly.
    by destruct (endswith out_path ".html").
Qed.

Lemma dist_plotly_kwargs_witness :
  "cf_mean" ∈ columns ex_sc_summary
  ∧ ["nbins"] ≠ []
  ∧ ∃ msg, SummaryPlots.dist_plotly ex_sc_summary "cf_mean"
             (Some "out/cf_mean.html") ["nbins"]
           = Eff [PxHistogram ex_sc_summary "cf_mean"] (Raise (TypeError msg)).
Proof.
  assert (Hin : "cf_mean" ∈ columns ex_sc_summary).
  { vm_compute. set_unfold. tauto. }
  split; [exact Hin|]. split; [discriminate|].
  apply (proj1 (proj2 (dist_plotly_kwargs ex_sc_summary "cf_mean" ["nbins"]
                         Hin))).
  discriminate.
Defined.

Section ClassMethodFacts.
Variable read_csv : string → result Table.
Variable read_json : string → result Table.

Lemma scatter_plot_ok (summary : Table) (value cmap : string)
    (out_path : option string) :
  value ∈ columns summary →
  "latitude" ∈ columns summary →
  "longitude" ∈ columns summary →
  SummaryPlots.scatter_plot summary value cmap out_path
  = Eff [DfScatter summary "longitude" "latitude" (Some value) (Some cmap)
                   out_path] (Ok ()).
Proof.
  intros Hvalue Hlat Hlon. unfold SummaryPlots.scatter_plot.
  rewrite check_value_checked_columns, check_values_all; [done|].
  intros c Hc. unfold checked_columns in Hc. set_unfold in Hc.
  by destruct Hc as [->|[->|[->|[]]]].
Qed.

Lemma scatter_plotly_ok (summary : Table) (value cmap : string)
    (out_path : string) :
  value ∈ columns summary →
  "latitude" ∈ columns summary →
  "longitude" ∈ columns summary →
  SummaryPlots.scatter_plotly summary value cmap (Some out_path)
  = Eff ([PxScatter summary "longitude" "latitude" (Some value) (Some cmap);
          UpdateLayout]
         ++ effects (SummaryPlots._save_plotly out_path) ++ [FigShow])
        (Ok ()).
Proof.
  intros Hvalue Hlat Hlon. unfold SummaryPlots.scatter_plotly.
  rewrite check_value_checked_columns, check_values_all.
  2:{ intros c Hc. unfold checked_columns in Hc. set_unfold in Hc.
      by destruct Hc as [->|[->|[->|[]]]]. }
  rewrite eff_bind_ret. unfold SummaryPlots.save_if_given,
    SummaryPlots._save_plotly.
  by destruct (endswith out_path ".html").
Qed.

Lemma scatter_plot_no_latitude (summary : Table) (value cmap : string)
    (out_path : option string) :
  value ∈ columns summary →
  "latitude" ∉ columns summary →
  SummaryPlots.scatter_plot summary value cmap out_path
  = log_and_raise (SummaryPlots.invalid_column_msg summary "latitude").
Proof.
  intros Hvalue Hlat. unfold SummaryPlots.scatter_plot.
  rewrite check_value_checked_columns.
  change (checked_columns (OneValue value) true)
    with ([value] ++ "latitude" :: ["longitude"]).
  rewrite check_values_first_missing; [done| |done].
  intros c Hc. set_unfold in Hc. by destruct Hc as [->|[]].
Qed.

(** The plots of the loop of [scatter_all], when each of them succeeds. *)
Lemma scatter_each_ok (splt : Table) (summary_csv out_dir type cmap : string)
    (datasets : list string) (calls : string → list PlotCall) :
  (∀ value, value ∈ datasets →
     SummaryPlots.scatter_value splt summary_csv out_dir type cmap value
     = Eff (calls value) (Ok ())) →
  SummaryPlots.scatter_each splt summary_csv out_dir type cmap datasets
  = Eff (concat (map calls datasets)) (Ok ()).
Proof.
  induction datasets as [|value datasets IH]; intros Hall; [done|].
  cbn [SummaryPlots.scatter_each map concat].
  rewrite (Hall value) by set_solver. rewrite eff_bind_Ok.
  rewrite IH by (intros v Hv; apply Hall; set_solver). done.
Qed.

Lemma concat_map_singleton {A B} (f : A → B) (l : list A) :
  concat (map (λ a, [f a]) l) = map f l.
Proof. induction l as [|a l IH]; cbn; [done|]. by rewrite IH. Qed.

Lemma stat_columns_in_columns (splt : Table) (value : string) :
  value ∈ filter (λ c, SummaryPlots.is_stat_column c = true) (columns splt) →
  value ∈ columns splt.
Proof. intros Hin. by apply list_elem_of_filter in Hin as [_ ?]. Qed.

(** X12.  [scatter_all] checks [type] once per plot and not before: with a
    [type] other than ['plot'] and ['plotly'] it raises [ValueError] when
    the table has a column to plot, and returns without a word when it has
    none.  [scatter] refuses such a [type] for every table. *)
Theorem scatter_all_checks_type_per_plot (summary_csv out_dir type cmap : string)
    (value : string) (splt : Table) :
  SummaryPlots._parse_summary read_csv read_json (SummaryPath summary_csv)
  = Ok splt →
  type ≠ "plot" →
  type ≠ "plotly" →
  SummaryPlots.scatter_all read_csv read_json summary_csv out_dir type cmap
  = (if bool_decide
          (filter (λ c, SummaryPlots.is_stat_column c = true) (columns splt)
           = [])
     then Eff [] (Ok ())
     else Eff [LoggerError (SummaryPlots.type_msg type)]
              (Raise (ValueError (SummaryPlots.type_msg type))))
  ∧ SummaryPlots.scatter read_csv read_json summary_csv out_dir value type cmap
    = Eff [LoggerError (SummaryPlots.type_msg type)]
          (Raise (ValueError (SummaryPlots.type_msg type))).
Proof.
  intros Hparse Hplot Hplotly. split.
  - unfold SummaryPlots.scatter_all, SummaryPlots.init. rewrite Hparse.
    unfold pure_call. rewrite eff_bind_ret.
    destruct (filter _ (columns splt)) as [|v datasets]; [done|].
    rewrite bool_decide_eq_false_2 by done.
    cbn [SummaryPlots.scatter_each]. unfold SummaryPlots.scatter_value.
    by rewrite !bool_decide_eq_false_2 by done.
  - unfold SummaryPlots.scatter, SummaryPlots.init. rewrite Hparse.
    unfold pure_call. rewrite eff_bind_ret.
    by rewrite !bool_decide_eq_false_2 by done.
Qed.

(** X13.  With [type = 'plot'] and a table that has the columns
    ['latitude'] and ['longitude'], [scatter_all] makes one scatter plot for
    each column that ends in ['_mean'] or is one of the statistics, in the
    order of the table, each coloured by its column and saved under the name
    of the summary with ['.csv'] replaced by ['_<column>.png'].  Without
    ['latitude'] the first plot fails and none is made. *)
Theorem scatter_all_one_plot_per_column (summary_csv out_dir cmap : string)
    (splt : Table) :
  SummaryPlots._parse_summary read_csv read_json (SummaryPath summary_csv)
  = Ok splt →
  ("latitude" ∈ columns splt → "longitude" ∈ columns splt →
   SummaryPlots.scatter_all read_csv read_json summary_csv out_dir "plot" cmap
   = Eff (map (λ value,
                 DfScatter splt "longitude" "latitude" (Some value) (Some cmap)
                   (Some (SummaryPlots.plot_path summary_csv out_dir
                            ("_" +:+ value +:+ ".png"))))
              (filter (λ c, SummaryPlots.is_stat_column c = true)
                      (columns splt)))
         (Ok ()))
  ∧ ("latitude" ∉ columns splt →
     filter (λ c, SummaryPlots.is_stat_column c = true) (columns splt) ≠ [] →
     SummaryPlots.scatter_all read_csv read_json summary_csv out_dir "plot" cmap
     = Eff [LoggerError (SummaryPlots.invalid_column_msg splt "latitude")]
           (Raise (ValueError
                     (SummaryPlots.invalid_column_msg splt "latitude")))).
Proof.
  intros Hparse. split.
  - intros Hlat Hlon.
    unfold SummaryPlots.scatter_all, SummaryPlots.init. rewrite Hparse.
    unfold pure_call. rewrite eff_bind_ret.
    rewrite <- concat_map_singleton. apply scatter_each_ok.
    intros value Hvalue. apply stat_columns_in_columns in Hvalue.
    unfold SummaryPlots.scatter_value. rewrite bool_decide_eq_true_2 by done.
    by apply scatter_plot_ok.
  - intros Hlat Hsome.
    unfold SummaryPlots.scatter_all, SummaryPlots.init. rewrite Hparse.
    unfold pure_call. rewrite eff_bind_ret.
    pose proof (stat_columns_in_columns splt) as Hin.
    destruct (filter _ (columns splt)) as [|v datasets]; [done|].
    cbn [SummaryPlots.scatter_each]. unfold SummaryPlots.scatter_value.
    rewrite bool_decide_eq_true_2 by done.
    rewrite scatter_plot_no_latitude; [done| |done].
    apply Hin. set_solver.
Qed.

(** X14.  The name of a plot is the name of the summary with ['.csv']
    replaced, so for a summary given as a [.json] file, without ['.csv'] in
    its name, nothing is replaced: [scatter_all] saves every plot of the
    table to one and the same path, the name of the summary file itself in
    [out_dir]. *)
Theorem scatter_all_json_one_path (summary_csv out_dir cmap : string)
    (splt : Table) :
  SummaryPlots._parse_summary read_csv read_json (SummaryPath summary_csv)
  = Ok splt →
  py_in ".csv" (basename summary_csv) = false →
  "latitude" ∈ columns splt →
  "longitude" ∈ columns splt →
  (∀ ext, SummaryPlots.plot_path summary_csv out_dir ext
          = path_join out_dir (basename summary_csv))
  ∧ SummaryPlots.scatter_all read_csv read_json summary_csv out_dir "plot" cmap
    = Eff (map (λ value,
                  DfScatter splt "longitude" "latitude" (Some value)
                    (Some cmap)
                    (Some (path_join out_dir (basename summary_csv))))
               (filter (λ c, SummaryPlots.is_stat_column c = true)
                       (columns splt)))
          (Ok ())
  ∧ SummaryPlots.scatter_all read_csv read_json summary_csv out_dir "plotly"
      cmap
    = Eff (concat
             (map (λ value,
                     [PxScatter splt "longitude" "latitude" (Some value)
                        (Some cmap);
                      UpdateLayout]
                     ++ effects (SummaryPlots._save_plotly
                                   (path_join out_dir (basename summary_csv)))
                     ++ [FigShow])
                  (filter (λ c, SummaryPlots.is_stat_column c = true)
                          (columns splt))))
          (Ok ()).
Proof.
  intros Hparse Hcsv Hlat Hlon.
  assert (Hpath : ∀ ext, SummaryPlots.plot_path summary_csv out_dir ext
                         = path_join out_dir (basename summary_csv)).
  { intros ext. unfold SummaryPlots.plot_path, py_replace.
    by rewrite replace_from_absent. }
  split; [exact Hpath|]. split.
  - unfold SummaryPlots.scatter_all, SummaryPlots.init. rewrite Hparse.
    unfold pure_call. rewrite eff_bind_ret.
    rewrite <- concat_map_singleton. apply scatter_each_ok.
    intros value Hvalue. apply stat_columns_in_columns in Hvalue.
    unfold SummaryPlots.scatter_value. rewrite bool_decide_eq_true_2 by done.
    rewrite Hpath. by apply scatter_plot_ok.
  - unfold SummaryPlots.scatter_all, SummaryPlots.init. rewrite Hparse.
    unfold pure_call. rewrite eff_bind_ret.
    apply scatter_each_ok.
    intros value Hvalue. apply stat_columns_in_columns in Hvalue.
    unfold SummaryPlots.scatter_value.
    rewrite bool_decide_eq_false_2 by done.
    rewrite bool_decide_eq_true_2 by done.
    rewrite Hpath. by apply scatter_plotly_ok.
Qed.

End ClassMethodFacts.

Section PlotFiles.
Variable read_csv : string → result Table.
Variable read_json : string → result Table.

Lemma plot_path_csv (dir stem out_dir ext : string) :
  py_in "/" stem = false →
  py_in "." stem = false →
  SummaryPlots.plot_path (dir +:+ "/" +:+ stem +:+ ".csv") out_dir ext
  = path_join out_dir (stem +:+ ext).
Proof.
  intros Hslash Hdot. unfold SummaryPlots.plot_path, py_replace.
  rewrite basename_dir by (by apply py_in_char_app).
  by rewrite replace_from_suffix.
Qed.

Lemma path_join_endswith (a b suffix : string) :
  endswith (path_join a (b +:+ suffix)) suffix = true.
Proof.
  unfold path_join. destruct (String.prefix "/" (b +:+ suffix)).
  - apply endswith_app.
  - destruct (bool_decide (a = "") || endswith a "/").
    + rewrite <- string_app_assoc. apply endswith_app.
    + rewrite <- !string_app_assoc. apply endswith_app.
Qed.

(** X15.  For a summary file [dir/stem.csv], [stem] having no ['/'] and no
    ['.'] in it, [scatter] saves its plot in [out_dir] under the name of the
    summary with the extension changed: [stem.png] for ['plot'], and for
    ['plotly'] [stem.html], written as HTML and then shown. *)
Theorem scatter_saves_beside_summary_name (dir stem out_dir value cmap : string)
    (splt : Table) :
  SummaryPlots._parse_summary read_csv read_json
    (SummaryPath (dir +:+ "/" +:+ stem +:+ ".csv")) = Ok splt →
  py_in "/" stem = false →
  py_in "." stem = false →
  value ∈ columns splt →
  "latitude" ∈ columns splt →
  "longitude" ∈ columns splt →
  SummaryPlots.scatter read_csv read_json (dir +:+ "/" +:+ stem +:+ ".csv")
    out_dir value "plot" cmap
  = Eff [DfScatter splt "longitude" "latitude" (Some value) (Some cmap)
           (Some (path_join out_dir (stem +:+ ".png")))] (Ok ())
  ∧ SummaryPlots.scatter read_csv read_json (dir +:+ "/" +:+ stem +:+ ".csv")
      out_dir value "plotly" cmap
    = Eff [PxScatter splt "longitude" "latitude" (Some value) (Some cmap);
           UpdateLayout;
           WriteHtml (path_join out_dir (stem +:+ ".html"));
           FigShow] (Ok ()).
Proof.
  intros Hparse Hslash Hdot Hvalue Hlat Hlon. split.
  - unfold SummaryPlots.scatter, SummaryPlots.init. rewrite Hparse.
    unfold pure_call. rewrite eff_bind_ret.
    rewrite bool_decide_eq_true_2 by done.
    rewrite plot_path_csv by done. by apply scatter_plot_ok.
  - unfold SummaryPlots.scatter, SummaryPlots.init. rewrite Hparse.
    unfold pure_call. rewrite eff_bind_ret.
    rewrite bool_decide_eq_false_2 by done.
    rewrite bool_decide_eq_true_2 by done.
    rewrite plot_path_csv by done. rewrite scatter_plotly_ok by done.
    unfold SummaryPlots._save_plotly. by rewrite path_join_endswith.
Qed.

(** X16.  [supply_curve] with ['plotly'] plots the supply-curve table of
    the summary, cumulative capacity against [lcoe], and writes it as HTML
    under the name of the summary; when the summary lacks the column
    ['capacity'] it raises the [ValueError] of [_check_value] and plots
    nothing, whatever the [type]. *)
Theorem supply_curve_plots_sorted_table (dir stem out_dir lcoe : string)
    (splt : Table) :
  SummaryPlots._parse_summary read_csv read_json
    (SummaryPath (dir +:+ "/" +:+ stem +:+ ".csv")) = Ok splt →
  py_in "/" stem = false →
  py_in "." stem = false →
  (∀ sc_df,
     SummaryPlots._extract_sc_data splt lcoe = Eff [] (Ok sc_df) →
     SummaryPlots.supply_curve read_csv read_json
       (dir +:+ "/" +:+ stem +:+ ".csv") out_dir "plotly" lcoe
     = Eff [PxScatter sc_df "cumulative_capacity" lcoe None None;
            UpdateLayout;
            WriteHtml (path_join out_dir (stem +:+ ".html"));
            FigShow] (Ok ())
     ∧ SummaryPlots.supply_curve read_csv read_json
         (dir +:+ "/" +:+ stem +:+ ".csv") out_dir "plot" lcoe
       = Eff [DfScatter sc_df "cumulative_capacity" lcoe None None
                (Some (path_join out_dir (stem +:+ ".png")))] (Ok ()))
  ∧ ("capacity" ∉ columns splt →
     ∀ type, type = "plot" ∨ type = "plotly" →
       SummaryPlots.supply_curve read_csv read_json
         (dir +:+ "/" +:+ stem +:+ ".csv") out_dir type lcoe
       = Eff [LoggerError (SummaryPlots.invalid_column_msg splt "capacity")]
             (Raise (ValueError
                       (SummaryPlots.invalid_column_msg splt "capacity")))).
Proof.
  intros Hparse Hslash Hdot. split.
  - intros sc_df Hsc. split.
    + unfold SummaryPlots.supply_curve, SummaryPlots.init. rewrite Hparse.
      unfold pure_call. rewrite eff_bind_ret.
      rewrite bool_decide_eq_false_2 by done.
      rewrite bool_decide_eq_true_2 by done.
      rewrite plot_path_csv by done.
      unfold SummaryPlots.supply_curve_plotly. rewrite Hsc, eff_bind_ret.
      unfold SummaryPlots.save_if_given, SummaryPlots._save_plotly.
      by rewrite path_join_endswith.
    + unfold SummaryPlots.supply_curve, SummaryPlots.init. rewrite Hparse.
      unfold pure_call. rewrite eff_bind_ret.
      rewrite bool_decide_eq_true_2 by done.
      rewrite plot_path_csv by done.
      unfold SummaryPlots.supply_curve_plot. by rewrite Hsc, eff_bind_ret.
  - intros Hcap type Htype.
    assert (Hsc : SummaryPlots._extract_sc_data splt lcoe
                  = log_and_raise
                      (SummaryPlots.invalid_column_msg splt "capacity")).
    { unfold SummaryPlots._extract_sc_data.
      rewrite check_value_checked_columns.
      change (checked_columns (ManyValues ["capacity"; lcoe]) false)
        with ([] ++ "capacity" :: [lcoe] ++ []).
      rewrite check_values_first_missing; [done| |done].
      intros c Hc. by apply elem_of_nil in Hc. }
    unfold SummaryPlots.supply_curve, SummaryPlots.init. rewrite Hparse.
    unfold pure_call. rewrite eff_bind_ret.
    destruct Htype as [-> | ->].
    + rewrite bool_decide_eq_true_2 by done.
      unfold SummaryPlots.supply_curve_plot. by rewrite Hsc.
    + rewrite bool_decide_eq_false_2 by done.
      rewrite bool_decide_eq_true_2 by done.
      unfold SummaryPlots.supply_curve_plotly. by rewrite Hsc.
Qed.

End PlotFiles.

Lemma ex_sc_summary_columns :
  columns ex_sc_summary
  = ["capacity"; "total_lcoe"; "latitude"; "longitude"; "cf_mean"; "mean"].
Proof. reflexivity. Qed.

Lemma ex_sc_summary_latitude : "latitude" ∈ columns ex_sc_summary.
Proof. rewrite ex_sc_summary_columns. set_solver. Qed.

Lemma ex_sc_summary_longitude : "longitude" ∈ columns ex_sc_summary.
Proof. rewrite ex_sc_summary_columns. set_solver. Qed.

Lemma ex_sc_summary_cf_mean : "cf_mean" ∈ columns ex_sc_summary.
Proof. rewrite ex_sc_summary_columns. set_solver. Qed.

Lemma scatter_all_checks_type_per_plot_witness :
  SummaryPlots._parse_summary ex_read_csv ex_read_json
    (SummaryPath "out/sc_summary.csv") = Ok ex_sc_summary
  ∧ "png" ≠ "plot"
  ∧ "png" ≠ "plotly"
  ∧ SummaryPlots.scatter_all ex_read_csv ex_read_json "out/sc_summary.csv"
      "plots" "png" "viridis"
    = Eff [LoggerError (SummaryPlots.type_msg "png")]
          (Raise (ValueError (SummaryPlots.type_msg "png"))).
Proof.
  split; [reflexivity|]. split; [discriminate|]. split; [discriminate|].
  exact (proj1 (scatter_all_checks_type_per_plot ex_read_csv ex_read_json
                  "out/sc_summary.csv" "plots" "png" "viridis" "cf_mean"
                  ex_sc_summary eq_refl
                  ltac:(discriminate) ltac:(discriminate))).
Defined.

Lemma scatter_all_one_plot_per_column_witness :
  SummaryPlots._parse_summary ex_read_csv ex_read_json
    (SummaryPath "out/sc_summary.csv") = Ok ex_sc_summary
  ∧ "latitude" ∈ columns ex_sc_summary
  ∧ "longitude" ∈ columns ex_sc_summary
  ∧ SummaryPlots.scatter_all ex_read_csv ex_read_json "out/sc_summary.csv"
      "plots" "plot" "viridis"
    = Eff [DfScatter ex_sc_summary "longitude" "latitude" (Some "cf_mean")
             (Some "viridis") (Some "plots/sc_summary_cf_mean.png");
           DfScatter ex_sc_summary "longitude" "latitude" (Some "mean")
             (Some "viridis") (Some "plots/sc_summary_mean.png")]
          (Ok ()).
Proof.
  split; [reflexivity|]. split; [exact ex_sc_summary_latitude|].
  split; [exact ex_sc_summary_longitude|].
  exact (proj1 (scatter_all_one_plot_per_column ex_read_csv ex_read_json
                  "out/sc_summary.csv" "plots" "viridis" ex_sc_summary
                  eq_refl)
           ex_sc_summary_latitude ex_sc_summary_longitude).
Defined.

Lemma scatter_all_json_one_path_witness :
  SummaryPlots._parse_summary ex_read_csv ex_read_json
    (SummaryPath "out/sc_summary.json") = Ok ex_sc_summary
  ∧ py_in ".csv" (basename "out/sc_summary.json") = false
  ∧ SummaryPlots.scatter_all ex_read_csv ex_read_json "out/sc_summary.json"
      "out" "plot" "viridis"
    = Eff [DfScatter ex_sc_summary "longitude" "latitude" (Some "cf_mean")
             (Some "viridis") (Some "out/sc_summary.json");
           DfScatter ex_sc_summary "longitude" "latitude" (Some "mean")
             (Some "viridis") (Some "out/sc_summary.json")]
          (Ok ()).
Proof.
  split; [reflexivity|]. split; [reflexivity|].
  exact (proj1 (proj2 (scatter_all_json_one_path ex_read_csv ex_read_json
                         "out/sc_summary.json" "out" "viridis" ex_sc_summary
                         eq_refl eq_refl
                         ex_sc_summary_latitude ex_sc_summary_longitude))).
Defined.

Lemma scatter_saves_beside_summary_name_witness :
  SummaryPlots._parse_summary ex_read_csv ex_read_json
    (SummaryPath ("out" +:+ "/" +:+ "sc_summary" +:+ ".csv")) = Ok ex_sc_summary
  ∧ py_in "/" "sc_summary" = false
  ∧ py_in "." "sc_summary" = false
  ∧ SummaryPlots.scatter ex_read_csv ex_read_json "out/sc_summary.csv"
      "plots" "cf_mean" "plotly" "Viridis"
    = Eff [PxScatter ex_sc_summary "longitude" "latitude" (Some "cf_mean")
             (Some "Viridis");
           UpdateLayout;
           WriteHtml "plots/sc_summary.html";
           FigShow] (Ok ()).
Proof.
  split; [reflexivity|]. split; [reflexivity|]. split; [reflexivity|].
  exact (proj2 (scatter_saves_beside_summary_name ex_read_csv ex_read_json
                  "out" "sc_summary" "plots" "cf_mean" "Viridis" ex_sc_summary
                  eq_refl eq_refl eq_refl ex_sc_summary_cf_mean
                  ex_sc_summary_latitude ex_sc_summary_longitude)).
Defined.

Lemma supply_curve_plots_sorted_table_witness :
  SummaryPlots._parse_summary ex_read_csv ex_read_json
    (SummaryPath ("out" +:+ "/" +:+ "sc_summary" +:+ ".csv")) = Ok ex_sc_summary
  ∧ py_in "/" "sc_summary" = false
  ∧ py_in "." "sc_summary" = false
  ∧ SummaryPlots.supply_curve ex_read_csv ex_read_json "out/sc_summary.csv"
      "plots" "plot" "total_lcoe"
    = Eff [DfScatter
             [("capacity", [40; 30; 10; 20]);
              ("total_lcoe", [20; 30; 55; 70]);
              ("cumulative_capacity", [40; 70; 80; 100])]
             "cumulative_capacity" "total_lcoe" None None
             (Some "plots/sc_summary.png")] (Ok ()).
Proof.
  split; [reflexivity|]. split; [reflexivity|]. split; [reflexivity|].
  exact (proj2 (proj1 (supply_curve_plots_sorted_table ex_read_csv ex_read_json
                         "out" "sc_summary" "plots" "total_lcoe" ex_sc_summary
                         eq_refl eq_refl eq_refl) _ eq_refl)).
Defined.

(** ** [Summarize.summarize_means] *)

Lemma set_column_names {A} (df : list (string * A)) (name : string) (vals : A) :
  (set_column df name vals).*1
  = if bool_decide (name ∈ df.*1) then df.*1 else df.*1 ++ [name].
Proof.
  induction df as [|[n v] df IH]; [done|]. cbn [set_column].
  destruct (decide (n = name)) as [->|Hn].
  - rewrite (bool_decide_eq_true_2 (name = name)) by done. cbn.
    rewrite bool_decide_eq_true_2 by set_solver. reflexivity.
  - rewrite (bool_decide_eq_false_2 (n = name)) by done. cbn. rewrite IH.
    destruct (decide (name ∈ df.*1)) as [Hin|Hin].
    + rewrite !bool_decide_eq_true_2 by set_solver. reflexivity.
    + rewrite (bool_decide_eq_false_2 (name ∈ df.*1)) by done.
      rewrite bool_decide_eq_false_2; [reflexivity|].
      intros Hin'. apply elem_of_cons in Hin' as [Heq|?]; [|done].
      by apply Hn.
Qed.

Lemma get_column_set_eq {A} (df : list (string * A)) (name : string)
    (vals : A) :
  get_column (set_column df name vals) name = Some vals.
Proof.
  induction df as [|[n v] df IH]; cbn.
  - by rewrite bool_decide_eq_true_2.
  - case_bool_decide as Hn; cbn.
    + by rewrite bool_decide_eq_true_2.
    + by rewrite bool_decide_eq_false_2.
Qed.

Lemma get_column_set_ne {A} (df : list (string * A)) (name name' : string)
    (vals : A) :
  name ≠ name' →
  get_column (set_column df name vals) name' = get_column df name'.
Proof.
  intros Hne. induction df as [|[n v] df IH]; cbn.
  - by rewrite bool_decide_eq_false_2.
  - case_bool_decide as Hn; cbn.
    + subst n. by rewrite !bool_decide_eq_false_2.
    + case_bool_decide; [done|]. apply IH.
Qed.

Section SummarizeMeansFacts.
Context {V M : Type}.
Implicit Types (f : ResourceFile (V:=V) (M:=M)) (meta : MeansTable (V:=V) (M:=M)).

Lemma dset_series_length (d : Dataset (V:=V)) :
  length (dset_series d) = nth 0 (shape d) 0%nat.
Proof. unfold dset_series. by rewrite length_map, length_seq. Qed.

(** What one iteration of the loop does to the table. *)
Lemma add_means_cases f meta ds_name :
  add_means f meta ds_name
  = if bool_decide (ds_name ∈ reserved) then Ok meta
    else match dsets (handler f) !! ds_name with
         | None => Raise (KeyError ds_name)
         | Some d =>
             if bool_decide (length (shape d) = 1%nat) then
               if bool_decide (nth 0 (shape d) 0%nat = n_sites f)
               then Ok (set_column meta ds_name (DataCell <$> dset_series d))
               else Raise (ValueError
                             ("Length of values ("
                              +:+ pretty (nth 0 (shape d) 0%nat)
                              +:+ ") does not match length of index ("
                              +:+ pretty (n_sites f) +:+ ")"))
             else Ok meta
         end.
Proof.
  unfold add_means, get_dset_properties, getitem_all.
  case_bool_decide; [done|].
  destruct (dsets (handler f) !! ds_name) as [d|]; [|done]. cbn.
  case_bool_decide; [|done]. cbn. unfold setitem.
  fold (dset_series d). rewrite dset_series_length. done.
Qed.

Lemma add_means_Ok f meta meta' ds_name :
  add_means f meta ds_name = Ok meta' →
  (is_vector f ds_name = false ∧ meta' = meta)
  ∨ (∃ d, dsets (handler f) !! ds_name = Some d
          ∧ is_vector f ds_name = true
          ∧ meta' = set_column meta ds_name (DataCell <$> dset_series d)).
Proof.
  rewrite add_means_cases. unfold is_vector.
  case_bool_decide as Hres.
  { intros [= <-]. left. by rewrite bool_decide_eq_false_2 by tauto. }
  rewrite bool_decide_eq_true_2 by done.
  destruct (dsets (handler f) !! ds_name) as [d|]; [|done].
  case_bool_decide as H1.
  - case_bool_decide; [|done]. intros [= <-]. right. by exists d.
  - intros [= <-]. by left.
Qed.

Lemma add_means_is_Ok f meta ds_name :
  is_Ok (add_means f meta ds_name) = true
  ↔ (ds_name ∉ reserved → fits_meta f ds_name).
Proof.
  rewrite add_means_cases. unfold fits_meta.
  case_bool_decide as Hres; [by split|].
  destruct (dsets (handler f) !! ds_name) as [d|].
  - case_bool_decide as H1.
    + case_bool_decide as Hn; cbn.
      * split; [|done]. intros _ _. by exists d.
      * split; [done|]. intros Hfit. destruct (Hfit Hres) as (d' & [= <-] & Hd').
        by specialize (Hd' H1).
    + cbn. split; [|done]. intros _ _. exists d. by split.
  - cbn. split; [done|]. intros Hfit. by destruct (Hfit Hres) as (d' & ? & _).
Qed.

Lemma means_loop_is_Ok f meta names :
  is_Ok (means_loop f meta names) = true
  ↔ (∀ ds_name, ds_name ∈ names → ds_name ∉ reserved → fits_meta f ds_name).
Proof.
  revert meta. induction names as [|n names IH]; intros meta.
  { cbn. split; [|done]. intros _ ds Hds. by apply elem_of_nil in Hds. }
  cbn [means_loop].
  pose proof (add_means_is_Ok f meta n) as Hn.
  destruct (add_means f meta n) as [meta'| |]; cbn in *.
  - rewrite IH. split.
    + intros Hall ds Hds. apply elem_of_cons in Hds as [->|Hds].
      * by apply Hn.
      * by apply Hall.
    + intros Hall ds Hds. apply Hall. set_solver.
  - split; [done|]. intros Hall.
    assert (false = true); [|done]. apply Hn. apply Hall. set_solver.
  - split; [done|]. intros Hall.
    assert (false = true); [|done]. apply Hn. apply Hall. set_solver.
Qed.

(** X17.  [summarize_means] returns a table exactly when every dataset it
    does not skip is in the file and, if it is 1-D, has one value per site;
    the table does not depend on [out_path], and it is written there, once,
    when a path is given. *)
Theorem summarize_means_succeeds_iff f (out_path : option string) :
  (is_Ok (summarize_means f out_path) = true
   ↔ ∀ ds_name, ds_name ∈ datasets f → ds_name ∉ reserved →
                fits_meta f ds_name)
  ∧ (∀ meta log,
       summarize_means f out_path = Ok (meta, log) →
       summarize_means f None = Ok (meta, [])
       ∧ log = match out_path with
               | Some path => [(path, meta)]
               | None => []
               end).
Proof.
  split.
  - rewrite <- (means_loop_is_Ok f (load_meta f) (datasets f)).
    unfold summarize_means.
    destruct (means_loop f (load_meta f) (datasets f)); cbn;
      [|reflexivity..].
    destruct out_path; reflexivity.
  - intros meta log. unfold summarize_means.
    destruct (means_loop f (load_meta f) (datasets f)); cbn; [|done..].
    destruct out_path; by intros [= <- <-].
Qed.

Lemma load_meta_names f :
  (load_meta f).*1
  = (if bool_decide ("gid" ∈ (meta_columns f).*1) then [] else ["gid"])
    ++ (meta_columns f).*1.
Proof.
  unfold load_meta.
  assert (Hnames : (map (λ '(name, vals), (name, MetaCell (V:=V) <$> vals))
                        (meta_columns f)).*1 = (meta_columns f).*1).
  { induction (meta_columns f) as [|[n v] l IH]; cbn; [done|]. by rewrite IH. }
  rewrite Hnames. case_bool_decide; cbn; by rewrite ?Hnames.
Qed.

Lemma means_loop_names f meta0 meta names :
  means_loop f meta0 names = Ok meta →
  (∃ added, meta.*1 = meta0.*1 ++ added)
  ∧ (∀ c, c ∈ meta.*1 ↔ c ∈ meta0.*1 ∨ (c ∈ names ∧ is_vector f c = true))
  ∧ (NoDup (meta0.*1) → NoDup (meta.*1)).
Proof.
  revert meta0. induction names as [|n names IH]; intros meta0.
  { intros [= <-]. split; [exists []; by rewrite app_nil_r|].
    split; [|done]. intros c. split; [by left|].
    intros [?|[Hc _]]; [done|]. by apply elem_of_nil in Hc. }
  cbn [means_loop].
  destruct (add_means f meta0 n) as [meta1| |] eqn:Hadd; cbn; [|done..].
  intros Hloop. destruct (IH _ Hloop) as ([added Hadded] & Hiff & Hnodup).
  apply add_means_Ok in Hadd as [[Hvec ->]|(d & Hd & Hvec & ->)].
  - split; [by exists added|]. split; [|done].
    intros c. rewrite Hiff. split.
    + intros [?|[Hc Hv]]; [by left|]. right. split; [set_solver|done].
    + intros [?|[Hc Hv]]; [by left|].
      apply elem_of_cons in Hc as [->|Hc]; [congruence|]. by right.
  - rewrite set_column_names in Hadded, Hiff, Hnodup.
    case_bool_decide as Hin.
    + split; [by exists added|]. split; [|done].
      intros c. rewrite Hiff. split.
      * intros [?|[Hc Hv]]; [by left|]. right. split; [set_solver|done].
      * intros [?|[Hc Hv]]; [by left|].
        apply elem_of_cons in Hc as [->|Hc]; [by left|]. by right.
    + split; [exists ([n] ++ added); by rewrite Hadded, app_assoc|]. split.
      * intros c. rewrite Hiff. rewrite elem_of_app, list_elem_of_singleton.
        split.
        -- intros [[?| ->]|[Hc Hv]]; [by left|right|right].
           ++ split; [set_solver|done].
           ++ split; [set_solver|done].
        -- intros [?|[Hc Hv]]; [by left; left|].
           apply elem_of_cons in Hc as [->|Hc]; [by left; right|]. by right.
      * intros Hnd. apply Hnodup. apply NoDup_app. split; [done|].
        split; [|apply NoDup_singleton].
        intros c Hc Hc'. apply list_elem_of_singleton in Hc' as ->. done.
Qed.

(** X18.  The table of [summarize_means] has the columns of [meta] in
    their order, after a first column ['gid'] when [meta] has none of this
    name, and after them the columns it adds.  A name is a column of it
    exactly when it is ['gid'], a column of [meta], or a listed 1-D dataset
    other than ['meta'] and ['time_index']: datasets of two dimensions are
    never taken in.  No column name is repeated if none is in [meta]. *)
Theorem summarize_means_columns f (out_path : option string) meta log :
  summarize_means f out_path = Ok (meta, log) →
  (∃ added,
     meta.*1
     = (if bool_decide ("gid" ∈ (meta_columns f).*1) then [] else ["gid"])
       ++ (meta_columns f).*1 ++ added)
  ∧ (∀ c, c ∈ meta.*1
          ↔ c = "gid" ∨ c ∈ (meta_columns f).*1
            ∨ (c ∈ datasets f ∧ is_vector f c = true))
  ∧ (NoDup ((meta_columns f).*1) → NoDup (meta.*1)).
Proof.
  unfold summarize_means.
  destruct (means_loop f (load_meta f) (datasets f)) as [meta'| |] eqn:Hloop;
    cbn; [|done..].
  intros Hret. assert (meta' = meta) as -> by (by destruct out_path; injection Hret).
  destruct (means_loop_names _ _ _ _ Hloop) as ([added Hadded] & Hiff & Hnodup).
  rewrite load_meta_names in Hadded, Hiff, Hnodup.
  split; [exists added; by rewrite Hadded, app_assoc|]. split.
  - intros c. rewrite Hiff. case_bool_decide as Hgid; cbn.
    + split.
      * intros [?|?]; [by right; left|by right; right].
      * intros [->|[?|?]]; [by left|by left|by right].
    + rewrite elem_of_cons. tauto.
  - intros Hnd. apply Hnodup. case_bool_decide as Hgid; [done|]. cbn.
    by apply NoDup_cons.
Qed.

Lemma means_loop_values f meta0 meta names :
  means_loop f meta0 names = Ok meta →
  ∀ c,
    (c ∈ names → is_vector f c = true →
     ∃ d, dsets (handler f) !! c = Some d
          ∧ get_column meta c = Some (DataCell <$> dset_series d))
    ∧ (¬ (c ∈ names ∧ is_vector f c = true) →
       get_column meta c = get_column meta0 c).
Proof.
  revert meta0. induction names as [|n names IH]; intros meta0.
  { intros [= <-] c. split; [|done]. intros Hc. by apply elem_of_nil in Hc. }
  cbn [means_loop].
  destruct (add_means f meta0 n) as [meta1| |] eqn:Hadd; cbn; [|done..].
  intros Hloop c. destruct (IH _ Hloop c) as [Hin Hout].
  apply add_means_Ok in Hadd as [[Hvec ->]|(d & Hd & Hvec & ->)].
  - split.
    + intros Hc Hv. apply elem_of_cons in Hc as [->|Hc]; [congruence|].
      by apply Hin.
    + intros Hnot. apply Hout. intros [Hc Hv]. apply Hnot.
      split; [set_solver|done].
  - split.
    + intros Hc Hv. destruct (decide (c ∈ names)) as [Hc'|Hc'].
      { by apply Hin. }
      apply elem_of_cons in Hc as [->|Hc]; [|done].
      exists d. split; [done|]. rewrite Hout by tauto.
      apply get_column_set_eq.
    + intros Hnot. rewrite Hout.
      * apply get_column_set_ne. intros <-. apply Hnot.
        split; [set_solver|done].
      * intros [Hc Hv]. apply Hnot. split; [set_solver|done].
Qed.

(** X19.  In the table of [summarize_means] the column of a listed 1-D
    dataset holds the values of the dataset, also when [meta] had a column of
    this name, which is replaced; every other column is as [meta] has it. *)
Theorem summarize_means_values f (out_path : option string) meta log
    (c : string) :
  summarize_means f out_path = Ok (meta, log) →
  (c ∈ datasets f → is_vector f c = true →
   ∃ d, dsets (handler f) !! c = Some d
        ∧ get_column meta c = Some (DataCell <$> dset_series d))
  ∧ (¬ (c ∈ datasets f ∧ is_vector f c = true) →
     get_column meta c = get_column (load_meta f) c).
Proof.
  unfold summarize_means.
  destruct (means_loop f (load_meta f) (datasets f)) as [meta'| |] eqn:Hloop;
    cbn; [|done..].
  intros Hret. assert (meta' = meta) as -> by (by destruct out_path; injection Hret).
  exact (means_loop_values _ _ _ _ Hloop c).
Qed.

End SummarizeMeansFacts.

Lemma summarize_means_succeeds_iff_witness :
  summarize_means ex_file (Some "qa/gen_summary.csv")
  = Ok (ex_means_table, [("qa/gen_summary.csv", ex_means_table)])
  ∧ summarize_means ex_file None = Ok (ex_means_table, []).
Proof.
  split; [reflexivity|].
  exact (proj1 (proj2 (summarize_means_succeeds_iff ex_file
                         (Some "qa/gen_summary.csv"))
                  ex_means_table [("qa/gen_summary.csv", ex_means_table)]
                  eq_refl)).
Defined.

Lemma summarize_means_columns_witness :
  summarize_means ex_file None = Ok (ex_means_table, [])
  ∧ (∃ added,
       ex_means_table.*1
       = (if bool_decide ("gid" ∈ (meta_columns ex_file).*1)
          then [] else ["gid"])
         ++ (meta_columns ex_file).*1 ++ added).
Proof.
  split; [reflexivity|].
  exact (proj1 (summarize_means_columns ex_file None ex_means_table []
                  eq_refl)).
Defined.

Lemma summarize_means_values_witness :
  summarize_means ex_file None = Ok (ex_means_table, [])
  ∧ "cf_mean" ∈ datasets ex_file
  ∧ is_vector ex_file "cf_mean" = true
  ∧ ∃ d, dsets (handler ex_file) !! "cf_mean" = Some d
         ∧ get_column ex_means_table "cf_mean"
           = Some (DataCell <$> dset_series d).
Proof.
  assert (Hin : "cf_mean" ∈ datasets ex_file).
  { apply elem_of_cons. by left. }
  split; [reflexivity|]. split; [exact Hin|]. split; [reflexivity|].
  exact (proj1 (summarize_means_values ex_file None ex_means_table []
                  "cf_mean" eq_refl) Hin eq_refl).
Defined.

(** ** [Summarize.run] *)

Section RunFacts.
Context {V Stats M : Type}.
Variable describe : list V → Stats.
Variable zero : V.
Variable add : V → V → V.
Variable path_exists : string → bool.
Variable Resource_open : option string → ResourceFile (V:=V) (M:=M).

Lemma summarize_dset_None_workers (f : Resource) (ds_name : string)
    (d : Dataset) (process_size : option Z) (out_path : option string)
    (sched : list nat) :
  dsets f !! ds_name = Some d →
  process_size = None ∨ (1 < length (shape d))%nat →
  summarize_dset describe zero add f ds_name process_size None out_path sched
  = Raise (TypeError
             "'>' not supported between instances of 'NoneType' and 'int'").
Proof.
  intros Hd Hcase. unfold summarize_dset, get_dset_properties. rewrite Hd. cbn.
  destruct (decide (1 < length (shape d))%nat) as [H2|H1]; [done|].
  destruct Hcase as [->|?]; [done|lia].
Qed.

(** X20.  [run] with [max_workers] left at its default [None] fails on the
    first dataset it is to summarise, with the [TypeError] of comparing
    [None] with 1, when [process_size] is [None] too or the dataset has two
    dimensions: the output directory is made, no file is written. *)
Theorem run_default_workers_fail (h5_file out_dir : string)
    (group : option string) (dsets_arg : DsetsArg) (process_size : option Z)
    (scheds : nat → list nat) (ds_name : string) (rest : list string)
    (d : Dataset) :
  resolve_dsets Resource_open group dsets_arg = ds_name :: rest →
  dsets (handler (Resource_open None)) !! ds_name = Some d →
  process_size = None ∨ (1 < length (shape d))%nat →
  run describe zero add path_exists Resource_open h5_file out_dir group
      dsets_arg process_size None scheds
  = Eff (if path_exists out_dir then [] else [Makedirs out_dir])
        (Raise (TypeError
                  "'>' not supported between instances of 'NoneType' and 'int'")).
Proof.
  intros Hdsets Hd Hcase. unfold run. rewrite Hdsets.
  cbn [run_dsets]. rewrite (summarize_dset_None_workers _ _ d) by done.
  by destruct (path_exists out_dir).
Qed.

(** The loop of [run] stops at the first name the file does not have: what
    was done for the names before it stays done, and the names after it are
    not looked at. *)
Lemma run_dsets_missing (summary : ResourceFile (V:=V) (M:=M))
    (out_dir : string) (process_size max_workers : option Z)
    (scheds : nat → list nat) (i : nat) (before : list string)
    (ds_name : string) (rest : list string) (effs : list RunEffect) :
  run_dsets describe zero add summary out_dir process_size max_workers
            scheds i before
  = Eff effs (Ok ()) →
  dsets (handler summary) !! ds_name = None →
  run_dsets describe zero add summary out_dir process_size max_workers
            scheds i (before ++ ds_name :: rest)
  = Eff effs (Raise (KeyError ds_name)).
Proof.
  intros Hbefore Hnone. revert i effs Hbefore.
  induction before as [|n before IH]; intros i effs Hbefore.
  - injection Hbefore as <-. cbn [app run_dsets].
    unfold summarize_dset, get_dset_properties. by rewrite Hnone.
  - cbn [app run_dsets] in *.
    destruct (summarize_dset describe zero add (handler summary) n
                process_size max_workers
                (Some (path_join out_dir (n +:+ "_summary.csv"))) (scheds i))
      as [[df log]|e|]; cbn [of_logged] in *; [|done..].
    rewrite eff_bind_Ok in *.
    destruct (run_dsets describe zero add summary out_dir process_size
                max_workers scheds (S i) before) as [effs' ret] eqn:Hloop.
    cbn in Hbefore. injection Hbefore as <- ->.
    by rewrite (IH (S i) effs').
Qed.

(** X21.  The instance [run] works with is made without the group, so the
    tables are those of the datasets at the root of the file whatever
    [group] is: [group] only selects the names when [dsets] is [None].  A
    name to summarise that the root does not have ends the run with
    [KeyError] when the loop reaches it: before any file is written when it
    is the first name; otherwise, when the names before it were summarised,
    after what was done for them (their files are written) and before
    anything else, the later names and the table of the means included. *)
Theorem run_reads_root_group (h5_file out_dir : string)
    (group : option string) (process_size max_workers : option Z)
    (scheds : nat → list nat) :
  (∀ dsets_arg, dsets_arg ≠ DsetsNone →
     run describe zero add path_exists Resource_open h5_file out_dir group
         dsets_arg process_size max_workers scheds
     = run describe zero add path_exists Resource_open h5_file out_dir None
           dsets_arg process_size max_workers scheds)
  ∧ run describe zero add path_exists Resource_open h5_file out_dir group
        DsetsNone process_size max_workers scheds
    = run describe zero add path_exists Resource_open h5_file out_dir None
          (DsetsList (filter (λ dset, dset ∉ reserved)
                             (datasets (Resource_open group))))
          process_size max_workers scheds
  ∧ (∀ dsets_arg ds_name rest,
       resolve_dsets Resource_open group dsets_arg = ds_name :: rest →
       dsets (handler (Resource_open None)) !! ds_name = None →
       run describe zero add path_exists Resource_open h5_file out_dir group
           dsets_arg process_size max_workers scheds
       = Eff (if path_exists out_dir then [] else [Makedirs out_dir])
             (Raise (KeyError ds_name)))
  ∧ (∀ dsets_arg before ds_name rest effs,
       resolve_dsets Resource_open group dsets_arg
       = before ++ ds_name :: rest →
       run_dsets describe zero add (Resource_open None) out_dir process_size
                 max_workers scheds 0 before
       = Eff effs (Ok ()) →
       dsets (handler (Resource_open None)) !! ds_name = None →
       run describe zero add path_exists Resource_open h5_file out_dir group
           dsets_arg process_size max_workers scheds
       = Eff ((if path_exists out_dir then [] else [Makedirs out_dir]) ++ effs)
             (Raise (KeyError ds_name))).
Proof.
  split; [|split; [|split]].
  - intros dsets_arg Hne. by destruct dsets_arg.
  - reflexivity.
  - intros dsets_arg ds_name rest Hdsets Hnone. unfold run. rewrite Hdsets.
    cbn [run_dsets]. unfold summarize_dset, get_dset_properties.
    rewrite Hnone. by destruct (path_exists out_dir).
  - intros dsets_arg before ds_name rest effs Hdsets Hbefore Hnone.
    unfold run. rewrite Hdsets.
    rewrite (run_dsets_missing _ _ _ _ _ _ _ _ _ effs) by done.
    by destruct (path_exists out_dir).
Qed.

Lemma summarize_dset_serial_summary (f : Resource) (ds_name : string)
    (d : Dataset) (w : Z) (out_path : string) (sched : list nat) :
  dsets f !! ds_name = Some d →
  w ≤ 1 →
  summarize_dset describe zero add f ds_name None (Some w) (Some out_path)
                 sched
  = Ok (dset_summary describe zero add f ds_name d,
        [ToCsv out_path (dset_summary describe zero add f ds_name d)]).
Proof.
  intros Hd Hw. unfold dset_summary.
  destruct (decide (1 < length (shape d))%nat) as [H2|H1].
  - by rewrite (summarize_dset_single_pass describe zero add f ds_name d).
  - rewrite (summarize_dset_1d_quiet describe zero add f ds_name d) by
      (done || lia).
    reflexivity.
Qed.

Lemma run_dsets_serial (summary : ResourceFile (V:=V) (M:=M))
    (out_dir : string) (w : Z) (scheds : nat → list nat) (i : nat)
    (names : list string) (table : string → DataFrame) :
  w ≤ 1 →
  (∀ ds_name, ds_name ∈ names →
     ∃ d, dsets (handler summary) !! ds_name = Some d
          ∧ table ds_name
            = dset_summary describe zero add (handler summary) ds_name d) →
  run_dsets describe zero add summary out_dir None (Some w) scheds i names
  = Eff (map (λ ds_name,
                DsetEffect
                  (ToCsv (path_join out_dir (ds_name +:+ "_summary.csv"))
                         (table ds_name)))
             names)
        (Ok ()).
Proof.
  intros Hw. revert i. induction names as [|n names IH]; intros i Hall.
  { reflexivity. }
  cbn [run_dsets map].
  destruct (Hall n) as (d & Hd & Htable); [set_solver|].
  rewrite (summarize_dset_serial_summary _ _ d) by done.
  cbn [of_logged]. rewrite eff_bind_Ok.
  rewrite IH by (intros ds Hds; apply Hall; set_solver).
  cbn. by rewrite Htable.
Qed.

Lemma run_serial_eq (h5_file out_dir : string) (group : option string)
    (dsets_arg : DsetsArg) (w : Z) (scheds : nat → list nat)
    (table : string → DataFrame) :
  w ≤ 1 →
  (∀ ds_name, ds_name ∈ resolve_dsets Resource_open group dsets_arg →
     ∃ d, dsets (handler (Resource_open None)) !! ds_name = Some d
          ∧ table ds_name
            = dset_summary describe zero add (handler (Resource_open None))
                           ds_name d) →
  run describe zero add path_exists Resource_open h5_file out_dir group
      dsets_arg None (Some w) scheds
  = Eff ((if path_exists out_dir then [] else [Makedirs out_dir])
         ++ map (λ ds_name,
                   DsetEffect
                     (ToCsv (path_join out_dir (ds_name +:+ "_summary.csv"))
                            (table ds_name)))
                (resolve_dsets Resource_open group dsets_arg)
         ++ match summarize_means (Resource_open None) None with
            | Ok (meta, _) =>
                [MeansToCsv
                   (path_join out_dir
                      (py_replace (basename h5_file) ".h5" "_summary.csv"))
                   meta]
            | _ => []
            end)
        (_ ← summarize_means (Resource_open None) None; Ok ()).
Proof.
  intros Hw Hall. unfold run.
  rewrite (run_dsets_serial _ _ _ _ _ _ table) by done.
  unfold summarize_means.
  destruct (means_loop (Resource_open None) (load_meta (Resource_open None))
                       (datasets (Resource_open None))) as [meta| |];
    destruct (path_exists out_dir); cbn; by rewrite ?app_nil_r.
Qed.

(** The summaries of the datasets at the root of the file. *)
Lemma root_summaries (names : list string) :
  (∀ ds_name, ds_name ∈ names →
              is_Some (dsets (handler (Resource_open None)) !! ds_name)) →
  ∃ table : string → DataFrame,
    (∀ ds_name d,
       dsets (handler (Resource_open None)) !! ds_name = Some d →
       table ds_name
       = dset_summary describe zero add (handler (Resource_open None))
                      ds_name d)
    ∧ (∀ ds_name, ds_name ∈ names →
         ∃ d, dsets (handler (Resource_open None)) !! ds_name = Some d
              ∧ table ds_name
                = dset_summary describe zero add
                    (handler (Resource_open None)) ds_name d).
Proof.
  intros Hall.
  exists (λ ds_name,
            match dsets (handler (Resource_open None)) !! ds_name with
            | Some d =>
                dset_summary describe zero add (handler (Resource_open None))
                             ds_name d
            | None => SitesSummary "" []
            end).
  split. { intros ds_name d Hd. by rewrite Hd. }
  intros ds Hds. destruct (Hall ds Hds) as [d Hd]. exists d. by rewrite Hd.
Qed.

(** X22.  A serial [run] ([max_workers <= 1], no [process_size]) over
    datasets that are all in the file writes one file per dataset, in the
    order of [dsets], [<out_dir>/<dataset>_summary.csv] holding the summary
    of that dataset, and after them the table of [summarize_means] under the
    name of the .h5 file with ['.h5'] replaced by ['_summary.csv']; it ends
    as [summarize_means] does. *)
Theorem run_serial_writes_each (h5_file out_dir : string)
    (group : option string) (dsets_arg : DsetsArg) (w : Z)
    (scheds : nat → list nat) :
  w ≤ 1 →
  (∀ ds_name, ds_name ∈ resolve_dsets Resource_open group dsets_arg →
              is_Some (dsets (handler (Resource_open None)) !! ds_name)) →
  ∃ table : string → DataFrame,
    (∀ ds_name d,
       dsets (handler (Resource_open None)) !! ds_name = Some d →
       table ds_name
       = dset_summary describe zero add (handler (Resource_open None))
                      ds_name d)
    ∧ effects (run describe zero add path_exists Resource_open h5_file
                   out_dir group dsets_arg None (Some w) scheds)
      = (if path_exists out_dir then [] else [Makedirs out_dir])
        ++ map (λ ds_name,
                  DsetEffect
                    (ToCsv (path_join out_dir (ds_name +:+ "_summary.csv"))
                           (table ds_name)))
               (resolve_dsets Resource_open group dsets_arg)
        ++ match summarize_means (Resource_open None) None with
           | Ok (meta, _) =>
               [MeansToCsv
                  (path_join out_dir
                     (py_replace (basename h5_file) ".h5" "_summary.csv"))
                  meta]
           | _ => []
           end
    ∧ returned (run describe zero add path_exists Resource_open h5_file
                    out_dir group dsets_arg None (Some w) scheds)
      = (_ ← summarize_means (Resource_open None) None; Ok ()).
Proof.
  intros Hw Hall.
  destruct (root_summaries _ Hall) as (table & Htable & Hnames).
  exists table. split; [exact Htable|].
  by rewrite (run_serial_eq _ _ _ _ _ _ table).
Qed.

(** X23.  When the .h5 file is named after one of the datasets that are
    summarised, [dir/<dataset>.h5], the table of [summarize_means] is written
    to the path the summary of that dataset was written to before:
    [<out_dir>/<dataset>_summary.csv] is overwritten. *)
Theorem run_means_overwrites_namesake (dir stem out_dir : string)
    (group : option string) (dsets_arg : DsetsArg) (w : Z)
    (scheds : nat → list nat) (meta : MeansTable) :
  w ≤ 1 →
  (∀ ds_name, ds_name ∈ resolve_dsets Resource_open group dsets_arg →
              is_Some (dsets (handler (Resource_open None)) !! ds_name)) →
  py_in "/" stem = false →
  py_in "." stem = false →
  stem ∈ resolve_dsets Resource_open group dsets_arg →
  summarize_means (Resource_open None) None = Ok (meta, []) →
  ∃ before after d,
    dsets (handler (Resource_open None)) !! stem = Some d
    ∧ run describe zero add path_exists Resource_open
          (dir +:+ "/" +:+ stem +:+ ".h5") out_dir group dsets_arg None
          (Some w) scheds
      = Eff (before
             ++ DsetEffect
                  (ToCsv (path_join out_dir (stem +:+ "_summary.csv"))
                         (dset_summary describe zero add
                            (handler (Resource_open None)) stem d))
                :: after
             ++ [MeansToCsv (path_join out_dir (stem +:+ "_summary.csv"))
                            meta])
            (Ok ()).
Proof.
  intros Hw Hall Hslash Hdot Hstem Hmeans.
  destruct (root_summaries _ Hall) as (table & Htable & Hnames).
  rewrite (run_serial_eq _ _ _ _ _ _ table) by done.
  rewrite Hmeans. unfold py_replace.
  rewrite basename_dir by (by apply py_in_char_app).
  rewrite replace_from_suffix by done.
  apply list_elem_of_split in Hstem as (l1 & l2 & Hsplit). rewrite Hsplit.
  destruct (Hall stem) as [d Hd]; [rewrite Hsplit; set_solver|].
  exists ((if path_exists out_dir then [] else [Makedirs out_dir])
          ++ map (λ ds_name,
                    DsetEffect
                      (ToCsv (path_join out_dir (ds_name +:+ "_summary.csv"))
                             (table ds_name))) l1),
         (map (λ ds_name,
                 DsetEffect
                   (ToCsv (path_join out_dir (ds_name +:+ "_summary.csv"))
                          (table ds_name))) l2), d.
  split; [exact Hd|]. rewrite map_app. cbn [map].
  rewrite (Htable stem d Hd). cbn. by rewrite <- !app_assoc.
Qed.

End RunFacts.

Lemma ex_resolve_dsets :
  resolve_dsets ex_Resource_open (Some "wind") DsetsNone
  = "cf_mean" :: ["cf_profile"].
Proof. reflexivity. Qed.

Lemma ex_dsets_in_file (ds_name : string) :
  ds_name ∈ resolve_dsets ex_Resource_open (Some "wind") DsetsNone →
  is_Some (dsets (handler (ex_Resource_open None)) !! ds_name).
Proof.
  rewrite ex_resolve_dsets. intros Hds.
  apply elem_of_cons in Hds as [->|Hds]; [by eexists|].
  apply list_elem_of_singleton in Hds as ->. by eexists.
Qed.

Lemma run_default_workers_fail_witness :
  resolve_dsets ex_Resource_open (Some "wind") DsetsNone
  = "cf_mean" :: ["cf_profile"]
  ∧ dsets (handler (ex_Resource_open None)) !! "cf_mean" = Some ex_mean
  ∧ ex_run (Some "wind") DsetsNone None None (λ _, [])
    = Eff [Makedirs "qa"]
          (Raise (TypeError
                    "'>' not supported between instances of 'NoneType' and 'int'")).
Proof.
  split; [reflexivity|]. split; [reflexivity|].
  exact (run_default_workers_fail ex_describe 0 Z.add (λ _, false)
           ex_Resource_open "out/gen_2015.h5" "qa" (Some "wind") DsetsNone
           None (λ _, []) "cf_mean" ["cf_profile"] ex_mean
           eq_refl eq_refl (or_introl eq_refl)).
Defined.

(** A run over ["cf_mean"] and then ["lcoe"], which the file does not have:
    the summary of ["cf_mean"] is written, then the run ends with
    [KeyError]. *)
Lemma run_reads_root_group_witness :
  resolve_dsets ex_Resource_open (Some "wind") (DsetsList ["cf_mean"; "lcoe"])
  = ["cf_mean"] ++ "lcoe" :: []
  ∧ dsets (handler (ex_Resource_open None)) !! "lcoe" = None
  ∧ ex_run (Some "wind") (DsetsList ["cf_mean"; "lcoe"]) None (Some 1)
           (λ _, [])
    = Eff [Makedirs "qa";
           DsetEffect (ToCsv "qa/cf_mean_summary.csv"
                             (DsSummary "cf_mean" (0, 28) 70))]
          (Raise (KeyError "lcoe"))
  ∧ ex_run (Some "wind") (DsetsStr "lcoe") None (Some 1) (λ _, [])
    = Eff [Makedirs "qa"] (Raise (KeyError "lcoe")).
Proof.
  split; [reflexivity|]. split; [reflexivity|].
  destruct (run_reads_root_group ex_describe 0 Z.add (λ _, false)
              ex_Resource_open "out/gen_2015.h5" "qa"
              (Some "wind") None (Some 1) (λ _, []))
    as (_ & _ & Hfirst & Hlater).
  split.
  - exact (Hlater (DsetsList ["cf_mean"; "lcoe"]) ["cf_mean"] "lcoe" []
                  [DsetEffect (ToCsv "qa/cf_mean_summary.csv"
                                     (DsSummary "cf_mean" (0, 28) 70))]
                  eq_refl eq_refl eq_refl).
  - exact (Hfirst (DsetsStr "lcoe") "lcoe" [] eq_refl eq_refl).
Defined.

Lemma run_serial_writes_each_witness :
  1 ≤ 1
  ∧ ∃ table : string → DataFrame,
      (∀ ds_name d,
         dsets (handler (ex_Resource_open None)) !! ds_name = Some d →
         table ds_name
         = dset_summary ex_describe 0 Z.add (handler (ex_Resource_open None))
                        ds_name d)
      ∧ effects (ex_run (Some "wind") DsetsNone None (Some 1) (λ _, []))
        = [Makedirs "qa";
           DsetEffect (ToCsv "qa/cf_mean_summary.csv" (table "cf_mean"));
           DsetEffect (ToCsv "qa/cf_profile_summary.csv"
                             (table "cf_profile"));
           MeansToCsv "qa/gen_2015_summary.csv" ex_means_table]
      ∧ returned (ex_run (Some "wind") DsetsNone None (Some 1) (λ _, []))
        = Ok ().
Proof.
  split; [lia|].
  destruct (run_serial_writes_each ex_describe 0 Z.add (λ _, false)
              ex_Resource_open "out/gen_2015.h5" "qa" (Some "wind") DsetsNone
              1 (λ _, []) ltac:(lia) ex_dsets_in_file)
    as (table & Htable & Heff & Hret).
  exists table. split; [exact Htable|]. split; [exact Heff|exact Hret].
Defined.

Lemma run_means_overwrites_namesake_witness :
  py_in "/" "cf_mean" = false
  ∧ py_in "." "cf_mean" = false
  ∧ summarize_means (ex_Resource_open None) None = Ok (ex_means_table, [])
  ∧ ∃ before after d,
      dsets (handler (ex_Resource_open None)) !! "cf_mean" = Some d
      ∧ run ex_describe 0 Z.add (λ _, false) ex_Resource_open
            ("out" +:+ "/" +:+ "cf_mean" +:+ ".h5") "qa" (Some "wind")
            DsetsNone None (Some 1) (λ _, [])
        = Eff (before
               ++ DsetEffect
                    (ToCsv (path_join "qa" ("cf_mean" +:+ "_summary.csv"))
                           (dset_summary ex_describe 0 Z.add
                              (handler (ex_Resource_open None)) "cf_mean" d))
                  :: after
               ++ [MeansToCsv (path_join "qa" ("cf_mean" +:+ "_summary.csv"))
                              ex_means_table])
              (Ok ()).
Proof.
  split; [reflexivity|]. split; [reflexivity|]. split; [reflexivity|].
  apply (run_means_overwrites_namesake ex_describe 0 Z.add (λ _, false)
           ex_Resource_open "out" "cf_mean" "qa" (Some "wind") DsetsNone 1
           (λ _, []) ex_means_table).
  - lia.
  - exact ex_dsets_in_file.
  - reflexivity.
  - reflexivity.
  - rewrite ex_resolve_dsets. apply elem_of_cons. by left.
  - reflexivity.
Defined.

(** ** The generation CLI *)

Lemma cmd_eta {A} (m : cmd A) : Cmd (did m) (ended m) = m.
Proof. by destruct m. Qed.

Lemma cmd_bind_Returns {A B} (k : A → cmd B) (log : list CliEffect) (a : A) :
  (Cmd log (Returns a) ≫= k) = Cmd (log ++ did (k a)) (ended (k a)).
Proof. reflexivity. Qed.

Lemma cmd_bind_ret {A B} (k : A → cmd B) (a : A) :
  (Cmd [] (Returns a) ≫= k) = k a.
Proof. rewrite cmd_bind_Returns. apply cmd_eta. Qed.

Lemma cmd_bind_mret {A B} (k : A → cmd B) (a : A) : (mret a ≫= k) = k a.
Proof. apply cmd_bind_ret. Qed.

Lemma lift_Ok_bind {A B} (k : A → cmd B) (a : A) : (lift (Ok a) ≫= k) = k a.
Proof. apply cmd_bind_ret. Qed.

Lemma does_bind {B} (k : unit → cmd B) (e : CliEffect) :
  (does e ≫= k) = Cmd (e :: did (k ())) (ended (k ())).
Proof. reflexivity. Qed.

Lemma config_verbose_absorbs (config : GenConfig) (verbose v : bool) :
  config_verbose config verbose v || v = config_verbose config verbose v.
Proof.
  unfold config_verbose. case_bool_decide; [done|].
  by destruct verbose, v.
Qed.

Section CLIFacts.
Variable PBS_s : pyval → string.
Variable qsub : string → string → string → string → string → option string.
Variable project_points_sites : pyval → pyval → pyval → pyval → list Z.
Variable points_control : list Z → Z → list Split.
Variable run_direct : RunDirectArgs → result unit.

(** A configured [ctx.obj] without ['fout']: [local] and [peregrine] stop at
    its read. *)
Lemma read_ctx_no_fout (config : GenConfig) (v : bool) (obj : CtxObj)
    (name : string) (res_file sites_per_core : pyval) :
  configured config v obj →
  obj_name obj = Some name →
  obj_res_file obj = Some res_file →
  obj_sites_per_core obj = Some sites_per_core →
  obj_fout obj = None →
  read_ctx obj = Raise (KeyError "fout").
Proof.
  intros (Hv & Ht & Hp & Hs & Hd & Hl & Hc) Hn Hr Hspc Hf.
  unfold read_ctx. by rewrite Hn, Ht, Hp, Hs, Hr, Hspc, Hf.
Qed.

Lemma read_ctx_configured (config : GenConfig) (v : bool) (obj : CtxObj)
    (name fout : string) (res_file sites_per_core : pyval) :
  configured config v obj →
  obj_name obj = Some name →
  obj_res_file obj = Some res_file →
  obj_sites_per_core obj = Some sites_per_core →
  obj_fout obj = Some fout →
  read_ctx obj
  = Ok {| ctx_name := name; ctx_tech := cfg_tech config;
          ctx_points := cfg_project_points config;
          ctx_sam_files := cfg_sam_gen config; ctx_res_file := res_file;
          ctx_sites_per_core := sites_per_core; ctx_fout := fout;
          ctx_dirout := PyStr (cfg_dirout config);
          ctx_logdir := PyStr (cfg_logdir config);
          ctx_cf_profiles := cfg_write_profiles config; ctx_verbose := v |}.
Proof.
  intros (Hv & Ht & Hp & Hs & Hd & Hl & Hc) Hn Hr Hspc Hf.
  unfold read_ctx. by rewrite Hn, Ht, Hp, Hs, Hr, Hspc, Hf, Hd, Hl, Hc, Hv.
Qed.

(** What [from_config] does before the loop, after [main]. *)
Lemma from_config_after_main (config : GenConfig) (name : string)
    (v verbose : bool) :
  ∃ obj,
    configured config v obj
    ∧ obj_name obj = Some name
    ∧ obj_fout obj = None
    ∧ obj_sites_per_core obj = Some (cfg_sites_per_core config)
    ∧ from_config PBS_s qsub project_points_sites points_control run_direct
        (main empty_obj name v) config verbose
      = Cmd ([InitGenLoggers (config_verbose config verbose v) name
                (PyStr (cfg_logdir config))
                ["reV.config"; "reV.generation"; "reV.execution"]]
             ++ did (from_config_years PBS_s qsub project_points_sites
                       points_control run_direct config name
                       (config_verbose config verbose v) 0 (cfg_years config)
                       obj))
            (ended (from_config_years PBS_s qsub project_points_sites
                      points_control run_direct config name
                      (config_verbose config verbose v) 0 (cfg_years config)
                      obj)).
Proof.
  eexists. split; [|split; [|split; [|split]]]; cycle 4.
  - reflexivity.
  - by repeat split.
  - reflexivity.
  - reflexivity.
  - reflexivity.
Qed.

(** X24.  A job name that already has a year in it makes [from_config]
    fail: ['fout'] is only stored when the year is added to the name, so the
    run of the first year, local or on Peregrine, ends in [KeyError('fout')]
    when it reads [ctx.obj], after the loggers were set up and the year was
    announced and before anything is run or submitted. *)
Theorem from_config_named_year_fails (config : GenConfig) (name : string)
    (v verbose : bool) (year : Z) (years : list Z) (res_file : string) :
  re_match_year name = true →
  cfg_years config = year :: years →
  cfg_res_files config !! 0%nat = Some res_file →
  py_in (pretty year) res_file = true →
  (cfg_option config = "local" ∧ cfg_ppn config ≠ 0)
  ∨ cfg_option config = "peregrine" →
  from_config PBS_s qsub project_points_sites points_control run_direct
    (main empty_obj name v) config verbose
  = Cmd [InitGenLoggers (config_verbose config verbose v) name
           (PyStr (cfg_logdir config))
           ["reV.config"; "reV.generation"; "reV.execution"];
         Echo (year_msg year res_file)]
        (Raises (Builtin (KeyError "fout"))).
Proof.
  intros Hname Hyears Hres Hin Hopt.
  destruct (from_config_after_main config name v verbose)
    as (obj & Hcfg & Hn & Hf & Hspc & ->).
  rewrite Hyears. cbn [from_config_years]. rewrite Hres, Hname.
  rewrite cmd_bind_mret. unfold run_year. rewrite Hin. cbn [negb].
  rewrite does_bind.
  destruct Hopt as [[Hlocal Hppn]|Hper].
  - rewrite bool_decide_eq_true_2 by done.
    unfold ceil_div. rewrite (proj2 (Z.eqb_neq _ _) Hppn).
    rewrite lift_Ok_bind. unfold local.
    rewrite (read_ctx_no_fout config v _ name (PyStr res_file)
               (PyInt (- (- Z.of_nat (cfg_n_points config) / cfg_ppn config))));
      [reflexivity| |done..].
    destruct Hcfg as (? & ? & ? & ? & ? & ? & ?). by repeat split.
  - rewrite bool_decide_eq_false_2 by (rewrite Hper; discriminate).
    rewrite bool_decide_eq_true_2 by done.
    unfold peregrine_cmd.
    rewrite (read_ctx_no_fout config v _ name (PyStr res_file)
               (cfg_sites_per_core config));
      [reflexivity| |done..].
    destruct Hcfg as (? & ? & ? & ? & ? & ? & ?). by repeat split.
Qed.

Lemma configured_set_res_file (config : GenConfig) (v : bool) (obj : CtxObj)
    (res_file : string) :
  configured config v obj → configured config v (set_res_file obj res_file).
Proof. by intros (? & ? & ? & ? & ? & ? & ?). Qed.

Lemma configured_set_year_names (config : GenConfig) (v : bool) (obj : CtxObj)
    (name : string) (year : Z) :
  configured config v obj → configured config v (set_year_names obj name year).
Proof. by intros (? & ? & ? & ? & ? & ? & ?). Qed.

Lemma configured_set_sites_per_core (config : GenConfig) (v : bool)
    (obj : CtxObj) (sites_per_core : Z) :
  configured config v obj →
  configured config v (set_sites_per_core obj sites_per_core).
Proof. by intros (? & ? & ? & ? & ? & ? & ?). Qed.

(** One year of a local run, for a job name without a year. *)
Lemma run_year_local (config : GenConfig) (name : string) (verbose v : bool)
    (obj : CtxObj) (year : Z) (res_file : string) (sites_per_core : Z) :
  configured config v obj →
  cfg_option config = "local" →
  ceil_div (Z.of_nat (cfg_n_points config)) (cfg_ppn config)
  = Ok sites_per_core →
  py_in (pretty year) res_file = true →
  run_direct (year_run_args config name sites_per_core year res_file)
  = Ok () →
  run_year PBS_s qsub project_points_sites points_control run_direct config
    (config_verbose config verbose v)
    (set_year_names (set_res_file obj res_file) name year) year res_file
  = Cmd (local_year_effects config name (config_verbose config verbose v)
           sites_per_core (year, res_file))
        (Returns (set_sites_per_core
                    (set_year_names (set_res_file obj res_file) name year)
                    sites_per_core)).
Proof.
  intros Hcfg Hopt Hspc Hin Hrun. unfold run_year.
  rewrite does_bind, Hin. cbn [negb].
  rewrite bool_decide_eq_true_2 by done. rewrite Hspc, lift_Ok_bind.
  unfold local.
  rewrite (read_ctx_configured config v _ (name +:+ "_" +:+ pretty year)
             (name +:+ "_" +:+ pretty year +:+ ".h5") (PyStr res_file)
             (PyInt sites_per_core)); [| |done..].
  2:{ by apply configured_set_sites_per_core, configured_set_year_names,
        configured_set_res_file. }
  rewrite lift_Ok_bind. cbn [ctx_verbose ctx_name ctx_logdir ctx_tech
    ctx_points ctx_sam_files ctx_res_file ctx_cf_profiles ctx_sites_per_core
    ctx_fout ctx_dirout].
  rewrite config_verbose_absorbs. rewrite !does_bind.
  unfold Gen_run_direct.
  change {| rd_tech := cfg_tech config;
            rd_points := cfg_project_points config;
            rd_sam_files := cfg_sam_gen config;
            rd_res_file := PyStr res_file;
            rd_cf_profiles := cfg_write_profiles config;
            rd_n_workers := Some (cfg_ppn config);
            rd_sites_per_split := PyInt sites_per_core;
            rd_points_range := None;
            rd_fout := name +:+ "_" +:+ pretty year +:+ ".h5";
            rd_dirout := PyStr (cfg_dirout config) |}
    with (year_run_args config name sites_per_core year res_file).
  rewrite Hrun. reflexivity.
Qed.

(** The loop over the years of a local run while the years match their
    resource files. *)
Lemma from_config_years_local (config : GenConfig) (name : string)
    (verbose v : bool) (sites_per_core : Z) (before rest : list Z) :
  re_match_year name = false →
  cfg_option config = "local" →
  ceil_div (Z.of_nat (cfg_n_points config)) (cfg_ppn config)
  = Ok sites_per_core →
  ∀ (i : nat) (obj : CtxObj),
    configured config v obj →
    (∀ k year, before !! k = Some year →
       ∃ res_file,
         cfg_res_files config !! (i + k)%nat = Some res_file
         ∧ py_in (pretty year) res_file = true
         ∧ run_direct (year_run_args config name sites_per_core year res_file)
           = Ok ()) →
    ∃ obj',
      configured config v obj'
      ∧ from_config_years PBS_s qsub project_points_sites points_control
          run_direct config name (config_verbose config verbose v) i
          (before ++ rest) obj
        = Cmd (concat (map (local_year_effects config name
                              (config_verbose config verbose v)
                              sites_per_core)
                           (zip before (drop i (cfg_res_files config))))
               ++ did (from_config_years PBS_s qsub project_points_sites
                         points_control run_direct config name
                         (config_verbose config verbose v)
                         (i + length before) rest obj'))
              (ended (from_config_years PBS_s qsub project_points_sites
                        points_control run_direct config name
                        (config_verbose config verbose v)
                        (i + length before) rest obj')).
Proof.
  intros Hname Hopt Hspc.
  induction before as [|year before IH]; intros i obj Hcfg Hall.
  { exists obj. split; [done|]. cbn [app length zip map concat zip_with].
    rewrite Nat.add_0_r. by rewrite cmd_eta. }
  destruct (Hall 0%nat year eq_refl) as (res_file & Hres & Hin & Hrun).
  rewrite Nat.add_0_r in Hres.
  destruct (IH (S i)
              (set_sites_per_core
                 (set_year_names (set_res_file obj res_file) name year)
                 sites_per_core)) as (obj' & Hcfg' & Hloop).
  { by apply configured_set_sites_per_core, configured_set_year_names,
      configured_set_res_file. }
  { intros k y Hk. destruct (Hall (S k) y Hk) as (rf & Hrf & ?).
    exists rf. split; [|done].
    by replace (S i + k)%nat with (i + S k)%nat by lia. }
  exists obj'. split; [done|].
  cbn [app from_config_years]. rewrite Hres, cmd_bind_mret, Hname.
  rewrite (run_year_local config name verbose v obj year res_file
             sites_per_core) by done.
  rewrite cmd_bind_Returns, Hloop.
  rewrite (drop_S _ _ _ Hres). cbn [zip zip_with map concat did ended length].
  replace (i + S (length before))%nat with (S i + length before)%nat by lia.
  by rewrite app_assoc.
Qed.

(** X25.  A local run from a config, for a job name without a year: the
    years are run in order, the run of each year named [<name>_<year>],
    writing [<name>_<year>.h5] from the resource file of that year, on
    [ppn] workers with [ceil(len(points_control) / ppn)] sites per core.
    The year is added to the name the job was given, not to the name of the
    year before. *)
Theorem from_config_local_runs_each_year (config : GenConfig) (name : string)
    (v verbose : bool) (sites_per_core : Z) :
  re_match_year name = false →
  cfg_option config = "local" →
  ceil_div (Z.of_nat (cfg_n_points config)) (cfg_ppn config)
  = Ok sites_per_core →
  (∀ k year, cfg_years config !! k = Some year →
     ∃ res_file,
       cfg_res_files config !! k = Some res_file
       ∧ py_in (pretty year) res_file = true
       ∧ run_direct (year_run_args config name sites_per_core year res_file)
         = Ok ()) →
  did (from_config PBS_s qsub project_points_sites points_control run_direct
         (main empty_obj name v) config verbose)
  = InitGenLoggers (config_verbose config verbose v) name
      (PyStr (cfg_logdir config))
      ["reV.config"; "reV.generation"; "reV.execution"]
    :: concat (map (local_year_effects config name
                      (config_verbose config verbose v) sites_per_core)
                   (zip (cfg_years config) (cfg_res_files config)))
  ∧ ∃ obj,
      ended (from_config PBS_s qsub project_points_sites points_control
               run_direct (main empty_obj name v) config verbose)
      = Returns obj.
Proof.
  intros Hname Hopt Hspc Hall.
  destruct (from_config_after_main config name v verbose)
    as (obj & Hcfg & Hn & Hf & Hs & ->).
  destruct (from_config_years_local config name verbose v sites_per_core
              (cfg_years config) [] Hname Hopt Hspc 0%nat obj Hcfg Hall)
    as (obj' & Hcfg' & Hloop).
  rewrite app_nil_r in Hloop. rewrite Hloop. cbn [did ended from_config_years].
  split; [|by exists obj'].
  cbn. by rewrite app_nil_r.
Qed.

(** X26.  When the resource file of a year does not have the year in its
    name, [from_config] raises the [Exception] that says so, after the runs
    of the years before it and the announcement of this year, and without
    running it or any later year; with fewer resource files than years it
    ends in [IndexError] in the same place, before the announcement. *)
Theorem from_config_year_mismatch (config : GenConfig) (name : string)
    (v verbose : bool) (sites_per_core : Z) (before after : list Z)
    (year : Z) :
  re_match_year name = false →
  cfg_option config = "local" →
  ceil_div (Z.of_nat (cfg_n_points config)) (cfg_ppn config)
  = Ok sites_per_core →
  cfg_years config = before ++ year :: after →
  (∀ k y, before !! k = Some y →
     ∃ res_file,
       cfg_res_files config !! k = Some res_file
       ∧ py_in (pretty y) res_file = true
       ∧ run_direct (year_run_args config name sites_per_core y res_file)
         = Ok ()) →
  (∀ res_file,
     cfg_res_files config !! length before = Some res_file →
     py_in (pretty year) res_file = false →
     from_config PBS_s qsub project_points_sites points_control run_direct
       (main empty_obj name v) config verbose
     = Cmd (InitGenLoggers (config_verbose config verbose v) name
              (PyStr (cfg_logdir config))
              ["reV.config"; "reV.generation"; "reV.execution"]
            :: concat (map (local_year_effects config name
                              (config_verbose config verbose v)
                              sites_per_core)
                           (zip before (cfg_res_files config)))
            ++ [Echo (year_msg year res_file)])
           (Raises (Exception (mismatch_msg year res_file))))
  ∧ (cfg_res_files config !! length before = None →
     from_config PBS_s qsub project_points_sites points_control run_direct
       (main empty_obj name v) config verbose
     = Cmd (InitGenLoggers (config_verbose config verbose v) name
              (PyStr (cfg_logdir config))
              ["reV.config"; "reV.generation"; "reV.execution"]
            :: concat (map (local_year_effects config name
                              (config_verbose config verbose v)
                              sites_per_core)
                           (zip before (cfg_res_files config))))
           (Raises (IndexError "list index out of range"))).
Proof.
  intros Hname Hopt Hspc Hyears Hall.
  destruct (from_config_after_main config name v verbose)
    as (obj & Hcfg & Hn & Hf & Hs & ->).
  destruct (from_config_years_local config name verbose v sites_per_core
              before (year :: after) Hname Hopt Hspc 0%nat obj Hcfg Hall)
    as (obj' & Hcfg' & Hloop).
  rewrite Hyears, Hloop. cbn [did ended from_config_years Nat.add drop].
  split.
  - intros res_file Hres Hin. rewrite Hres, cmd_bind_mret, Hname.
    unfold run_year. rewrite does_bind, Hin. cbn. reflexivity.
  - intros Hres. rewrite Hres. cbn. by rewrite app_nil_r.
Qed.

(** X27.  The execution option is looked at once per year and not before:
    with an option other than ['local'] and ['peregrine'], [from_config]
    raises [ConfigError] in the first year, after the loggers were set up
    and the year was announced; with no year to run it returns having only
    set up the loggers, whatever the option and the job name are. *)
Theorem from_config_option_checked_per_year (config : GenConfig)
    (name : string) (v verbose : bool) :
  (cfg_years config = [] →
   did (from_config PBS_s qsub project_points_sites points_control run_direct
          (main empty_obj name v) config verbose)
   = [InitGenLoggers (config_verbose config verbose v) name
        (PyStr (cfg_logdir config))
        ["reV.config"; "reV.generation"; "reV.execution"]]
   ∧ ∃ obj,
       ended (from_config PBS_s qsub project_points_sites points_control
                run_direct (main empty_obj name v) config verbose)
       = Returns obj)
  ∧ (∀ year years res_file,
       cfg_years config = year :: years →
       cfg_res_files config !! 0%nat = Some res_file →
       py_in (pretty year) res_file = true →
       cfg_option config ≠ "local" →
       cfg_option config ≠ "peregrine" →
       from_config PBS_s qsub project_points_sites points_control run_direct
         (main empty_obj name v) config verbose
       = Cmd [InitGenLoggers (config_verbose config verbose v) name
                (PyStr (cfg_logdir config))
                ["reV.config"; "reV.generation"; "reV.execution"];
              Echo (year_msg year res_file)]
             (Raises (Builtin
                        (ConfigError ("Execution option not recognized: "
                                      +:+ dquote +:+ cfg_option config
                                      +:+ dquote))))).
Proof.
  destruct (from_config_after_main config name v verbose)
    as (obj & Hcfg & Hn & Hf & Hspc & ->).
  split.
  - intros ->. cbn. split; [done|]. by exists obj.
  - intros year years res_file -> Hres Hin Hlocal Hper.
    cbn [from_config_years]. rewrite Hres, cmd_bind_mret.
    destruct (re_match_year name);
      unfold run_year; rewrite does_bind, Hin; cbn [negb];
      by rewrite !bool_decide_eq_false_2 by done.
Qed.

End CLIFacts.

Section LocalFacts.
Variable run_direct : RunDirectArgs → result unit.

(** X28.  Through [main], [direct] and [local] the values given to
    [direct] reach [Gen.run_direct] as they are, with the workers and the
    range given to [local]; the run is logged verbosely when [local] or
    [main] got the flag, and the flag given to [direct] changes nothing.
    [direct] without [main] before it ends in [KeyError('verbose')]. *)
Theorem direct_local_round_trip (name : string) (v vd vl : bool)
    (tech points sam_files res_file sites_per_core : pyval) (fout : string)
    (dirout logdir : pyval) (cf_profiles : bool) (n_workers : option Z)
    (points_range : option (list Z)) :
  ∃ obj,
    (∀ vd',
       direct (main empty_obj name v) tech points sam_files res_file
              sites_per_core fout dirout logdir cf_profiles vd' = Ok obj)
    ∧ local run_direct obj n_workers points_range vl
      = Cmd ([InitGenLoggers (vl || v) name logdir gen_modules;
              Echo ("Kicking off reV generation local run " +:+ dquote
                    +:+ name +:+ dquote +:+ ".");
              GenRunDirect
                {| rd_tech := tech; rd_points := points;
                   rd_sam_files := sam_files; rd_res_file := res_file;
                   rd_cf_profiles := cf_profiles; rd_n_workers := n_workers;
                   rd_sites_per_split := sites_per_core;
                   rd_points_range := points_range; rd_fout := fout;
                   rd_dirout := dirout |}]
             ++ (if is_Ok (run_direct
                             {| rd_tech := tech; rd_points := points;
                                rd_sam_files := sam_files;
                                rd_res_file := res_file;
                                rd_cf_profiles := cf_profiles;
                                rd_n_workers := n_workers;
                                rd_sites_per_split := sites_per_core;
                                rd_points_range := points_range;
                                rd_fout := fout; rd_dirout := dirout |})
                 then [Echo "reV generation local run complete."] else []))
            (of_result
               (run_direct
                  {| rd_tech := tech; rd_points := points;
                     rd_sam_files := sam_files; rd_res_file := res_file;
                     rd_cf_profiles := cf_profiles; rd_n_workers := n_workers;
                     rd_sites_per_split := sites_per_core;
                     rd_points_range := points_range; rd_fout := fout;
                     rd_dirout := dirout |}))
    ∧ direct empty_obj tech points sam_files res_file sites_per_core fout
             dirout logdir cf_profiles vd
      = Raise (KeyError "verbose").
Proof.
  eexists. split; [intros vd'; reflexivity|]. split; [|reflexivity].
  unfold local. cbn [read_ctx main empty_obj obj_name obj_verbose obj_tech
    obj_points obj_sam_files obj_res_file obj_sites_per_core obj_fout
    obj_dirout obj_logdir obj_cf_profiles obj_getitem mbind result_bind].
  rewrite lift_Ok_bind. cbn [ctx_verbose ctx_name ctx_logdir ctx_tech
    ctx_points ctx_sam_files ctx_res_file ctx_cf_profiles ctx_sites_per_core
    ctx_fout ctx_dirout].
  rewrite !does_bind. unfold Gen_run_direct.
  destruct (run_direct _) as [[]| |]; reflexivity.
Qed.

End LocalFacts.

Section DispatchCommands.
Variable PBS_s : pyval → string.
Variable qsub : string → string → string → string → string → option string.

Lemma dispatch_from_commands (ctx : GenContext)
    (alloc queue stdout_path : string) (verbose : bool) (stripped : string)
    (pc : list Split) :
  fst (node_fout stripped 0) = stripped →
  ∀ (i0 : nat) (st : DispatchState),
    fst (node_fout (st_fout st) 0) = stripped →
    (pc ≠ [] →
     st_fout (dispatch_from PBS_s qsub ctx alloc queue stdout_path verbose
                i0 pc st) = stripped)
    ∧ (∀ k split, pc !! k = Some split →
         ∃ pbs,
           jobs (dispatch_from PBS_s qsub ctx alloc queue stdout_path verbose
                   i0 pc st) !! (i0 + k)%nat = Some pbs
           ∧ pbs_cmd pbs
             = node_cmd PBS_s ctx verbose
                 (ctx_name ctx +:+ "_" +:+ format_int (i0 + k))
                 (stripped +:+ "_node_" +:+ format_int (i0 + k) +:+ ".h5")
                 split).
Proof.
  intros Hstable. induction pc as [|split0 pc IH]; intros i0 st Hst.
  { split; [done|]. intros k split Hk. by rewrite lookup_nil in Hk. }
  cbn [dispatch_from].
  set (st1 := dispatch_node PBS_s qsub ctx alloc queue stdout_path verbose
                st i0 split0).
  assert (Hfout1 : st_fout st1 = stripped).
  { unfold st1, dispatch_node, node_fout. cbn. exact Hst. }
  assert (Hjob1 : ∃ pbs,
            jobs st1 !! i0 = Some pbs
            ∧ pbs_cmd pbs
              = node_cmd PBS_s ctx verbose
                  (ctx_name ctx +:+ "_" +:+ format_int i0)
                  (stripped +:+ "_node_" +:+ format_int i0 +:+ ".h5")
                  split0).
  { unfold st1, dispatch_node. unfold node_fout in *. cbn in *.
    rewrite lookup_insert_eq. eexists. split; [reflexivity|]. cbn.
    by rewrite Hst. }
  destruct (IH (S i0) st1) as [Hfout Hjobs].
  { by rewrite Hfout1. }
  split.
  - intros _. destruct pc as [|split1 pc']; [exact Hfout1|].
    by apply Hfout.
  - intros [|k] split Hk.
    + cbn in Hk. injection Hk as <-. rewrite Nat.add_0_r.
      destruct (dispatch_from_jobs PBS_s qsub ctx alloc queue stdout_path
                  verbose pc (S i0) st1) as (Hlow & _).
      rewrite Hlow by lia. exact Hjob1.
    + cbn in Hk. destruct (Hjobs k split Hk) as (pbs & Hpbs & Hcmd).
      replace (i0 + S k)%nat with (S i0 + k)%nat by lia. eauto.
Qed.

(** X29.  The file name is stripped once for the whole dispatch: the
    command submitted for node [i] is the command of split [i] under the job
    name [<name>_<i>], writing to [<stripped>_node_<i>.h5], where
    [stripped] is the same for every node, what [fout.strip('.h5')] makes of
    the output name when it ends in ['.h5']. *)
Theorem dispatch_loop_commands (ctx : GenContext)
    (alloc queue stdout_path : string) (verbose : bool) (pc : list Split)
    (i : nat) (split : Split) :
  pc !! i = Some split →
  ∃ pbs,
    jobs (dispatch_loop PBS_s qsub ctx alloc queue stdout_path verbose pc)
      !! i = Some pbs
    ∧ pbs_cmd pbs
      = node_cmd PBS_s ctx verbose (ctx_name ctx +:+ "_" +:+ format_int i)
          ((if endswith (ctx_fout ctx) ".h5"
            then py_strip (ctx_fout ctx) ".h5" else ctx_fout ctx)
           +:+ "_node_" +:+ format_int i +:+ ".h5")
          split
    ∧ st_fout (dispatch_loop PBS_s qsub ctx alloc queue stdout_path verbose
                 pc)
      = (if endswith (ctx_fout ctx) ".h5"
         then py_strip (ctx_fout ctx) ".h5" else ctx_fout ctx).
Proof.
  intros Hi. unfold dispatch_loop.
  destruct (dispatch_from_commands ctx alloc queue stdout_path verbose
              (fst (node_fout (ctx_fout ctx) 0)) pc
              (node_fout_stable (ctx_fout ctx) 0 0) 0%nat
              {| st_fout := ctx_fout ctx; jobs := ∅; echoed := [] |}
              eq_refl) as [Hfout Hjobs].
  destruct (Hjobs i split Hi) as (pbs & Hpbs & Hcmd).
  exists pbs. split; [exact Hpbs|]. split; [exact Hcmd|].
  apply Hfout. intros ->. by rewrite lookup_nil in Hi.
Qed.

End DispatchCommands.

Lemma from_config_named_year_fails_witness :
  re_match_year "gen_2012" = true
  ∧ cfg_years ex_gen_config = 2012 :: [2013]
  ∧ cfg_res_files ex_gen_config !! 0%nat = Some "nsrdb_2012.h5"
  ∧ py_in (pretty 2012) "nsrdb_2012.h5" = true
  ∧ ex_from_config (main empty_obj "gen_2012" false) ex_gen_config false
    = Cmd [InitGenLoggers false "gen_2012" (PyStr "./out/log")
             ["reV.config"; "reV.generation"; "reV.execution"];
           Echo (year_msg 2012 "nsrdb_2012.h5")]
          (Raises (Builtin (KeyError "fout"))).
Proof.
  split; [reflexivity|]. split; [reflexivity|]. split; [reflexivity|].
  split; [reflexivity|].
  apply (from_config_named_year_fails ex_PBS_s ex_qsub
           ex_project_points_sites ex_points_control ex_run_direct
           ex_gen_config "gen_2012" false false 2012 [2013] "nsrdb_2012.h5").
  - reflexivity.
  - reflexivity.
  - reflexivity.
  - reflexivity.
  - left. split; [reflexivity|]. cbn. lia.
Defined.

Lemma ex_gen_config_years (k : nat) (year : Z) :
  cfg_years ex_gen_config !! k = Some year →
  ∃ res_file,
    cfg_res_files ex_gen_config !! k = Some res_file
    ∧ py_in (pretty year) res_file = true
    ∧ ex_run_direct (year_run_args ex_gen_config "reV_gen" 25 year res_file)
      = Ok ().
Proof.
  destruct k as [|[|k]]; cbn; intros Hk.
  - injection Hk as <-. by exists "nsrdb_2012.h5".
  - injection Hk as <-. by exists "nsrdb_2013.h5".
  - done.
Qed.

Lemma from_config_local_runs_each_year_witness :
  re_match_year "reV_gen" = false
  ∧ cfg_option ex_gen_config = "local"
  ∧ ceil_div (Z.of_nat (cfg_n_points ex_gen_config)) (cfg_ppn ex_gen_config)
    = Ok 25
  ∧ did (ex_from_config (main empty_obj "reV_gen" false) ex_gen_config false)
    = InitGenLoggers false "reV_gen" (PyStr "./out/log")
        ["reV.config"; "reV.generation"; "reV.execution"]
      :: local_year_effects ex_gen_config "reV_gen" false 25
           (2012, "nsrdb_2012.h5")
      ++ local_year_effects ex_gen_config "reV_gen" false 25
           (2013, "nsrdb_2013.h5").
Proof.
  split; [reflexivity|]. split; [reflexivity|]. split; [reflexivity|].
  exact (proj1 (from_config_local_runs_each_year ex_PBS_s ex_qsub
                  ex_project_points_sites ex_points_control ex_run_direct
                  ex_gen_config "reV_gen" false false 25
                  eq_refl eq_refl eq_refl ex_gen_config_years)).
Defined.

Lemma ex_gen_config_2014_before (k : nat) (y : Z) :
  [2012] !! k = Some y →
  ∃ res_file,
    cfg_res_files ex_gen_config_2014 !! k = Some res_file
    ∧ py_in (pretty y) res_file = true
    ∧ ex_run_direct (year_run_args ex_gen_config_2014 "reV_gen" 25 y res_file)
      = Ok ().
Proof.
  destruct k as [|k]; cbn; intros Hk; [|done].
  injection Hk as <-. by exists "nsrdb_2012.h5".
Qed.

Lemma from_config_year_mismatch_witness :
  re_match_year "reV_gen" = false
  ∧ cfg_option ex_gen_config_2014 = "local"
  ∧ cfg_years ex_gen_config_2014 = [2012] ++ 2013 :: []
  ∧ cfg_res_files ex_gen_config_2014 !! 1%nat = Some "nsrdb_2014.h5"
  ∧ py_in (pretty 2013) "nsrdb_2014.h5" = false
  ∧ ex_from_config (main empty_obj "reV_gen" false) ex_gen_config_2014 false
    = Cmd (InitGenLoggers false "reV_gen" (PyStr "./out/log")
             ["reV.config"; "reV.generation"; "reV.execution"]
           :: local_year_effects ex_gen_config_2014 "reV_gen" false 25
                (2012, "nsrdb_2012.h5")
           ++ [Echo (year_msg 2013 "nsrdb_2014.h5")])
          (Raises (Exception (mismatch_msg 2013 "nsrdb_2014.h5"))).
Proof.
  split; [reflexivity|]. split; [reflexivity|]. split; [reflexivity|].
  split; [reflexivity|]. split; [reflexivity|].
  exact (proj1 (from_config_year_mismatch ex_PBS_s ex_qsub
                  ex_project_points_sites ex_points_control ex_run_direct
                  ex_gen_config_2014 "reV_gen" false false 25 [2012] []
                  2013 eq_refl eq_refl eq_refl eq_refl
                  ex_gen_config_2014_before)
           "nsrdb_2014.h5" eq_refl eq_refl).
Defined.

Lemma dispatch_loop_commands_witness :
  ex_pc !! 1%nat = Some {| split_range := (2%nat, 4%nat) |}
  ∧ ∃ pbs,
      jobs ex_dispatch !! 1%nat = Some pbs
      ∧ pbs_cmd pbs
        = node_cmd ex_PBS_s ex_ctx false "reV_gen_1" "gen_201_node_1.h5"
            {| split_range := (2%nat, 4%nat) |}.
Proof.
  split; [reflexivity|].
  destruct (dispatch_loop_commands ex_PBS_s ex_qsub ex_ctx "rev" "short"
              "./out/stdout" false ex_pc 1
              {| split_range := (2%nat, 4%nat) |} eq_refl)
    as (pbs & Hpbs & Hcmd & _).
  exists pbs. split; [exact Hpbs|exact Hcmd].
Defined.

Lemma from_config_option_checked_per_year_witness :
  cfg_years ex_gen_config_slurm = 2012 :: [2013]
  ∧ cfg_res_files ex_gen_config_slurm !! 0%nat = Some "nsrdb_2012.h5"
  ∧ py_in (pretty 2012) "nsrdb_2012.h5" = true
  ∧ cfg_option ex_gen_config_slurm ≠ "local"
  ∧ cfg_option ex_gen_config_slurm ≠ "peregrine"
  ∧ ex_from_config (main empty_obj "reV_gen" true) ex_gen_config_slurm false
    = Cmd [InitGenLoggers true "reV_gen" (PyStr "./out/log")
             ["reV.config"; "reV.generation"; "reV.execution"];
           Echo (year_msg 2012 "nsrdb_2012.h5")]
          (Raises (Builtin
                     (ConfigError ("Execution option not recognized: "
                                   +:+ dquote +:+ "slurm" +:+ dquote)))).
Proof.
  split; [reflexivity|]. split; [reflexivity|]. split; [reflexivity|].
  split; [discriminate|]. split; [discriminate|].
  exact (proj2 (from_config_option_checked_per_year ex_PBS_s ex_qsub
                  ex_project_points_sites ex_points_control ex_run_direct
                  ex_gen_config_slurm "reV_gen" true false)
           2012 [2013] "nsrdb_2012.h5" eq_refl eq_refl eq_refl
           ltac:(discriminate) ltac:(discriminate)).
Defined.
